(** * Automated quotation service

    A shallow embedding of [app.py] (quotation numbers, directory search,
    PDF composition, the request handler [index]) and of [downlod.py]
    (the [/download] route), with the properties of the specification
    proved, amended or refuted against it.

    Conventions of the model.
    - Python [str] is [string]; a character is an [ascii], that is, a
      code point below 256, one [ascii] each, and [str.lower] is the
      interpreter's on those code points.
    - Python [int] is [Z]; Python [float] is the kernel's binary64
      [float], so every sum and product below rounds exactly as the
      interpreter's does.
    - The filesystem is a finite tree of directories and files without
      symbolic links or permission bits; a path string is resolved
      component by component as the kernel does ([.] and [..] included),
      and no entry is created under a name of more than 255 bytes. Paths
      as a whole are taken to stay below the kernel's limit of 4096
      bytes, which the configured roots leave ample room for.
    - What the interpreter and its libraries supply (parsing and
      printing floats, the clock, the configured roots) is gathered in
      the class [Runtime]; the entropy behind [random.randint] is a
      sequence [nat -> Z]. *)

From Stdlib Require Import ZArith String Ascii List Lia Bool.
From Stdlib Require Import DecimalString DecimalZ DecimalN.
From Corelib Require Import PrimFloat SpecFloat FloatOps.
From stdpp Require Import gmap strings list.

Set Warnings "-inexact-float,-register-all,-notation-for-abbreviation".
Local Open Scope Z_scope.

(** ** Python strings *)

Module Py.

(** [c.lower()] for one character. Below code point 256 the capital
    letters are [A] to [Z] (65 to 90) and the accented capitals 192 to
    222, the multiplication sign 215 excepted; each has its small letter
    32 places up, and every other character is its own lower case. *)
Definition lower_char (c : ascii) : ascii :=
  let n := nat_of_ascii c in
  if ((65 <=? n) && (n <=? 90) || (192 <=? n) && (n <=? 222) && negb (n =? 215))%nat
  then ascii_of_nat (n + 32) else c.

(** [s.lower()] *)
Fixpoint lower (s : string) : string :=
  match s with
  | EmptyString => EmptyString
  | String c s' => String (lower_char c) (lower s')
  end.

(** [s.startswith(pre)] *)
Fixpoint startswith (pre s : string) : bool :=
  match pre, s with
  | EmptyString, _ => true
  | String a pre', String b s' => Ascii.eqb a b && startswith pre' s'
  | String _ _, EmptyString => false
  end.

(** [s.endswith(suf)] *)
Fixpoint endswith (suf s : string) : bool :=
  String.eqb s suf ||
  match s with
  | EmptyString => false
  | String _ s' => endswith suf s'
  end.

(** [needle in hay] on strings *)
Fixpoint contains (needle hay : string) : bool :=
  startswith needle hay ||
  match hay with
  | EmptyString => false
  | String _ hay' => contains needle hay'
  end.

(** Truth value of a string: [bool(s)]. *)
Definition truthy (s : string) : bool :=
  match s with EmptyString => false | _ => true end.

(** Truth value of an optional string ([None] is false). *)
Definition truthy_opt (o : option string) : bool :=
  match o with Some s => truthy s | None => false end.

(** [str(n)] for an integer. *)
Definition str (n : Z) : string := NilEmpty.string_of_int (Z.to_int n).

Fixpoint zeros (k : nat) : string :=
  match k with O => EmptyString | S k' => String "0" (zeros k') end.

(** [s.zfill(width)]: zeros on the left, after a leading sign if any. *)
Definition zfill (width : nat) (s : string) : string :=
  let pad := zeros (width - String.length s) in
  match s with
  | String c s' =>
      if Ascii.eqb c "+" || Ascii.eqb c "-" then String c (pad +:+ s')
      else pad +:+ s
  | EmptyString => pad
  end.

(** The character class [[A-Za-z0-9\-]]. *)
Definition safe_char (c : ascii) : bool :=
  let n := nat_of_ascii c in
  ((65 <=? n) && (n <=? 90) || (97 <=? n) && (n <=? 122) ||
   (48 <=? n) && (n <=? 57) || (n =? 45))%nat.

(** [re.sub(r'[^A-Za-z0-9\-]', '_', s)] *)
Fixpoint sub_unsafe (s : string) : string :=
  match s with
  | EmptyString => EmptyString
  | String c s' => String (if safe_char c then c else "_"%char) (sub_unsafe s')
  end.

End Py.

(** ** Paths ([posixpath]) *)

Module Path.

Definition sep : ascii := "/"%char.

Definition is_abs (p : string) : bool :=
  match p with String c _ => Ascii.eqb c sep | EmptyString => false end.

Fixpoint ends_with_sep (p : string) : bool :=
  match p with
  | EmptyString => false
  | String c EmptyString => Ascii.eqb c sep
  | String _ p' => ends_with_sep p'
  end.

(** One step of [os.path.join]: an absolute right operand wins; a
    separator is added unless the left one is empty or ends with one. *)
Definition join (a b : string) : string :=
  if is_abs b then b
  else if negb (Py.truthy a) || ends_with_sep a then a +:+ b
  else a +:+ String sep b.

(** [os.path.join(a, b, c)] *)
Definition join3 (a b c : string) : string := join (join a b) c.

(** The components of a path, as [p.split('/')] gives them. *)
Fixpoint components (p : string) : list string :=
  match p with
  | EmptyString => [EmptyString]
  | String c p' =>
      if Ascii.eqb c sep then EmptyString :: components p'
      else match components p' with
           | x :: xs => String c x :: xs
           | [] => [String c EmptyString]
           end
  end.

(** [os.path.basename] *)
Definition basename (p : string) : string := List.last (components p) EmptyString.

(** A component that names an entry: not empty, not [.], not [..],
    no separator inside. *)
Fixpoint has_sep (s : string) : bool :=
  match s with
  | EmptyString => false
  | String c s' => Ascii.eqb c sep || has_sep s'
  end.

Definition is_name (s : string) : bool :=
  Py.truthy s && negb (String.eqb s ".") && negb (String.eqb s "..") && negb (has_sep s).

End Path.

(** ** PDF documents (PyPDF2 and reportlab, as far as the service uses them) *)

Module Pdf.

(** What a page holds: drawing operations in the order they were issued.
    [stream] stands for content that was already on a template page. *)
Inductive op :=
  | setFont (name : string) (size : Z)
  | drawString (x y : float) (text : string)
  | drawRightString (x y : float) (text : string)
  | stream (raw : string).

Definition page := list op.
Definition document := list page.

(** [page.merge_page(other)]: the other page's content is drawn on top. *)
Definition merge_page (p other : page) : page := p ++ other.

(** A reportlab canvas: the pages already shown and the one being drawn. *)
Record canvas := { shown : list page; current : page }.

Definition Canvas : canvas := {| shown := []; current := [] |}.

Definition draw (c : canvas) (o : op) : canvas :=
  {| shown := shown c; current := current c ++ [o] |}.

Definition showPage (c : canvas) : canvas :=
  {| shown := shown c ++ [current c]; current := [] |}.

(** [c.save()] followed by [PdfReader(packet).pages] *)
Definition save (c : canvas) : document := shown c.

End Pdf.

(** ** The filesystem *)

Module FS.

Inductive content :=
  | Bytes (data : string)
  | PdfFile (doc : Pdf.document).

Inductive node :=
  | File (c : content)
  | Dir (entries : gmap string node).

(** The tree below [/] and the working directory of the process. *)
Record state := { root : node; cwd : list string }.

(** The node at a canonical path (a list of entry names from the root). *)
Fixpoint get (t : node) (p : list string) : option node :=
  match p with
  | [] => Some t
  | c :: p' =>
      match t with
      | Dir es => match es !! c with Some child => get child p' | None => None end
      | File _ => None
      end
  end.

Definition is_dir_at (t : node) (p : list string) : bool :=
  match get t p with Some (Dir _) => true | _ => false end.

(** Store [n] at a canonical path. *)
Fixpoint put (t : node) (p : list string) (n : node) : node :=
  match p with
  | [] => n
  | c :: p' =>
      match t with
      | Dir es => Dir (<[c := put (default (Dir ∅) (es !! c)) p' n]> es)
      | File _ => t
      end
  end.

Definition is_dot (c : string) : bool := String.eqb c "" || String.eqb c ".".

(** Follow one component from the directory [cur]; a component can only
    be followed from a directory. *)
Definition step (t : node) (cur : list string) (c : string) : option (list string) :=
  if is_dir_at t cur then
    Some (if is_dot c then cur
          else if String.eqb c ".." then removelast cur
          else cur ++ [c])
  else None.

Fixpoint walk (t : node) (cur : list string) (comps : list string) : option (list string) :=
  match comps with
  | [] => Some cur
  | c :: cs => match step t cur c with Some cur' => walk t cur' cs | None => None end
  end.

Definition start (fs : state) (p : string) : list string :=
  if Path.is_abs p then [] else cwd fs.

(** The canonical path a path string denotes, when it denotes something. *)
Definition resolve (fs : state) (p : string) : option (list string) :=
  if Py.truthy p then
    match walk (root fs) (start fs p) (Path.components p) with
    | Some c => match get (root fs) c with Some _ => Some c | None => None end
    | None => None
    end
  else None.

Definition lookup (fs : state) (p : string) : option node :=
  match resolve fs p with Some c => get (root fs) c | None => None end.

(** [os.path.exists] *)
Definition path_exists (fs : state) (p : string) : bool :=
  match lookup fs p with Some _ => true | None => false end.

(** [os.path.isdir] *)
Definition isdir (fs : state) (p : string) : bool :=
  match lookup fs p with Some (Dir _) => true | _ => false end.

(** [os.listdir], in the order the directory yields its entries (the
    empty list stands in for the error on something that is no directory;
    the service only lists what [isdir] accepted). *)
Definition listdir (fs : state) (p : string) : list string :=
  match lookup fs p with Some (Dir es) => (map_to_list es).*1 | _ => [] end.

(** [os.access(p, os.W_OK)]: without permission bits, what exists is writable. *)
Definition access_w (fs : state) (p : string) : bool := path_exists fs p.

(** The length of a name on disk: its UTF-8 encoding takes one byte for
    a code point below 128 and two for the others. *)
Fixpoint encoded_length (s : string) : nat :=
  match s with
  | EmptyString => O
  | String c s' => ((if nat_of_ascii c <? 128 then 1 else 2) + encoded_length s')%nat
  end.

Definition NAME_MAX : nat := 255.

(** A name a directory can hold. No directory of a real disk holds an
    entry under a longer name, so looking one up finds nothing, and the
    kernel says so with [ENAMETOOLONG]. *)
Definition fits (name : string) : bool := (encoded_length name <=? NAME_MAX)%nat.

(** The [OSError]s of the calls below, and the error of the PDF reader. *)
Inductive exn :=
  | FileNotFoundError (p : string)
  | NotADirectoryError (p : string)
  | IsADirectoryError (p : string)
  | FileExistsError (p : string)
  | FileNameTooLong (p : string)
  | PdfReadError (p : string).

(** One component of a walk that says why it stops: [cur] must be a
    directory, and a name is followed only to an entry that is there. *)
Definition step_to (p : string) (t : node) (cur : list string) (c : string)
    : exn + list string :=
  match get t cur with
  | Some (Dir es) =>
      if is_dot c then inr cur
      else if String.eqb c ".." then inr (removelast cur)
      else match es !! c with
           | Some _ => inr (cur ++ [c])
           | None => inl (if fits c then FileNotFoundError p else FileNameTooLong p)
           end
  | Some (File _) => inl (NotADirectoryError p)
  | None => inl (FileNotFoundError p)
  end.

Fixpoint walk_to (p : string) (t : node) (cur : list string) (comps : list string)
    : exn + list string :=
  match comps with
  | [] => inr cur
  | c :: cs =>
      match step_to p t cur c with
      | inr cur' => walk_to p t cur' cs
      | inl e => inl e
      end
  end.

(** The error of opening [p] when nothing is found under it. *)
Definition open_error (fs : state) (p : string) : exn :=
  if Py.truthy p then
    match walk_to p (root fs) (start fs p) (Path.components p) with
    | inl e => e
    | inr _ => FileNotFoundError p
    end
  else FileNotFoundError p.

(** One component of [os.makedirs]: descend, creating the directory when
    it is missing. *)
Definition mk_step (p : string) (acc : node * list string) (c : string)
    : exn + node * list string :=
  let (t, cur) := acc in
  match get t cur with
  | Some (Dir es) =>
      if is_dot c then inr (t, cur)
      else if String.eqb c ".." then inr (t, removelast cur)
      else match es !! c with
           | Some _ => inr (t, cur ++ [c])
           | None =>
               if fits c then inr (put t (cur ++ [c]) (Dir ∅), cur ++ [c])
               else inl (FileNameTooLong p)
           end
  | Some (File _) => inl (NotADirectoryError p)
  | None => inl (FileNotFoundError p)
  end.

(** The components in turn. A failure keeps the directories made so far:
    the tree comes back with the error. *)
Fixpoint mk_walk (p : string) (acc : node * list string) (comps : list string)
    : exn * node + node * list string :=
  match comps with
  | [] => inr acc
  | c :: cs =>
      match mk_step p acc c with
      | inr acc' => mk_walk p acc' cs
      | inl e => inl (e, acc.1)
      end
  end.

(** [os.makedirs(p)]. On the left the [OSError] raised (the path exists
    already, a file stands where a directory is needed, a name is too
    long) with the disk as the call left it, the ancestors it had made
    included; on the right the disk after the call returned. *)
Definition makedirs (fs : state) (p : string) : exn * state + state :=
  if path_exists fs p then inl (FileExistsError p, fs)
  else if negb (Py.truthy p) then inl (FileNotFoundError p, fs)
  else match mk_walk p (root fs, start fs p) (Path.components p) with
       | inr (t, cur) =>
           if is_dir_at t cur then inr {| root := t; cwd := cwd fs |}
           else inl (NotADirectoryError p, {| root := t; cwd := cwd fs |})
       | inl (e, t) => inl (e, {| root := t; cwd := cwd fs |})
       end.

(** [PdfReader(p).pages] *)
Definition read_pdf (fs : state) (p : string) : exn + Pdf.document :=
  match lookup fs p with
  | Some (File (PdfFile d)) => inr d
  | Some (File (Bytes _)) => inl (PdfReadError p)
  | Some (Dir _) => inl (IsADirectoryError p)
  | None => inl (open_error fs p)
  end.

(** [with open(p, 'wb') as f: f.write(c)]: the walk to the parent must
    end in a directory, the last component must be a name and [p] no
    directory; an existing file is replaced, and a new one needs a name
    that fits. *)
Definition write_file (fs : state) (p : string) (c : content) : exn + state :=
  let comps := Path.components p in
  let name := List.last comps EmptyString in
  match (if Py.truthy p then walk_to p (root fs) (start fs p) (removelast comps)
         else inl (FileNotFoundError p)) with
  | inr dir =>
      match get (root fs) dir with
      | Some (Dir es) =>
          if Path.is_name name then
            match es !! name with
            | Some (Dir _) => inl (IsADirectoryError p)
            | Some (File _) => inr {| root := put (root fs) (dir ++ [name]) (File c); cwd := cwd fs |}
            | None =>
                if fits name
                then inr {| root := put (root fs) (dir ++ [name]) (File c); cwd := cwd fs |}
                else inl (FileNameTooLong p)
            end
          else inl (IsADirectoryError p)
      | Some (File _) => inl (NotADirectoryError p)
      | None => inl (FileNotFoundError p)
      end
  | inl e => inl e
  end.

End FS.

(** ** What the interpreter supplies *)

Class Runtime := {
  (** [float(s)]; [None] is [ValueError] *)
  float_of_str : string -> option float;
  (** [str(x)] for a float *)
  str_of_float : float -> string;
  (** [f"{x:.0f}"] *)
  format_0f : float -> string;
  (** [str(e)] for a caught exception *)
  str_of_exn : FS.exn -> string;
  (** [app.config['QUOTATIONS_DIR']] and [app.config['TEMPLATE_DIR']] *)
  QUOTATIONS_DIR : string;
  TEMPLATE_DIR : string;
  (** [datetime.now().strftime('%Y-%m-%d')] *)
  today : string;
}.

(** [random.randint(a, b)], the [k]-th draw of the process: every value
    of the entropy gives a number of [[a, b]], and every sequence of
    numbers of [[a, b]] comes from some entropy. *)
Definition randint (entropy : nat -> Z) (k : nat) (a b : Z) : Z :=
  a + entropy k mod (b - a + 1).

(** [bool(x)] for a float: [x != 0.0] (so [nan] is true and [-0.0] false). *)
Definition float_truthy (x : float) : bool := negb (x =? 0)%float.

(** ** Data of the service *)

Record item := {
  quantity : float;
  rate : float;
  amount : float;
  vat : float;
}.

Record quotation := {
  quotation_no : string;
  date : string;
  client_name : string;
  rep : string;
  quote_items : list item;
  subtotal : float;
  tax : float;
  total : float;
}.

(** One entry of a search result: [{'file': ..., 'url': ...}]. *)
Record found := { file : string; url : string }.

(** What [get_quotation_files] returns: [{'results': ...}] or [{'error': ...}]. *)
Inductive search_result :=
  | results (l : list found)
  | error (msg : string).

Inductive method := GET | POST.

(** A request: the query string and the form, as multi-dictionaries. *)
Record request := {
  meth : method;
  args : list (string * string);
  form : list (string * string);
}.

(** [d.get(k)] *)
Fixpoint field (d : list (string * string)) (k : string) : option string :=
  match d with
  | [] => None
  | (k', v) :: d' => if String.eqb k' k then Some v else field d' k
  end.

(** [d.get(k, '')] *)
Definition field_or_empty (d : list (string * string)) (k : string) : string :=
  default EmptyString (field d k).

(** [d.getlist(k)] *)
Definition getlist (d : list (string * string)) (k : string) : list string :=
  map snd (List.filter (fun kv => String.eqb (fst kv) k) d).

(** The variables handed to [index.html]. *)
Record context := {
  quotation_data : quotation;
  quotation_files : list found;
  errors : list string;
  success : bool;
  success_message : string;
  search_errors : list string;
  search_quotation_no : string;
  search_rep : string;
}.

Inductive response :=
  | render_template (template : string) (ctx : context)
  | redirect (endpoint : string) (flashed : string).

(** What a call of [download_file] comes to: an [abort], a file sent, or
    an exception that nothing in the function catches. *)
Inductive exception :=
  | NameError (name : string)
  | OSError (e : FS.exn).

Inductive download_response :=
  | abort (code : Z) (description : string)
  | send_file (path : string) (as_attachment : bool)
  | raises (e : exception).

(** What [create_quotation_pdf] returns: [True] or the text of the exception. *)
Inductive pdf_result :=
  | Done
  | Failed (message : string).

(** ** app.py *)

Section App.
Context {rt : Runtime}.

(** *** generate_quotation_number *)

(** The [while] loop, run for at most [fuel] redraws. [counter] is the
    loop's counter; it is also the number of draws made so far, so the
    redraw is draw number [counter] of the call. *)
Fixpoint redraw (fuel : nat) (fs : FS.state) (output_dir : string) (entropy : nat -> Z)
    (counter : nat) (quotation_no : string) : option string :=
  if FS.path_exists fs (Path.join output_dir (quotation_no +:+ ".pdf")) then
    match fuel with
    | O => None
    | S fuel' =>
        let random_num :=
          Py.zfill 3 (Py.str (randint entropy counter 1 9999 + Z.of_nat counter * 10000)) in
        redraw fuel' fs output_dir entropy (S counter) ("Q-" +:+ random_num)
    end
  else Some quotation_no.

Definition generate_within (fuel : nat) (fs : FS.state) (output_dir : string)
    (entropy : nat -> Z) : option string :=
  let prefix := "Q-" in
  let random_num := Py.zfill 3 (Py.str (randint entropy 0 1 9999)) in
  let quotation_no := prefix +:+ random_num in
  redraw fuel fs output_dir entropy 1 quotation_no.

(** The quotation number the loop holds after [k] redraws: draw number
    [k], moved up by [k * 10000] (the first draw is not moved). *)
Definition candidate (entropy : nat -> Z) (k : nat) : string :=
  "Q-" +:+ Py.zfill 3 (Py.str (randint entropy k 1 9999 + Z.of_nat k * 10000)).

(** The directory whose entries the probes of the loop can meet:
    [os.path.join('', name)] is [name], looked up from the working directory. *)
Definition probed_dir (output_dir : string) : string :=
  if Py.truthy output_dir then output_dir else ".".

(** The function itself: the loop is given one redraw per entry of the
    probed directory, which is always enough, and more would change
    nothing ([redraws_suffice] below). *)
Definition generate_quotation_number (fs : FS.state) (output_dir : string)
    (entropy : nat -> Z) : string :=
  default EmptyString
    (generate_within (length (FS.listdir fs (probed_dir output_dir))) fs output_dir entropy).

(** *** get_quotation_files *)

Definition no_directories_message (search_rep : string) : string :=
  "No representative directories found" +:+
  (if Py.truthy search_rep then " matching: Representative: " +:+ search_rep else "").

Definition no_quotations_message (search_quotation_no search_rep : string) : string :=
  "No quotations found" +:+
  (if Py.truthy search_rep || Py.truthy search_quotation_no then
     " matching: " +:+
     (if Py.truthy search_rep then "Representative: " +:+ search_rep else "") +:+
     (if Py.truthy search_rep && Py.truthy search_quotation_no then " and " else "") +:+
     (if Py.truthy search_quotation_no then "Quotation No: " +:+ search_quotation_no else "")
   else "").

(** The representative directories kept by the filter. *)
Definition matching_dirs (fs : FS.state) (base_dir search_rep : string) : list string :=
  List.filter
    (fun d => FS.isdir fs (Path.join base_dir d) &&
              (negb (Py.truthy search_rep) || Py.contains (Py.lower search_rep) (Py.lower d)))
    (FS.listdir fs base_dir).

(** The files kept in one directory, each with its relative path. *)
Definition matching_files (fs : FS.state) (base_dir search_quotation_no dir_name : string)
    : list found :=
  let dir_path := Path.join base_dir dir_name in
  let files :=
    List.filter
      (fun f => Py.endswith ".pdf" f &&
                Py.contains (Py.lower search_quotation_no) (Py.lower f))
      (FS.listdir fs dir_path) in
  map (fun file => {| file := file; url := Path.join3 "quotations" dir_name file |}) files.

Definition get_quotation_files (fs : FS.state) (search_quotation_no search_rep : string)
    : search_result :=
  let base_dir := QUOTATIONS_DIR in
  if negb (FS.isdir fs base_dir) then error "No quotations directory found."
  else
    let dirs := matching_dirs fs base_dir search_rep in
    match dirs with
    | [] => error (no_directories_message search_rep)
    | _ =>
        let found_files := flat_map (matching_files fs base_dir search_quotation_no) dirs in
        match found_files with
        | [] => error (no_quotations_message search_quotation_no search_rep)
        | _ => results found_files
        end
    end.

(** *** create_quotation_pdf *)

(** The rows of the items table, from [y] downwards. *)
Fixpoint draw_items (c : Pdf.canvas) (y : float) (items : list item) : Pdf.canvas :=
  match items with
  | [] => c
  | item :: rest =>
      let x := 290%float in
      let c := Pdf.draw c (Pdf.drawString x y (str_of_float (quantity item))) in
      let x := (x + 60)%float in
      let c := Pdf.draw c (Pdf.drawString x y (format_0f (rate item))) in
      let x := (x + 90)%float in
      let c := Pdf.draw c (Pdf.drawString x y (format_0f (amount item))) in
      let x := (x + 90)%float in
      let c := Pdf.draw c (Pdf.drawString x y (format_0f (vat item))) in
      draw_items c (y - 20)%float rest
  end.

(** The overlay: everything drawn on the canvas up to [c.save()]. *)
Definition overlay (q : quotation) : Pdf.document :=
  let c := Pdf.Canvas in
  let c := Pdf.draw c (Pdf.setFont "Helvetica" 10) in
  let c := Pdf.draw c (Pdf.drawRightString 540.27 600.18 (quotation_no q)) in
  let c := Pdf.draw c (Pdf.drawRightString 540.27 620.18 (date q)) in
  let c := Pdf.draw c (Pdf.drawRightString 545.27 560.18 (rep q)) in
  let c := Pdf.draw c (Pdf.drawString 56.68 575.18 (client_name q)) in
  let c := draw_items c 450 (quote_items q) in
  let c := Pdf.draw c (Pdf.drawRightString 540 212.7 ("KES " +:+ format_0f (subtotal q))) in
  let c := Pdf.draw c (Pdf.drawRightString 540 178.53 ("KES " +:+ format_0f (tax q))) in
  let c := Pdf.draw c (Pdf.drawRightString 540 145.36 ("KES " +:+ format_0f (total q))) in
  let c := Pdf.showPage c in
  Pdf.save c.

(** The merge loop: page by page over the template. *)
Definition merge (template_pdf overlay_pdf : Pdf.document) : Pdf.document :=
  map (fun page_num =>
         let page := nth page_num template_pdf [] in
         if (page_num <? length overlay_pdf)%nat
         then Pdf.merge_page page (nth page_num overlay_pdf [])
         else page)
      (seq 0 (length template_pdf)).

(** The function: read the template, draw the overlay, merge, write. An
    exception of the reader or of the write is caught and its text
    returned; the filesystem is then as it was. *)
Definition create_quotation_pdf (fs : FS.state) (output_file : string) (quotation_data : quotation)
    (template_path : string) : FS.state * pdf_result :=
  match FS.read_pdf fs template_path with
  | inl e => (fs, Failed (str_of_exn e))
  | inr template_pdf =>
      let output_pdf := merge template_pdf (overlay quotation_data) in
      match FS.write_file fs output_file (FS.PdfFile output_pdf) with
      | inr fs' => (fs', Done)
      | inl e => (fs, Failed (str_of_exn e))
      end
  end.

(** *** index *)

(** The quotation a request starts from. *)
Definition blank_quotation : quotation :=
  {| quotation_no := ""; date := today; client_name := ""; rep := "";
     quote_items := []; subtotal := 0; tax := 0; total := 0 |}.

(** The outcome of a search as the handler files it: the error goes to
    [search_errors], the results to [quotation_files]. *)
Definition listing (quotation_files_data : search_result) : list string * list found :=
  match quotation_files_data with
  | error msg => ([msg], [])
  | results l => ([], l)
  end.

Definition row_error (i : nat) : string :=
  "Incomplete item data at row " +:+ Py.str (Z.of_nat i + 1) +:+
  ". Quantity, rate, amount, and VAT are required.".

(** The four conversions of row [i]; [None] is the [ValueError] of any of them. *)
Definition parse_row (quantities rates amounts vats : list string) (i : nat) : option item :=
  match float_of_str (nth i quantities ""), float_of_str (nth i rates ""),
        float_of_str (nth i amounts ""),
        (if Py.truthy (nth i vats "") then float_of_str (nth i vats "") else Some 0%float) with
  | Some quantity, Some rate, Some amount, Some vat =>
      Some {| quantity := quantity; rate := rate; amount := amount; vat := vat |}
  | _, _, _, _ => None
  end.

(** [quote_items.append(...)] with the two running sums. *)
Definition add_item (q : quotation) (it : item) : quotation :=
  {| quotation_no := quotation_no q; date := date q;
     client_name := client_name q; rep := rep q;
     quote_items := quote_items q ++ [it];
     subtotal := (subtotal q + amount it)%float;
     tax := (tax q + amount it * (vat it / 100))%float;
     total := total q |}.

(** The body of the loop over the rows. *)
Definition process_row (quantities rates amounts vats : list string)
    (st : quotation * list string) (i : nat) : quotation * list string :=
  let (q, errors) := st in
  match parse_row quantities rates amounts vats i with
  | None => (q, errors ++ [row_error i])
  | Some it =>
      if float_truthy (quantity it) && float_truthy (rate it) && float_truthy (amount it)
      then (add_item q it, errors)
      else (q, errors ++ [row_error i])
  end.

Definition same_lengths (quantities rates amounts vats : list string) : bool :=
  (length quantities =? length rates)%nat && (length rates =? length amounts)%nat &&
  (length amounts =? length vats)%nat.

(** The validation of the item arrays. *)
Definition process_items (quantities rates amounts vats : list string)
    (st : quotation * list string) : quotation * list string :=
  if negb (same_lengths quantities rates amounts vats) then
    (st.1, st.2 ++ ["Invalid item data submitted."])
  else
    let max_rows_per_page := 6 in
    if (Z.of_nat (length quantities) >? max_rows_per_page * 10) then
      (st.1, st.2 ++ ["Too many items. Maximum " +:+ Py.str (max_rows_per_page * 10) +:+
                      " items allowed."])
    else
      fold_left (process_row quantities rates amounts vats) (seq 0 (length quantities)) st.

Definition with_total (q : quotation) : quotation :=
  {| quotation_no := quotation_no q; date := date q;
     client_name := client_name q; rep := rep q;
     quote_items := quote_items q; subtotal := subtotal q; tax := tax q;
     total := (subtotal q + tax q)%float |}.

(** The three required-field checks. *)
Definition required_errors (q : quotation) : list string :=
  (if Py.truthy (client_name q) then [] else ["Client name is required."]) ++
  (if Py.truthy (rep q) then [] else ["Representative name is required."]) ++
  (match quote_items q with [] => ["At least one complete item is required."] | _ => [] end).

(** The directory of a representative, and the step that creates it. *)
Definition output_dir_of (rep_name : string) : string :=
  Path.join QUOTATIONS_DIR (Py.sub_unsafe rep_name).

Definition ensure_dir (fs : FS.state) (output_dir : string) : FS.state * list string :=
  if negb (FS.path_exists fs output_dir) then
    match FS.makedirs fs output_dir with
    | inr fs' => (fs', [])
    | inl (_, fs') => (fs', ["Failed to create directory: " +:+ output_dir])
    end
  else (fs, []).

(** The quotation and the errors of a submission, after validation and
    before any document is composed; [fs] is the filesystem once the
    directory step has run. *)
Definition validated (fs : FS.state) (entropy : nat -> Z) (req : request)
    (dir_errors : list string) : quotation * list string :=
  let client := field_or_empty (form req) "client_name" in
  let rep_name := field_or_empty (form req) "rep" in
  let quantities := getlist (form req) "quantity[]" in
  let rates := getlist (form req) "rate[]" in
  let amounts := getlist (form req) "amount[]" in
  let vats := getlist (form req) "vat[]" in
  let q :=
    {| quotation_no := generate_quotation_number fs (output_dir_of rep_name) entropy;
       date := today; client_name := client; rep := rep_name;
       quote_items := []; subtotal := 0; tax := 0; total := 0 |} in
  let (q, errors) := process_items quantities rates amounts vats (q, dir_errors) in
  let q := with_total q in
  (q, errors ++ required_errors q).

(** The page rendered at the end of [index]. *)
Definition page (req_search_no req_search_rep : string) (ls : list string * list found)
    (q : quotation) (errs : list string) : response :=
  render_template "index.html"
    {| quotation_data := q; quotation_files := ls.2; errors := errs;
       success := false; success_message := ""; search_errors := ls.1;
       search_quotation_no := req_search_no; search_rep := req_search_rep |}.

(** The handler. It answers with the page, or, after a document was
    stored, with the redirect that carries the flashed message (the
    listing refreshed just before the redirect is dropped with it). The
    outer [except] of the source has nothing to catch here:
    [create_quotation_pdf] returns its own failures. *)
Definition index (fs : FS.state) (entropy : nat -> Z) (req : request) : FS.state * response :=
  let search_no :=
    match meth req with
    | GET => field_or_empty (args req) "search"
    | POST => field_or_empty (form req) "search_quotation_no"
    end in
  let search_rp :=
    match meth req with
    | GET => field_or_empty (args req) "search_rep"
    | POST => field_or_empty (form req) "search_rep"
    end in
  let ls :=
    if Py.truthy search_no || Py.truthy search_rp
    then listing (get_quotation_files fs search_no search_rp)
    else listing (get_quotation_files fs "" "") in
  match meth req with
  | POST =>
      if negb (Py.truthy_opt (field (form req) "search_quotation_no") ||
               Py.truthy_opt (field (form req) "search_rep")) then
        let safe_client_name := Py.sub_unsafe (field_or_empty (form req) "client_name") in
        let output_dir := output_dir_of (field_or_empty (form req) "rep") in
        let (fs1, dir_errors) := ensure_dir fs output_dir in
        let (q, errs) := validated fs1 entropy req dir_errors in
        match errs with
        | [] =>
            let output_file :=
              Path.join output_dir (quotation_no q +:+ "_" +:+ safe_client_name +:+ ".pdf") in
            let template_path := Path.join TEMPLATE_DIR "QUOTATION.pdf" in
            if negb (FS.path_exists fs1 template_path) then
              (fs1, page search_no search_rp ls q
                      ["Quotation template not found: " +:+ template_path])
            else if negb (FS.access_w fs1 output_dir) then
              (fs1, page search_no search_rp ls q
                      ["Output directory is not writable: " +:+ output_dir])
            else
              match create_quotation_pdf fs1 output_file q template_path with
              | (fs2, Done) =>
                  let success_message :=
                    "Quotation generated successfully: " +:+ Path.basename output_file in
                  (fs2, redirect "index" success_message)
              | (fs2, Failed result) =>
                  (fs2, page search_no search_rp ls q ["PDF generation failed: " +:+ result])
              end
        | _ => (fs1, page search_no search_rp ls q errs)
        end
      else (fs, page search_no search_rp ls blank_quotation [])
  | GET => (fs, page search_no search_rp ls blank_quotation [])
  end.

(** ** downlod.py *)

(** The names bound in the module: what it imports ([send_file] and
    [abort] from flask, [os], [app] from the application) and the
    function it defines. *)
Definition module_names : list string := ["send_file"; "abort"; "os"; "app"; "download_file"].

(** A global name read in the module resolves when the module binds it
    (no builtin is called [request]). *)
Definition resolves (name : string) : bool := existsb (String.eqb name) module_names.

(** [download_file]. Its first statement reads the global [request];
    [query] is what [request.args] would hold. [send_file] opens the
    path it is given and cannot open a directory. *)
Definition download_file (fs : FS.state) (query : list (string * string)) : download_response :=
  if negb (resolves "request") then raises (NameError "request")
  else
    let file_path := field query "file" in
    if negb (Py.truthy_opt file_path) then abort 400 "No file specified"
    else
      let full_path := Path.join QUOTATIONS_DIR (default EmptyString file_path) in
      if negb (FS.path_exists fs full_path) then abort 404 "File not found"
      else if FS.isdir fs full_path then raises (OSError (FS.IsADirectoryError full_path))
      else send_file full_path true.

End App.

(** ** A concrete runtime and concrete filesystems

    Used to run the model on explicit inputs. The number conversions are
    those of the interpreter on the literals they cover: [read_float]
    reads an optional [-] and decimal digits (below [2^53], where the
    conversion is exact) and rejects everything else, the empty string
    included; [print_0f] rounds half to even; [print_float] prints the
    integral floats below [10^16], the only ones the examples print. *)

Module Sample.

Definition float_of_N (n : N) : float :=
  match n with
  | N0 => 0%float
  | Npos p => SF2Prim (S754_finite false p 0)
  end.

Definition read_float (s : string) : option float :=
  match NilEmpty.int_of_string s with
  | Some (Decimal.Pos Decimal.Nil) | Some (Decimal.Neg Decimal.Nil) => None
  | Some (Decimal.Pos d) =>
      if (N.of_uint d <? 2 ^ 53)%N then Some (float_of_N (N.of_uint d)) else None
  | Some (Decimal.Neg d) =>
      if (N.of_uint d <? 2 ^ 53)%N then Some (- float_of_N (N.of_uint d))%float else None
  | None => None
  end.

(** The integer nearest to [m * 2^e], ties to even. *)
Definition round_half_even (m : positive) (e : Z) : Z :=
  if 0 <=? e then Z.pos m * 2 ^ e
  else
    let d := 2 ^ (- e) in
    let q := Z.pos m / d in
    let r := Z.pos m mod d in
    if 2 * r <? d then q
    else if d <? 2 * r then q + 1
    else if Z.even q then q else q + 1.

Definition print_0f (x : float) : string :=
  match Prim2SF x with
  | S754_nan => "nan"
  | S754_infinity s => if s then "-inf" else "inf"
  | S754_zero s => if s then "-0" else "0"
  | S754_finite s m e =>
      (if s then "-" else "") +:+ Py.str (round_half_even m e)
  end.

Definition print_float (x : float) : string :=
  match Prim2SF x with
  | S754_nan => "nan"
  | S754_infinity s => if s then "-inf" else "inf"
  | S754_zero s => if s then "-0.0" else "0.0"
  | S754_finite s m e =>
      let n := round_half_even m e in
      if (0 <=? e) || (Z.pos m mod 2 ^ (- e) =? 0) then
        if n <? 10 ^ 16 then (if s then "-" else "") +:+ Py.str n +:+ ".0"
        else "<float>"
      else "<float>"
  end.

Definition print_exn (e : FS.exn) : string :=
  match e with
  | FS.FileNotFoundError p => "[Errno 2] No such file or directory: '" +:+ p +:+ "'"
  | FS.NotADirectoryError p => "[Errno 20] Not a directory: '" +:+ p +:+ "'"
  | FS.IsADirectoryError p => "[Errno 21] Is a directory: '" +:+ p +:+ "'"
  | FS.FileExistsError p => "[Errno 17] File exists: '" +:+ p +:+ "'"
  | FS.FileNameTooLong p => "[Errno 36] File name too long: '" +:+ p +:+ "'"
  | FS.PdfReadError _ => "EOF marker not found"
  end.

#[export] Instance runtime : Runtime := {|
  float_of_str := read_float;
  str_of_float := print_float;
  format_0f := print_0f;
  str_of_exn := print_exn;
  QUOTATIONS_DIR := "/srv/app/quotations";
  TEMPLATE_DIR := "/srv/app/files";
  today := "2025-01-15";
|}.

Definition dir (l : list (string * FS.node)) : FS.node := FS.Dir (list_to_map l).

(** A one-page template. *)
Definition template : Pdf.document := [[Pdf.stream "letterhead"]].

Definition disk (quotations : list (string * FS.node)) : FS.state :=
  {| FS.root :=
       dir [("etc", dir [("passwd", FS.File (FS.Bytes "root:x:0:0"))]);
            ("srv", dir [("app", dir [("files", dir [("QUOTATION.pdf", FS.File (FS.PdfFile template))]);
                                      ("quotations", dir quotations)])])];
     FS.cwd := ["srv"; "app"] |}.

Definition a_pdf : FS.node := FS.File (FS.PdfFile template).

(** The three directories of the search example. *)
Definition acme_disk : FS.state :=
  disk [("Acme Corp", dir [("Q-101_Alice.pdf", a_pdf); ("notes.txt", FS.File (FS.Bytes "call back"))]);
        ("Other", dir [("Q-202_Bob.pdf", a_pdf)]);
        ("acme-west", dir [("Q-303_Carol.pdf", a_pdf)])].

(** A representative's directory that holds a quotation and a directory
    named like a PDF. *)
Definition archive_disk : FS.state :=
  disk [("Bob", dir [("Q-101_Alice.pdf", a_pdf); ("archive.pdf", dir [])])].


(** A name of 256 characters. *)
Definition long_name : string := Py.zeros 256.

(** The entropy that makes every draw [n]. *)
Definition always (n : Z) : nat -> Z := fun _ => n - 1.

Definition submission (client rep_name : string) (rows : list (string * string * string * string))
    : request :=
  {| meth := POST; args := [];
     form := [("client_name", client); ("rep", rep_name)] ++
             flat_map (fun r => [("quantity[]", r.1.1.1); ("rate[]", r.1.1.2);
                                 ("amount[]", r.1.2); ("vat[]", r.2)]) rows |}.

(** One valid row: 2 at 5, amount 10, VAT 16. *)
Definition one_row : list (string * string * string * string) := [("2", "5", "10", "16")].

(** The same row after a row whose quantity is zero. *)
Definition zero_then_one_row : list (string * string * string * string) :=
  [("0", "5", "5", ""); ("2", "5", "10", "16")].

(** The disk after Alice's quotation was stored for the representative Bob,
    the draw being 123. *)
Definition after_alice : FS.state :=
  (index (disk []) (always 123) (submission "Alice" "Bob" one_row)).1.

(** Three quantities against two rates. *)
Definition mismatched : request :=
  {| meth := POST; args := [];
     form := [("client_name", "Alice"); ("rep", "Bob");
              ("quantity[]", "1"); ("quantity[]", "2"); ("quantity[]", "3");
              ("rate[]", "5"); ("rate[]", "6");
              ("amount[]", "5"); ("amount[]", "12"); ("amount[]", "18");
              ("vat[]", "16"); ("vat[]", "16"); ("vat[]", "16")] |}.

(** A template of two pages, and a disk that holds it. *)
Definition two_pages : Pdf.document := [[Pdf.stream "letterhead"]; [Pdf.stream "terms"]].

Definition two_page_disk : FS.state :=
  {| FS.root :=
       dir [("srv", dir [("app", dir [("files", dir [("QUOTATION.pdf", FS.File (FS.PdfFile two_pages))]);
                                      ("quotations", dir [("Bob", dir [])])])])];
     FS.cwd := ["srv"; "app"] |}.

Definition sample_quotation : quotation :=
  {| quotation_no := "Q-123"; date := "2025-01-15"; client_name := "Alice"; rep := "Bob";
     quote_items := [ {| quantity := 2; rate := 5; amount := 10; vat := 16 |} ];
     subtotal := 10; tax := (10 * (16 / 100))%float; total := (10 + 10 * (16 / 100))%float |}.

(** A submission without item rows, and the page that answers it. *)
Definition no_rows : request := submission "Alice" "Bob" [].

Definition no_rows_context : context :=
  {| quotation_data :=
       {| quotation_no := "Q-123"; date := "2025-01-15"; client_name := "Alice"; rep := "Bob";
          quote_items := []; subtotal := 0; tax := 0; total := 0 |};
     quotation_files := [];
     errors := ["At least one complete item is required."];
     success := false; success_message := "";
     search_errors := ["No representative directories found"];
     search_quotation_no := ""; search_rep := "" |}.

(** Sixty-one rows, each valid. *)
Definition too_many : request :=
  submission "Alice" "Bob" (repeat ("1", "1", "1", "") 61).

End Sample.

(** * Vocabulary of the properties *)

(** [needle] occurs in [hay] when letter case is ignored: some stretch of
    [hay] folds to the same string as [needle]. *)
Definition occurs_ignoring_case (needle hay : string) : Prop :=
  ∃ pre mid suf, hay = pre +:+ mid +:+ suf ∧ Py.lower mid = Py.lower needle.

(** The entry [name] of the directory a path denotes. *)
Definition child (fs : FS.state) (a name : string) : option FS.node :=
  match FS.lookup fs a with Some (FS.Dir es) => es !! name | _ => None end.

(** Where a component leads, whatever the tree. *)
Definition follow (cur : list string) (c : string) : list string :=
  if FS.is_dot c then cur
  else if String.eqb c ".." then removelast cur
  else cur ++ [c].

Definition is_digit (c : ascii) : bool :=
  let n := nat_of_ascii c in (48 <=? n)%nat && (n <=? 57)%nat.

Fixpoint digits (s : string) : bool :=
  match s with
  | EmptyString => true
  | String c s' => is_digit c && digits s'
  end.

(** The number a string of digits writes. *)
Definition number_of (s : string) : option N :=
  N.of_uint <$> NilEmpty.uint_of_string s.

(** The probe of the loop condition on the candidate of redraw [k]. *)
Definition taken (fs : FS.state) (output_dir : string) (entropy : nat -> Z) (k : nat) : bool :=
  FS.path_exists fs (Path.join output_dir (candidate entropy k +:+ ".pdf")).

(** The entries a search returned; an error carries none. *)
Definition found_of (r : search_result) : list found :=
  match r with results l => l | error _ => [] end.

(** The sum of a list of floats as the handler accumulates it: from
    zero, left to right, each addition rounded. *)
Definition fsum (l : list float) : float := fold_left PrimFloat.add l 0%float.

(** The totals of a quotation are those of its items. *)
Definition derived_from_items (q : quotation) : Prop :=
  subtotal q = fsum (amount <$> quote_items q) ∧
  tax q = fsum ((λ it, amount it * (vat it / 100))%float <$> quote_items q) ∧
  total q = (subtotal q + tax q)%float.

(** The three fields every accepted row has non-zero. *)
Definition nonzero_row (it : item) : bool :=
  float_truthy (quantity it) && float_truthy (rate it) && float_truthy (amount it).

(** A request that [index] treats as a quotation submission. *)
Definition is_submission (req : request) : bool :=
  match meth req with
  | POST => negb (Py.truthy_opt (field (form req) "search_quotation_no") ||
                  Py.truthy_opt (field (form req) "search_rep"))
  | GET => false
  end.

Section RowVocabulary.
Context {rt : Runtime}.
Variables (quantities rates amounts vats : list string).

(** The item of row [i] when the row is accepted. *)
Definition row_outcome (i : nat) : option item :=
  match parse_row quantities rates amounts vats i with
  | Some it => if nonzero_row it then Some it else None
  | None => None
  end.

(** The items of the accepted rows, in row order. *)
Definition accepted (rows : list nat) : list item := omap row_outcome rows.

(** The errors of the other rows, in row order. *)
Definition rejected (rows : list nat) : list string :=
  row_error <$> List.filter (λ i, match row_outcome i with None => true | Some _ => false end) rows.

(** A field that voids its row: it does not convert, or converts to zero. *)
Definition void_field (s : string) : Prop :=
  float_of_str s = None ∨ ∃ z, float_of_str s = Some z ∧ float_truthy z = false.

End RowVocabulary.

(** What the validation of the item arrays adds to the error list. *)
Definition item_errors {rt : Runtime} (req : request) : list string :=
  let quantities := getlist (form req) "quantity[]" in
  let rates := getlist (form req) "rate[]" in
  let amounts := getlist (form req) "amount[]" in
  let vats := getlist (form req) "vat[]" in
  if negb (same_lengths quantities rates amounts vats) then ["Invalid item data submitted."]
  else if Z.of_nat (length quantities) >? 60 then ["Too many items. Maximum 60 items allowed."]
  else rejected quantities rates amounts vats (seq 0 (length quantities)).

(** The rows that reach the quotation. *)
Definition accepted_items {rt : Runtime} (req : request) : list item :=
  let quantities := getlist (form req) "quantity[]" in
  let rates := getlist (form req) "rate[]" in
  let amounts := getlist (form req) "amount[]" in
  let vats := getlist (form req) "vat[]" in
  if negb (same_lengths quantities rates amounts vats) then []
  else if Z.of_nat (length quantities) >? 60 then []
  else accepted quantities rates amounts vats (seq 0 (length quantities)).

(** A character a sanitized name can hold: one of the class, or [_]. *)
Definition clean_char (c : ascii) : bool := Py.safe_char c || Ascii.eqb c "_".

Fixpoint all_clean (s : string) : bool :=
  match s with
  | EmptyString => true
  | String c s' => clean_char c && all_clean s'
  end.

(** The name under which [index] stores a quotation. *)
Definition stored_name (quotation_no client : string) : string :=
  quotation_no +:+ "_" +:+ Py.sub_unsafe client +:+ ".pdf".

(** Some subdirectory of the storage root passes the representative filter. *)
Definition some_directory_matches {rt : Runtime} (fs : FS.state) (rp : string) : Prop :=
  ∃ d, d ∈ FS.listdir fs QUOTATIONS_DIR ∧
       FS.isdir fs (Path.join QUOTATIONS_DIR d) = true ∧
       occurs_ignoring_case rp d.




(** The two search strings of a request, read where its method puts them. *)
Definition search_strings (req : request) : string * string :=
  match meth req with
  | GET => (field_or_empty (args req) "search", field_or_empty (args req) "search_rep")
  | POST => (field_or_empty (form req) "search_quotation_no",
             field_or_empty (form req) "search_rep")
  end.

(** The page that shows the outcome of a search and nothing else. *)
Definition search_page {rt : Runtime} (fs : FS.state) (no rp : string) : response :=
  render_template "index.html"
    {| quotation_data := blank_quotation;
       quotation_files := found_of (get_quotation_files fs no rp);
       errors := []; success := false; success_message := "";
       search_errors :=
         match get_quotation_files fs no rp with error msg => [msg] | results _ => [] end;
       search_quotation_no := no; search_rep := rp |}.



(** The totals of [q] are the sums over [rows]: the amounts from zero in
    row order, the tax likewise, and their sum. *)
Definition totals_from (rows : list item) (q : quotation) : Prop :=
  subtotal q = fsum (amount <$> rows) ∧
  tax q = fsum ((λ it, amount it * (vat it / 100))%float <$> rows) ∧
  total q = (fsum (amount <$> rows)
             + fsum ((λ it, amount it * (vat it / 100))%float <$> rows))%float.

(** The item rows a request brings to its quotation: those accepted of a
    submission, none otherwise. *)
Definition rows_of {rt : Runtime} (req : request) : list item :=
  if is_submission req then accepted_items req else [].

(** Some entry of a directory that passes the representative filter is
    named [*.pdf] and passes the quotation-number filter. *)
Definition some_entry_matches {rt : Runtime} (fs : FS.state) (no rp : string) : Prop :=
  ∃ d f, d ∈ FS.listdir fs QUOTATIONS_DIR ∧
         FS.isdir fs (Path.join QUOTATIONS_DIR d) = true ∧
         occurs_ignoring_case rp d ∧
         f ∈ FS.listdir fs (Path.join QUOTATIONS_DIR d) ∧
         (∃ stem, f = stem +:+ ".pdf") ∧
         occurs_ignoring_case no f.

(** The rows of a submission that are not accepted, in row order. *)
Definition rejected_rows {rt : Runtime} (req : request) : list nat :=
  List.filter
    (λ i, match row_outcome (getlist (form req) "quantity[]") (getlist (form req) "rate[]")
                  (getlist (form req) "amount[]") (getlist (form req) "vat[]") i with
          | None => true
          | Some _ => false
          end)
    (seq 0 (length (getlist (form req) "quantity[]"))).

(** * Properties *)

(** ** Strings *)

Section StringFacts.

Lemma app_cons (c : ascii) (a b : string) : String c a +:+ b = String c (a +:+ b).
Proof. reflexivity. Qed.

Lemma app_nil (b : string) : "" +:+ b = b.
Proof. reflexivity. Qed.

Lemma app_empty_r (s : string) : s +:+ "" = s.
Proof. induction s as [|c s IH]; [done|by rewrite app_cons, IH]. Qed.

Lemma app_assoc' (a b c : string) : (a +:+ b) +:+ c = a +:+ b +:+ c.
Proof. induction a as [|x a IH]; [done|by rewrite !app_cons, IH]. Qed.

Lemma length_app (a b : string) :
  String.length (a +:+ b) = (String.length a + String.length b)%nat.
Proof. induction a as [|x a IH]; [done|]. rewrite app_cons. simpl. by rewrite IH. Qed.

Lemma app_inj_r (a b c : string) : a +:+ c = b +:+ c → a = b.
Proof.
  revert b. induction a as [|x a IH]; intros [|y b] H.
  - done.
  - apply (f_equal String.length) in H. rewrite !length_app in H. simpl in H. lia.
  - apply (f_equal String.length) in H. rewrite !length_app in H. simpl in H. lia.
  - rewrite !app_cons in H. injection H as -> H. by rewrite (IH _ H).
Qed.

Lemma lower_app (a b : string) : Py.lower (a +:+ b) = Py.lower a +:+ Py.lower b.
Proof. induction a as [|c a IH]; [done|rewrite app_cons; simpl; by rewrite IH]. Qed.

(** A split of the folded string comes from a split of the string. *)
Lemma lower_split (h a b : string) :
  Py.lower h = a +:+ b →
  ∃ h1 h2, h = h1 +:+ h2 ∧ Py.lower h1 = a ∧ Py.lower h2 = b.
Proof.
  revert h. induction a as [|c a IH]; intros h H.
  - exists "", h. done.
  - destruct h as [|x h]; simpl in H; [done|].
    rewrite app_cons in H. injection H as Hc Hr.
    destruct (IH h Hr) as (h1 & h2 & -> & <- & <-).
    exists (String x h1), h2. simpl. by rewrite Hc.
Qed.

Lemma startswith_spec (pre s : string) :
  Py.startswith pre s = true ↔ ∃ suf, s = pre +:+ suf.
Proof.
  revert s. induction pre as [|a pre IH]; intros s; simpl.
  - split; [intros _; by exists s|done].
  - destruct s as [|b s].
    + split; [done|]. by intros [suf ?].
    + rewrite andb_true_iff, Ascii.eqb_eq, IH. split.
      * intros [-> [suf ->]]. by exists suf.
      * intros [suf H]. rewrite app_cons in H. injection H as -> ->.
        split; [done|by exists suf].
Qed.

Lemma contains_spec (needle hay : string) :
  Py.contains needle hay = true ↔ ∃ pre suf, hay = pre +:+ needle +:+ suf.
Proof.
  induction hay as [|c hay IH]; simpl; rewrite orb_true_iff, startswith_spec.
  - split.
    + intros [[suf H]|?]; [|done]. by exists "", suf.
    + intros (pre & suf & H). left. destruct pre; [by exists suf|done].
  - rewrite IH. split.
    + intros [[suf H]|(pre & suf & ->)]; [by exists "", suf|].
      by exists (String c pre), suf.
    + intros (pre & suf & H). destruct pre as [|x pre].
      * left. by exists suf.
      * right. rewrite app_cons in H. injection H as -> ->. by exists pre, suf.
Qed.

Lemma endswith_unfold (suf s : string) :
  Py.endswith suf s =
  String.eqb s suf || match s with "" => false | String _ s' => Py.endswith suf s' end.
Proof. by destruct s. Qed.

Lemma endswith_spec (suf s : string) :
  Py.endswith suf s = true ↔ ∃ pre, s = pre +:+ suf.
Proof.
  induction s as [|c s IH]; rewrite endswith_unfold, orb_true_iff, String.eqb_eq.
  - split.
    + intros [<-|?]; [by exists ""|done].
    + intros [pre H]. left. destruct pre; [done|done].
  - rewrite IH. split.
    + intros [<-|[pre ->]]; [by exists ""|by exists (String c pre)].
    + intros [pre H]. destruct pre as [|x pre]; [by left|].
      right. rewrite app_cons in H. injection H as -> ->. by exists pre.
Qed.

End StringFacts.

Lemma contains_lower_spec (needle hay : string) :
  Py.contains (Py.lower needle) (Py.lower hay) = true ↔ occurs_ignoring_case needle hay.
Proof.
  rewrite contains_spec. split.
  - intros (p & s & H).
    apply lower_split in H as (pre & rest & -> & _ & H).
    apply lower_split in H as (mid & suf & -> & Hm & _).
    by exists pre, mid, suf.
  - intros (pre & mid & suf & -> & Hm).
    exists (Py.lower pre), (Py.lower suf). by rewrite !lower_app, Hm.
Qed.

Lemma occurs_empty (hay : string) : occurs_ignoring_case "" hay.
Proof. by exists "", "", hay. Qed.

(** ** Paths *)

Section PathFacts.

Lemma components_nonempty (p : string) : Path.components p ≠ [].
Proof.
  destruct p as [|c p]; simpl; [done|].
  destruct (Ascii.eqb c Path.sep); [done|]. by destruct (Path.components p).
Qed.

Lemma components_app_sep (a b : string) :
  Path.components (a +:+ String Path.sep b) = Path.components a ++ Path.components b.
Proof.
  induction a as [|c a IH]; [done|].
  rewrite app_cons. simpl. rewrite IH.
  destruct (Ascii.eqb c Path.sep); [done|].
  pose proof (components_nonempty a). by destruct (Path.components a).
Qed.

Lemma components_name (s : string) : Path.has_sep s = false → Path.components s = [s].
Proof.
  induction s as [|c s IH]; simpl; [done|].
  intros [-> Hs]%orb_false_iff. by rewrite (IH Hs).
Qed.

Lemma ends_with_sep_split (a : string) :
  Path.ends_with_sep a = true → ∃ a', a = a' +:+ String Path.sep "".
Proof.
  induction a as [|c a IH]; [done|].
  destruct a as [|d a].
  - simpl. intros ->%Ascii.eqb_eq. by exists "".
  - intros H. destruct IH as [a' Ha']; [exact H|]. exists (String c a'). by rewrite app_cons, <- Ha'.
Qed.

Lemma is_abs_app (a b : string) :
  Py.truthy a = true → Path.is_abs (a +:+ b) = Path.is_abs a.
Proof. by destruct a. Qed.

Lemma is_name_facts (s : string) :
  Path.is_name s = true →
  Py.truthy s = true ∧ String.eqb s "." = false ∧ String.eqb s ".." = false ∧
  Path.has_sep s = false.
Proof.
  unfold Path.is_name. rewrite !andb_true_iff, !negb_true_iff. tauto.
Qed.

Lemma name_not_abs (s : string) : Path.has_sep s = false → Path.is_abs s = false.
Proof. destruct s as [|c s]; simpl; [done|]. by intros [-> _]%orb_false_iff. Qed.

Lemma truthy_app_r (a b : string) : Py.truthy b = true → Py.truthy (a +:+ b) = true.
Proof. destruct a; [done|by rewrite app_cons]. Qed.

Lemma truthy_app_l (a b : string) : Py.truthy a = true → Py.truthy (a +:+ b) = true.
Proof. by destruct a. Qed.


End PathFacts.

(** ** The filesystem *)

Section FSFacts.

Lemma get_app (t : FS.node) (p : list string) (n : string) :
  FS.get t (p ++ [n]) =
  match FS.get t p with Some (FS.Dir es) => es !! n | _ => None end.
Proof.
  revert t. induction p as [|c p IH]; intros t; simpl.
  - destruct t as [?|es]; [done|]. by destruct (es !! n).
  - destruct t as [?|es]; [done|]. destruct (es !! c); [apply IH|done].
Qed.

Lemma walk_app (t : FS.node) (cur : list string) (l1 l2 : list string) :
  FS.walk t cur (l1 ++ l2) =
  match FS.walk t cur l1 with Some c => FS.walk t c l2 | None => None end.
Proof.
  revert cur. induction l1 as [|c l1 IH]; intros cur; simpl; [done|].
  destruct (FS.step t cur c); [apply IH|done].
Qed.

(** Following a name lands on that entry of the current directory. *)
Lemma step_name (t : FS.node) (cur : list string) (n : string) :
  Path.is_name n = true →
  FS.step t cur n = if FS.is_dir_at t cur then Some (cur ++ [n]) else None.
Proof.
  intros (Hn & Hd & Hdd & _)%is_name_facts. unfold FS.step, FS.is_dot.
  rewrite Hd, Hdd. destruct n; [done|]. by rewrite orb_false_r.
Qed.

Lemma step_dot (t : FS.node) (cur : list string) (c : string) :
  FS.is_dot c = true →
  FS.step t cur c = if FS.is_dir_at t cur then Some cur else None.
Proof. intros H. unfold FS.step. by rewrite H. Qed.

Lemma lookup_walk (fs : FS.state) (p : string) :
  Py.truthy p = true →
  FS.lookup fs p =
  match FS.walk (FS.root fs) (FS.start fs p) (Path.components p) with
  | Some c => FS.get (FS.root fs) c
  | None => None
  end.
Proof.
  intros Hp. unfold FS.lookup, FS.resolve. rewrite Hp.
  destruct (FS.walk _ _ _) as [c|]; [|done].
  by destruct (FS.get (FS.root fs) c) eqn:E.
Qed.

(** Where [os.path.join(a, name)] leads: to the entry [name] of the
    directory [a] (of the working directory when [a] is empty). *)
Lemma lookup_join (fs : FS.state) (a name : string) :
  Path.is_name name = true →
  FS.lookup fs (Path.join a name) = child fs (probed_dir a) name.
Proof.
  intros Hname. pose proof Hname as (Hn & Hd & Hdd & Hs)%is_name_facts.
  unfold child, Path.join, probed_dir. rewrite (name_not_abs _ Hs).
  destruct (Py.truthy a) eqn:Ha; simpl.
  - destruct (Path.ends_with_sep a) eqn:He.
    + destruct (ends_with_sep_split _ He) as [a' ->].
      assert (Hc1 : Path.components ((a' +:+ String Path.sep "") +:+ name)
                    = Path.components a' ++ [name]).
      { by rewrite app_assoc', app_cons, app_nil, components_app_sep, (components_name _ Hs). }
      assert (Hc2 : Path.components (a' +:+ String Path.sep "") = Path.components a' ++ [""]).
      { by rewrite components_app_sep. }
      rewrite !lookup_walk by (done || by apply truthy_app_r).
      unfold FS.start. rewrite is_abs_app, Hc1, Hc2, !walk_app by done. simpl.
      destruct (FS.walk _ _ (Path.components a')) as [c|]; [|done].
      rewrite step_name, step_dot by done.
      unfold FS.is_dir_at.
      destruct (FS.get (FS.root fs) c) as [[?|es]|] eqn:E; simpl; rewrite ?get_app, ?E; done.
    + rewrite !lookup_walk by (done || by apply truthy_app_r).
      unfold FS.start. rewrite is_abs_app by done.
      rewrite components_app_sep, walk_app, (components_name _ Hs). simpl.
      destruct (FS.walk _ _ (Path.components a)) as [c|]; [|done].
      rewrite step_name by done. unfold FS.is_dir_at.
      destruct (FS.get (FS.root fs) c) as [[?|es]|] eqn:E; simpl; rewrite ?get_app, ?E; done.
  - destruct a; [|done]. rewrite app_nil.
    rewrite !lookup_walk by done.
    unfold FS.start. rewrite (name_not_abs _ Hs), (components_name _ Hs). simpl.
    rewrite step_name, step_dot by done.
    unfold FS.is_dir_at.
    destruct (FS.get (FS.root fs) (FS.cwd fs)) as [[?|es]|] eqn:E; simpl;
      rewrite ?get_app, ?E; done.
Qed.

Lemma child_listdir (fs : FS.state) (a name : string) :
  is_Some (child fs a name) → name ∈ FS.listdir fs a.
Proof.
  unfold child, FS.listdir. destruct (FS.lookup fs a) as [[?|es]|]; try by intros [? ?].
  intros [n Hn]. apply list_elem_of_fmap. exists (name, n). split; [done|].
  by apply elem_of_map_to_list.
Qed.

(** A file that exists under [os.path.join(a, name)] is listed in [a]. *)
Lemma exists_join_listed (fs : FS.state) (a name : string) :
  Path.is_name name = true →
  FS.path_exists fs (Path.join a name) = true →
  name ∈ FS.listdir fs (probed_dir a).
Proof.
  intros Hname. unfold FS.path_exists. rewrite lookup_join by done.
  intros H. apply child_listdir. destruct (child fs _ name); [by eexists|done].
Qed.

End FSFacts.

(** ** Decimal numerals *)

Section Numerals.

Lemma digits_of_uint (d : Decimal.uint) : digits (NilEmpty.string_of_uint d) = true.
Proof. induction d; simpl; by rewrite ?IHd. Qed.

Lemma digits_zeros (k : nat) : digits (Py.zeros k) = true.
Proof. induction k; simpl; by rewrite ?IHk. Qed.

Lemma digits_app (a b : string) : digits (a +:+ b) = digits a && digits b.
Proof.
  induction a as [|c a IH]; [done|]. rewrite app_cons. simpl.
  by rewrite IH, andb_assoc.
Qed.

Lemma digit_not_sep (c : ascii) : is_digit c = true → Ascii.eqb c Path.sep = false.
Proof.
  unfold is_digit. intros [H1 H2]%andb_true_iff.
  apply Ascii.eqb_neq. intros ->. by vm_compute in H1.
Qed.

Lemma digits_no_sep (s : string) : digits s = true → Path.has_sep s = false.
Proof.
  induction s as [|c s IH]; simpl; [done|].
  intros [Hc Hs]%andb_true_iff. by rewrite (digit_not_sep _ Hc), IH.
Qed.

Lemma str_nonneg (n : Z) :
  0 <= n → Py.str n = NilEmpty.string_of_uint (N.to_uint (Z.to_N n)).
Proof. by destruct n. Qed.

Lemma zfill_digits (w : nat) (s : string) :
  digits s = true → Py.zfill w s = Py.zeros (w - String.length s) +:+ s.
Proof.
  unfold Py.zfill. destruct s as [|c s]; [by rewrite app_empty_r|].
  simpl. intros [Hc _]%andb_true_iff.
  destruct (Ascii.eqb_spec c "+") as [->|_]; [by vm_compute in Hc|].
  destruct (Ascii.eqb_spec c "-") as [->|_]; [by vm_compute in Hc|done].
Qed.

Lemma number_of_zeros (k : nat) (s : string) :
  number_of (Py.zeros k +:+ s) = number_of s.
Proof.
  unfold number_of. induction k as [|k IH]; [done|].
  change (Py.zeros (S k)) with (String "0" (Py.zeros k)). rewrite app_cons. simpl.
  destruct (NilEmpty.uint_of_string (Py.zeros k +:+ s)) as [d|],
           (NilEmpty.uint_of_string s) as [d'|]; simpl in *; congruence.
Qed.

(** The padded numeral of a natural number reads back as that number. *)
Lemma number_of_zfill_str (w : nat) (n : Z) :
  0 <= n → number_of (Py.zfill w (Py.str n)) = Some (Z.to_N n).
Proof.
  intros Hn. rewrite str_nonneg by done.
  rewrite zfill_digits by apply digits_of_uint.
  rewrite number_of_zeros. unfold number_of.
  by rewrite NilEmpty.usu; simpl; rewrite DecimalN.Unsigned.of_to.
Qed.

Lemma zfill_str_inj (w : nat) (n m : Z) :
  0 <= n → 0 <= m → Py.zfill w (Py.str n) = Py.zfill w (Py.str m) → n = m.
Proof.
  intros Hn Hm H. apply (f_equal number_of) in H.
  rewrite !number_of_zfill_str in H by done. injection H. lia.
Qed.

Lemma zfill_str_digits (w : nat) (n : Z) : 0 <= n → digits (Py.zfill w (Py.str n)) = true.
Proof.
  intros Hn. rewrite str_nonneg by done.
  rewrite zfill_digits by apply digits_of_uint.
  by rewrite digits_app, digits_zeros, digits_of_uint.
Qed.

End Numerals.

(** ** Quotation numbers *)

Section Generator.

Lemma randint_range (entropy : nat -> Z) (k : nat) (a b : Z) :
  a <= b → a <= randint entropy k a b <= b.
Proof.
  intros Hab. unfold randint.
  pose proof (Z.mod_pos_bound (entropy k) (b - a + 1)). lia.
Qed.

(** The number behind the candidate of redraw [k] lies in the [k]-th
    block of ten thousand: the perturbation grows with every redraw. *)
Lemma candidate_block (entropy : nat -> Z) (k : nat) :
  Z.of_nat k * 10000 + 1 <= randint entropy k 1 9999 + Z.of_nat k * 10000
    <= Z.of_nat k * 10000 + 9999.
Proof. pose proof (randint_range entropy k 1 9999). lia. Qed.

Lemma candidate_inj (entropy : nat -> Z) : Inj (=) (=) (candidate entropy).
Proof.
  intros j k H. unfold candidate in H.
  apply (inj (String.app "Q-")) in H.
  pose proof (candidate_block entropy j). pose proof (candidate_block entropy k).
  apply zfill_str_inj in H; lia.
Qed.

Lemma has_sep_app (a b : string) : Path.has_sep (a +:+ b) = Path.has_sep a || Path.has_sep b.
Proof.
  induction a as [|c a IH]; [done|]. rewrite app_cons. simpl.
  by rewrite IH, orb_assoc.
Qed.

Lemma candidate_file_is_name (entropy : nat -> Z) (k : nat) :
  Path.is_name (candidate entropy k +:+ ".pdf") = true.
Proof.
  unfold Path.is_name, candidate.
  set (z := Py.zfill 3 _).
  assert (Hz : Path.has_sep z = false).
  { apply digits_no_sep, zfill_str_digits. pose proof (candidate_block entropy k). lia. }
  rewrite !has_sep_app, Hz. by rewrite !app_cons.
Qed.

Section Loop.
Variables (fs : FS.state) (output_dir : string) (entropy : nat -> Z).

Notation is_taken := (taken fs output_dir entropy).

Lemma redraw_first_free (fuel k j : nat) :
  (∀ i, (i < j)%nat → is_taken (k + i) = true) →
  is_taken (k + j) = false →
  (j <= fuel)%nat →
  redraw fuel fs output_dir entropy (S k) (candidate entropy k)
  = Some (candidate entropy (k + j)).
Proof.
  revert fuel k. induction j as [|j IH]; intros fuel k Hhit Hfree Hfuel.
  - rewrite Nat.add_0_r in *. unfold taken in Hfree.
    destruct fuel; simpl; by rewrite Hfree.
  - destruct fuel as [|fuel]; [lia|].
    pose proof (Hhit 0%nat ltac:(lia)) as H0. rewrite Nat.add_0_r in H0.
    unfold taken in H0. simpl. rewrite H0.
    change (redraw fuel fs output_dir entropy (S (S k)) (candidate entropy (S k))
            = Some (candidate entropy (k + S j))).
    replace (k + S j)%nat with (S k + j)%nat by lia. apply IH.
    + intros i Hi. replace (S k + i)%nat with (k + S i)%nat by lia. apply Hhit. lia.
    + by replace (S k + j)%nat with (k + S j)%nat by lia.
    + lia.
Qed.

(** Among the first candidates either all are is_taken or there is a first free one. *)
Lemma first_free (n : nat) :
  (∀ i, (i <= n)%nat → is_taken i = true) ∨
  (∃ j, (j <= n)%nat ∧ is_taken j = false ∧ ∀ i, (i < j)%nat → is_taken i = true).
Proof.
  induction n as [|n [IH|(j & Hj & Hfree & Hhit)]].
  - destruct (is_taken 0) eqn:E.
    + left. intros i Hi. by replace i with 0%nat by lia.
    + right. exists 0%nat. split; [lia|]. split; [done|]. intros; lia.
  - destruct (is_taken (S n)) eqn:E.
    + left. intros i Hi. destruct (decide (i = S n)) as [->|]; [done|]. apply IH. lia.
    + right. exists (S n). split; [lia|]. split; [done|]. intros i Hi. apply IH. lia.
  - right. exists j. split; [lia|]. done.
Qed.

(** The candidates cannot all be taken: they are distinct names, and the
    directory has too few entries. *)
Lemma not_all_taken :
  ¬ ∀ i, (i <= length (FS.listdir fs (probed_dir output_dir)))%nat → is_taken i = true.
Proof.
  intros Hall.
  set (n := length (FS.listdir fs (probed_dir output_dir))) in *.
  set (names := (λ k, candidate entropy k +:+ ".pdf") <$> seq 0 (S n)).
  assert (Hnd : NoDup names).
  { apply NoDup_fmap_2; [|apply NoDup_seq].
    intros j k H. by apply (candidate_inj entropy), (app_inj_r _ _ ".pdf"). }
  assert (Hincl : ∀ x, x ∈ names → x ∈ FS.listdir fs (probed_dir output_dir)).
  { intros x (k & -> & Hk)%list_elem_of_fmap. apply elem_of_seq in Hk.
    apply exists_join_listed; [apply candidate_file_is_name|].
    apply Hall. lia. }
  pose proof (submseteq_length _ _ (NoDup_submseteq _ _ Hnd Hincl)) as Hlen.
  unfold names in Hlen. rewrite length_fmap, length_seq in Hlen. lia.
Qed.

Lemma redraws_suffice :
  ∃ j, (j <= length (FS.listdir fs (probed_dir output_dir)))%nat ∧
       is_taken j = false ∧ (∀ i, (i < j)%nat → is_taken i = true) ∧
       ∀ fuel, (j <= fuel)%nat →
         generate_within fuel fs output_dir entropy = Some (candidate entropy j).
Proof.
  destruct (first_free (length (FS.listdir fs (probed_dir output_dir))))
    as [Hall|(j & Hj & Hfree & Hhit)]; [by destruct not_all_taken|].
  exists j. do 3 (split; [done|]). intros fuel Hfuel.
  unfold generate_within.
  replace (Py.zfill 3 (Py.str (randint entropy 0 1 9999)))
    with (Py.zfill 3 (Py.str (randint entropy 0 1 9999 + Z.of_nat 0 * 10000)))
    by (by rewrite Z.add_0_r).
  by apply (redraw_first_free fuel 0 j).
Qed.

Lemma generate_quotation_number_spec :
  ∃ j, (j <= length (FS.listdir fs (probed_dir output_dir)))%nat ∧
       generate_quotation_number fs output_dir entropy = candidate entropy j ∧
       is_taken j = false.
Proof.
  destruct redraws_suffice as (j & Hj & Hfree & _ & Hgen).
  exists j. split; [done|]. split; [|done].
  unfold generate_quotation_number. by rewrite (Hgen _ Hj).
Qed.

End Loop.
End Generator.

(** ** Writing to the tree *)

Section TreeUpdates.

Lemma is_dir_at_nil (t : FS.node) :
  FS.is_dir_at t [] = true → ∃ es, t = FS.Dir es.
Proof. destruct t as [?|es]; [done|]. by exists es. Qed.

Lemma is_dir_at_cons (t : FS.node) (d : string) (p : list string) :
  FS.is_dir_at t (d :: p) = true →
  ∃ es ch, t = FS.Dir es ∧ es !! d = Some ch ∧ FS.is_dir_at ch p = true.
Proof.
  unfold FS.is_dir_at. simpl. destruct t as [?|es]; [done|].
  destruct (es !! d) as [ch|] eqn:E; [|done]. intros H. by exists es, ch.
Qed.

Lemma put_cons (es : gmap string FS.node) (d : string) (p : list string) (n : FS.node) :
  FS.put (FS.Dir es) (d :: p) n
  = FS.Dir (<[d := FS.put (default (FS.Dir ∅) (es !! d)) p n]> es).
Proof. done. Qed.

Lemma get_cons (es : gmap string FS.node) (d : string) (p : list string) :
  FS.get (FS.Dir es) (d :: p)
  = match es !! d with Some ch => FS.get ch p | None => None end.
Proof. done. Qed.

Lemma get_file (c : FS.content) (p : list string) :
  FS.get (FS.File c) p = match p with [] => Some (FS.File c) | _ => None end.
Proof. by destruct p. Qed.

Lemma get_empty_dir (p : list string) :
  FS.get (FS.Dir ∅) p = match p with [] => Some (FS.Dir ∅) | _ => None end.
Proof. destruct p; [done|]. by rewrite get_cons, lookup_empty. Qed.

(** What was stored is found where it was stored. *)
Lemma get_put_same (t : FS.node) (dir : list string) (name : string) (n : FS.node) :
  FS.is_dir_at t dir = true →
  FS.get (FS.put t (dir ++ [name]) n) (dir ++ [name]) = Some n.
Proof.
  revert t. induction dir as [|d dir IH]; intros t Hd.
  - apply is_dir_at_nil in Hd as [es ->]. simpl. by rewrite lookup_insert_eq.
  - apply is_dir_at_cons in Hd as (es & ch & -> & Hch & Hd).
    rewrite <- !app_comm_cons, put_cons, get_cons, lookup_insert_eq, Hch. simpl.
    by apply IH.
Qed.

(** Storing a file where no directory stood leaves every directory in place. *)
Lemma is_dir_at_put_file (t : FS.node) (dir : list string) (name : string)
    (c : FS.content) (q : list string) :
  FS.is_dir_at t dir = true →
  FS.is_dir_at t (dir ++ [name]) = false →
  FS.is_dir_at (FS.put t (dir ++ [name]) (FS.File c)) q = FS.is_dir_at t q.
Proof.
  revert t q. induction dir as [|d dir IH]; intros t q Hd Hn.
  - apply is_dir_at_nil in Hd as [es ->]. destruct q as [|x q]; [done|].
    unfold FS.is_dir_at in *. simpl in *.
    destruct (decide (name = x)) as [->|Hne].
    + rewrite lookup_insert_eq, get_file.
      destruct (es !! x) as [[?|?]|]; destruct q; simpl in *; done.
    + by rewrite lookup_insert_ne.
  - apply is_dir_at_cons in Hd as (es & ch & -> & Hch & Hd).
    rewrite <- app_comm_cons in *. rewrite put_cons, Hch. simpl.
    destruct q as [|x q]; [done|].
    unfold FS.is_dir_at in Hn |- *. rewrite !get_cons. rewrite get_cons, Hch in Hn.
    destruct (decide (d = x)) as [->|Hne].
    + rewrite lookup_insert_eq, Hch. by apply IH.
    + by rewrite lookup_insert_ne.
Qed.

(** A new empty directory keeps every directory in place ... *)
Lemma is_dir_at_put_dir (t : FS.node) (cur : list string) (c : string) (q : list string) :
  FS.is_dir_at t cur = true →
  FS.get t (cur ++ [c]) = None →
  FS.is_dir_at t q = true →
  FS.is_dir_at (FS.put t (cur ++ [c]) (FS.Dir ∅)) q = true.
Proof.
  revert t q. induction cur as [|d cur IH]; intros t q Hd Hn Hq.
  - apply is_dir_at_nil in Hd as [es ->]. destruct q as [|x q]; [done|].
    unfold FS.is_dir_at in *. simpl in *.
    destruct (decide (c = x)) as [->|Hne].
    + destruct (es !! x); done.
    + by rewrite lookup_insert_ne.
  - apply is_dir_at_cons in Hd as (es & ch & -> & Hch & Hd).
    rewrite <- app_comm_cons in *. rewrite put_cons, Hch. simpl.
    destruct q as [|x q]; [done|].
    unfold FS.is_dir_at in Hq |- *. rewrite !get_cons. rewrite get_cons in Hq, Hn.
    rewrite Hch in Hn.
    destruct (decide (d = x)) as [->|Hne].
    + rewrite lookup_insert_eq. rewrite Hch in Hq. by apply IH.
    + by rewrite lookup_insert_ne.
Qed.

(** ... and brings no file. *)
Lemma get_file_put_dir (t : FS.node) (cur : list string) (c : string) (q : list string)
    (x : FS.content) :
  FS.is_dir_at t cur = true →
  FS.get t (cur ++ [c]) = None →
  FS.get (FS.put t (cur ++ [c]) (FS.Dir ∅)) q = Some (FS.File x) →
  FS.get t q = Some (FS.File x).
Proof.
  revert t q. induction cur as [|d cur IH]; intros t q Hd Hn Hq.
  - apply is_dir_at_nil in Hd as [es ->]. destruct q as [|y q]; [done|].
    simpl in *. destruct (decide (c = y)) as [->|Hne].
    + rewrite lookup_insert_eq, get_empty_dir in Hq. by destruct q.
    + by rewrite lookup_insert_ne in Hq.
  - apply is_dir_at_cons in Hd as (es & ch & -> & Hch & Hd).
    rewrite <- app_comm_cons in *. rewrite put_cons, Hch in Hq. simpl in Hq.
    destruct q as [|y q]; [done|].
    rewrite get_cons in Hq, Hn |- *. rewrite Hch in Hn.
    destruct (decide (d = y)) as [->|Hne].
    + rewrite lookup_insert_eq in Hq. rewrite Hch. by apply IH.
    + by rewrite lookup_insert_ne in Hq.
Qed.

(** Walking depends on the directories only. *)
Lemma walk_ext (t t' : FS.node) (cur comps : list string) :
  (∀ q, FS.is_dir_at t' q = FS.is_dir_at t q) →
  FS.walk t' cur comps = FS.walk t cur comps.
Proof.
  intros H. revert cur. induction comps as [|c comps IH]; intros cur; simpl; [done|].
  unfold FS.step. rewrite H. destruct (FS.is_dir_at t cur); [apply IH|done].
Qed.

End TreeUpdates.

(** ** makedirs and open-for-writing *)

Section Writes.

Arguments FS.mk_step : simpl never.
Arguments FS.step_to : simpl never.

Lemma step_follow (t : FS.node) (cur : list string) (c : string) :
  FS.step t cur c = if FS.is_dir_at t cur then Some (follow cur c) else None.
Proof. done. Qed.

(** The walk that names its error goes where the plain walk goes. *)
Lemma step_to_step (p : string) (t : FS.node) (cur cur' : list string) (c : string) :
  FS.step_to p t cur c = inr cur' → FS.step t cur c = Some cur'.
Proof.
  unfold FS.step_to, FS.step, FS.is_dir_at.
  destruct (FS.get t cur) as [[?|es]|]; try done.
  destruct (FS.is_dot c); [by intros [= <-]|].
  destruct (String.eqb c ".."); [by intros [= <-]|].
  destruct (es !! c); [by intros [= <-]|done].
Qed.

Lemma walk_to_walk (p : string) (t : FS.node) (comps : list string) (cur c : list string) :
  FS.walk_to p t cur comps = inr c → FS.walk t cur comps = Some c.
Proof.
  revert cur. induction comps as [|x comps IH]; intros cur; simpl; [by intros [= <-]|].
  destruct (FS.step_to p t cur x) as [e|cur'] eqn:E; [done|].
  rewrite (step_to_step _ _ _ _ _ E). apply IH.
Qed.

(** Conversely, a plain walk that ends on something there meets no error. *)
Lemma walk_walk_to (p : string) (t : FS.node) (comps : list string) (cur c : list string) :
  FS.walk t cur comps = Some c → is_Some (FS.get t c) →
  FS.walk_to p t cur comps = inr c.
Proof.
  revert cur. induction comps as [|x comps IH]; intros cur; simpl; [by intros [= <-]|].
  destruct (FS.step t cur x) as [cur'|] eqn:E; [|done].
  intros Hw Hc.
  assert (Hthere : is_Some (FS.get t cur')).
  { destruct comps as [|y comps]; [by injection Hw as <-|].
    simpl in Hw. unfold FS.step at 1 in Hw. unfold FS.is_dir_at in Hw.
    destruct (FS.get t cur'); [by eexists|done]. }
  assert (Hs : FS.step_to p t cur x = inr cur').
  { unfold FS.step, FS.is_dir_at in E. unfold FS.step_to.
    destruct (FS.get t cur) as [[?|es]|] eqn:Eg; try done.
    destruct (FS.is_dot x); [by injection E as <-|].
    destruct (String.eqb x ".."); [by injection E as <-|].
    injection E as <-. rewrite get_app, Eg in Hthere.
    destruct (es !! x); [done|by destruct Hthere]. }
  rewrite Hs. by apply IH.
Qed.

(** One component of [os.makedirs] that went through: directories stay,
    and the files are the same before and after. *)
Lemma mk_step_facts (p : string) (t t' : FS.node) (cur cur' : list string) (c : string) :
  FS.mk_step p (t, cur) c = inr (t', cur') →
  cur' = follow cur c ∧ FS.is_dir_at t cur = true ∧
  (∀ q, FS.is_dir_at t q = true → FS.is_dir_at t' q = true) ∧
  (∀ q x, FS.get t' q = Some (FS.File x) → FS.get t q = Some (FS.File x)).
Proof.
  unfold FS.mk_step, follow.
  destruct (FS.get t cur) as [[?|es]|] eqn:E; try done.
  assert (Hd : FS.is_dir_at t cur = true) by (unfold FS.is_dir_at; by rewrite E).
  destruct (FS.is_dot c); [by intros [= <- <-]|].
  destruct (String.eqb c ".."); [by intros [= <- <-]|].
  destruct (es !! c) as [ch|] eqn:Ec; [by intros [= <- <-]|].
  destruct (FS.fits c); [|done].
  intros [= <- <-].
  assert (Hn : FS.get t (cur ++ [c]) = None) by (by rewrite get_app, E).
  split; [done|]. split; [done|]. split.
  - intros q. by apply is_dir_at_put_dir.
  - intros q x. by apply get_file_put_dir.
Qed.

Lemma mk_walk_facts (p : string) (comps : list string) (t t' : FS.node)
    (cur cur' : list string) :
  FS.mk_walk p (t, cur) comps = inr (t', cur') →
  (∀ q, FS.is_dir_at t q = true → FS.is_dir_at t' q = true) ∧
  (∀ q x, FS.get t' q = Some (FS.File x) → FS.get t q = Some (FS.File x)) ∧
  FS.walk t' cur comps = Some cur'.
Proof.
  revert t cur. induction comps as [|c comps IH]; intros t cur; simpl.
  - by intros [= <- <-].
  - destruct (FS.mk_step p (t, cur) c) as [e|[t1 cur1]] eqn:E; [done|].
    apply mk_step_facts in E as (-> & Hd & Hmono & Hfiles).
    intros (Hmono' & Hfiles' & Hwalk)%IH.
    split; [by auto|]. split; [by auto|].
    rewrite step_follow, (Hmono' _ (Hmono _ Hd)). done.
Qed.

(** A walk that stopped on an error: what it had made is directories. *)
Lemma mk_walk_left (p : string) (comps : list string) (t t' : FS.node) (cur : list string)
    (e : FS.exn) :
  FS.mk_walk p (t, cur) comps = inl (e, t') →
  (∀ q, FS.is_dir_at t q = true → FS.is_dir_at t' q = true) ∧
  (∀ q x, FS.get t' q = Some (FS.File x) → FS.get t q = Some (FS.File x)).
Proof.
  revert t cur. induction comps as [|c comps IH]; intros t cur; simpl; [done|].
  destruct (FS.mk_step p (t, cur) c) as [e'|[t1 cur1]] eqn:E.
  - by intros [= <- <-].
  - apply mk_step_facts in E as (_ & _ & Hmono & Hfiles).
    intros (Hmono' & Hfiles')%IH. split; by auto.
Qed.

(** [os.makedirs] succeeded: the path is a directory afterwards, the
    directories that were there are still there, and every file was
    there before. *)
Lemma makedirs_spec (fs fs' : FS.state) (p : string) :
  FS.makedirs fs p = inr fs' →
  FS.isdir fs' p = true ∧
  (∀ q, FS.is_dir_at (FS.root fs) q = true → FS.is_dir_at (FS.root fs') q = true) ∧
  (∀ q x, FS.get (FS.root fs') q = Some (FS.File x) → FS.get (FS.root fs) q = Some (FS.File x)).
Proof.
  unfold FS.makedirs.
  destruct (FS.path_exists fs p); [done|].
  destruct (Py.truthy p) eqn:Hp; [simpl|done].
  destruct (FS.mk_walk _ _ _) as [[e t]|[t cur]] eqn:E; [done|].
  destruct (FS.is_dir_at t cur) eqn:Hd; [|done].
  intros [= <-]. apply mk_walk_facts in E as (Hmono & Hfiles & Hwalk).
  split; [|done].
  unfold FS.isdir. rewrite lookup_walk by done. unfold FS.start in *. simpl.
  rewrite Hwalk. unfold FS.is_dir_at in Hd.
  by destruct (FS.get t cur) as [[?|?]|].
Qed.

(** [os.makedirs] raised: the path is still no directory it could have
    made, and what it left behind is directories only. *)
Lemma makedirs_left (fs fs' : FS.state) (p : string) (e : FS.exn) :
  FS.makedirs fs p = inl (e, fs') →
  FS.cwd fs' = FS.cwd fs ∧
  (∀ q, FS.is_dir_at (FS.root fs) q = true → FS.is_dir_at (FS.root fs') q = true) ∧
  (∀ q x, FS.get (FS.root fs') q = Some (FS.File x) → FS.get (FS.root fs) q = Some (FS.File x)).
Proof.
  unfold FS.makedirs.
  destruct (FS.path_exists fs p); [by intros [= <- <-]|].
  destruct (negb (Py.truthy p)); [by intros [= <- <-]|].
  destruct (FS.mk_walk _ _ _) as [[e' t]|[t cur]] eqn:E.
  - intros [= <- <-]. simpl. split; [done|]. by apply mk_walk_left in E.
  - destruct (FS.is_dir_at t cur); [done|]. intros [= <- <-]. simpl. split; [done|].
    apply mk_walk_facts in E as (Hmono & Hfiles & _). done.
Qed.

(** What [open(p, 'wb')] needs and does. *)
Lemma write_file_inv (fs fs' : FS.state) (p : string) (c : FS.content) :
  FS.write_file fs p c = inr fs' →
  Py.truthy p = true ∧
  ∃ dir, FS.walk (FS.root fs) (FS.start fs p) (removelast (Path.components p)) = Some dir ∧
    FS.is_dir_at (FS.root fs) dir = true ∧
    Path.is_name (List.last (Path.components p) "") = true ∧
    FS.is_dir_at (FS.root fs) (dir ++ [List.last (Path.components p) ""]) = false ∧
    fs' = {| FS.root := FS.put (FS.root fs) (dir ++ [List.last (Path.components p) ""])
                          (FS.File c);
             FS.cwd := FS.cwd fs |}.
Proof.
  unfold FS.write_file.
  destruct (Py.truthy p) eqn:Hp; [|done].
  destruct (FS.walk_to _ _ _ _) as [e|dir] eqn:Hw; [done|].
  apply walk_to_walk in Hw.
  destruct (FS.get (FS.root fs) dir) as [[?|es]|] eqn:Hd; try done.
  destruct (Path.is_name _) eqn:Hn; [|done].
  set (name := List.last (Path.components p) "") in *.
  intros H. split; [done|]. exists dir. split; [done|].
  split; [unfold FS.is_dir_at; by rewrite Hd|]. split; [done|].
  unfold FS.is_dir_at. rewrite get_app, Hd.
  destruct (es !! name) as [[?|?]|]; [by injection H as <-|done|].
  destruct (FS.fits name); [by injection H as <-|done].
Qed.

(** After [open(p, 'wb')] and the write, [p] is the file written. *)
Lemma write_file_lookup (fs fs' : FS.state) (p : string) (c : FS.content) :
  FS.write_file fs p c = inr fs' → FS.lookup fs' p = Some (FS.File c).
Proof.
  intros (Hp & dir & Hw & Hd & Hn & Hfree & ->)%write_file_inv.
  set (name := List.last (Path.components p) "") in *.
  rewrite lookup_walk by done. unfold FS.start in *. simpl.
  rewrite (app_removelast_last "" (components_nonempty p)). fold name.
  rewrite walk_app, (walk_ext (FS.root fs)) by (intros; by apply is_dir_at_put_file).
  rewrite Hw. simpl. rewrite step_name by done.
  rewrite is_dir_at_put_file, Hd by done. by apply get_put_same.
Qed.

Lemma write_file_read_pdf (fs fs' : FS.state) (p : string) (doc : Pdf.document) :
  FS.write_file fs p (FS.PdfFile doc) = inr fs' → FS.read_pdf fs' p = inr doc.
Proof. intros H. unfold FS.read_pdf. by rewrite (write_file_lookup _ _ _ _ H). Qed.

End Writes.

(** ** Creating an entry in a directory that is there *)

Section InDirectory.

Arguments FS.mk_step : simpl never.

(** The walk of [os.path.join(a, name)] goes through the directory [a]
    (the working directory when [a] is empty) and then takes [name]. *)
Lemma join_parent (fs : FS.state) (a name : string) :
  Path.is_name name = true → FS.isdir fs (probed_dir a) = true →
  Py.truthy (Path.join a name) = true ∧
  ∃ pre c es, Path.components (Path.join a name) = pre ++ [name] ∧
    FS.walk (FS.root fs) (FS.start fs (Path.join a name)) pre = Some c ∧
    FS.get (FS.root fs) c = Some (FS.Dir es) ∧
    child fs (probed_dir a) name = es !! name.
Proof.
  intros Hname. pose proof Hname as (Hn & Hd & Hdd & Hs)%is_name_facts.
  unfold child, FS.isdir, Path.join, probed_dir. rewrite (name_not_abs _ Hs).
  destruct (Py.truthy a) eqn:Ha; simpl.
  - destruct (Path.ends_with_sep a) eqn:He.
    + destruct (ends_with_sep_split _ He) as [a' ->].
      assert (Hc1 : Path.components ((a' +:+ String Path.sep "") +:+ name)
                    = Path.components a' ++ [name]).
      { by rewrite app_assoc', app_cons, app_nil, components_app_sep, (components_name _ Hs). }
      assert (Hc2 : Path.components (a' +:+ String Path.sep "") = Path.components a' ++ [""]).
      { by rewrite components_app_sep. }
      rewrite lookup_walk by done.
      unfold FS.start. rewrite (is_abs_app (a' +:+ String Path.sep "") name) by done.
      rewrite Hc1, Hc2, walk_app. simpl.
      destruct (FS.walk _ _ (Path.components a')) as [c|] eqn:Hw; [|done].
      rewrite step_dot by done. unfold FS.is_dir_at.
      destruct (FS.get (FS.root fs) c) as [[?|es]|] eqn:E; simpl; rewrite ?E; try done.
      intros _. split; [by apply truthy_app_l|]. by exists (Path.components a'), c, es.
    + rewrite lookup_walk by done.
      unfold FS.start. rewrite is_abs_app by done.
      rewrite components_app_sep, (components_name _ Hs).
      destruct (FS.walk _ _ (Path.components a)) as [c|] eqn:Hw; [|done].
      destruct (FS.get (FS.root fs) c) as [[?|es]|] eqn:E; try done.
      intros _. split; [by apply truthy_app_l|]. by exists (Path.components a), c, es.
  - destruct a; [|done]. rewrite app_nil.
    rewrite lookup_walk by done.
    unfold FS.start. rewrite (name_not_abs _ Hs), (components_name _ Hs). simpl.
    rewrite step_dot by done. unfold FS.is_dir_at.
    destruct (FS.get (FS.root fs) (FS.cwd fs)) as [[?|es]|] eqn:E; simpl; rewrite ?E; try done.
    intros _. split; [done|]. by exists [], (FS.cwd fs), es.
Qed.

Lemma mk_walk_app (p : string) (acc : FS.node * list string) (l1 l2 : list string) :
  FS.mk_walk p acc (l1 ++ l2) =
  match FS.mk_walk p acc l1 with
  | inr acc' => FS.mk_walk p acc' l2
  | inl e => inl e
  end.
Proof.
  revert acc. induction l1 as [|c l1 IH]; intros acc; simpl; [done|].
  destruct (FS.mk_step p acc c); [done|apply IH].
Qed.

(** Along a path that is there, [os.makedirs] makes nothing. *)
Lemma mk_walk_existing (p : string) (t : FS.node) (comps : list string) (cur c : list string) :
  FS.walk t cur comps = Some c → is_Some (FS.get t c) →
  FS.mk_walk p (t, cur) comps = inr (t, c).
Proof.
  revert cur. induction comps as [|x comps IH]; intros cur; simpl; [by intros [= <-]|].
  destruct (FS.step t cur x) as [cur'|] eqn:E; [|done].
  intros Hw Hc.
  assert (Hthere : is_Some (FS.get t cur')).
  { destruct comps as [|y comps]; [by injection Hw as <-|].
    simpl in Hw. unfold FS.step at 1 in Hw. unfold FS.is_dir_at in Hw.
    destruct (FS.get t cur'); [by eexists|done]. }
  assert (Hs : FS.mk_step p (t, cur) x = inr (t, cur')).
  { unfold FS.step, FS.is_dir_at in E. unfold FS.mk_step.
    destruct (FS.get t cur) as [[?|es]|] eqn:Eg; try done.
    destruct (FS.is_dot x); [by injection E as <-|].
    destruct (String.eqb x ".."); [by injection E as <-|].
    injection E as <-. rewrite get_app, Eg in Hthere.
    destruct (es !! x); [done|by destruct Hthere]. }
  rewrite Hs. by apply IH.
Qed.

(** [os.makedirs] on a missing entry of a directory that is there: the
    entry is made when its name fits; when it does not, the call raises
    and the disk is as it was. *)
Lemma makedirs_in_directory (fs : FS.state) (a name : string) :
  Path.is_name name = true → FS.isdir fs (probed_dir a) = true →
  FS.path_exists fs (Path.join a name) = false →
  if FS.fits name then ∃ fs1, FS.makedirs fs (Path.join a name) = inr fs1
  else FS.makedirs fs (Path.join a name) = inl (FS.FileNameTooLong (Path.join a name), fs).
Proof.
  intros Hname Hdir Hex.
  destruct (join_parent fs a name Hname Hdir) as (Ht & pre & c & es & Hc & Hw & Hg & Hch).
  pose proof Hname as (_ & Hd & Hdd & _)%is_name_facts.
  unfold FS.makedirs. rewrite Hex, Ht. simpl.
  unfold FS.path_exists in Hex. rewrite lookup_join, Hch in Hex by done.
  rewrite Hc, mk_walk_app, (mk_walk_existing _ _ _ _ c) by (done || by rewrite Hg).
  simpl. unfold FS.mk_step. rewrite Hg. unfold FS.is_dot. rewrite Hd, Hdd.
  replace (String.eqb name "") with false by (by destruct name).
  simpl. destruct (es !! name); [done|].
  destruct (FS.fits name); [|by destruct fs].
  assert (Hdc : FS.is_dir_at (FS.root fs) c = true) by (unfold FS.is_dir_at; by rewrite Hg).
  unfold FS.is_dir_at. rewrite get_put_same by done. by eexists.
Qed.

End InDirectory.

(** C8. The collision retry loop of the identifier generator terminates on
    every directory state and every sequence of draws: the candidate of
    redraw [k] is a draw moved up by [k * 10000], so the candidates are
    pairwise distinct, and after at most as many redraws as the probed
    directory has entries one of them names no existing file. With that
    many redraws allowed, or more, the loop returns this candidate. *)
Theorem C8_retry_loop_terminates (fs : FS.state) (output_dir : string) (entropy : nat -> Z) :
  ∃ j : nat,
    (j <= length (FS.listdir fs (probed_dir output_dir)))%nat ∧
    (∀ i, (i < j)%nat → taken fs output_dir entropy i = true) ∧
    taken fs output_dir entropy j = false ∧
    (∀ fuel, (j <= fuel)%nat →
       generate_within fuel fs output_dir entropy = Some (candidate entropy j)) ∧
    generate_quotation_number fs output_dir entropy = candidate entropy j ∧
    (∀ k, Z.of_nat k * 10000 < randint entropy k 1 9999 + Z.of_nat k * 10000
          <= Z.of_nat k * 10000 + 9999) ∧
    (∀ k k', candidate entropy k = candidate entropy k' → k = k').
Proof.
  destruct (redraws_suffice fs output_dir entropy) as (j & Hj & Hfree & Htaken & Hgen).
  exists j. do 4 (split; [done|]). split; [|split].
  - unfold generate_quotation_number. by rewrite (Hgen _ Hj).
  - intros k. pose proof (candidate_block entropy k). lia.
  - intros k k'. apply candidate_inj.
Qed.

(** ** Search *)

Section Search.
Context {rt : Runtime}.

Lemma listdir_not_dir (fs : FS.state) (p : string) :
  FS.isdir fs p = false → FS.listdir fs p = [].
Proof.
  unfold FS.isdir, FS.listdir. by destruct (FS.lookup fs p) as [[?|?]|].
Qed.

Lemma get_quotation_files_found (fs : FS.state) (no rp : string) :
  found_of (get_quotation_files fs no rp)
  = flat_map (matching_files fs QUOTATIONS_DIR no) (matching_dirs fs QUOTATIONS_DIR rp).
Proof.
  unfold get_quotation_files.
  destruct (FS.isdir fs QUOTATIONS_DIR) eqn:E; simpl.
  - destruct (matching_dirs _ _ _) eqn:Ed; [done|]. by destruct (flat_map _ _).
  - unfold matching_dirs. by rewrite listdir_not_dir.
Qed.

Lemma rep_filter_spec (rp d : string) :
  negb (Py.truthy rp) || Py.contains (Py.lower rp) (Py.lower d) = true
  ↔ occurs_ignoring_case rp d.
Proof.
  rewrite orb_true_iff, contains_lower_spec. split; [|by right].
  intros [H|H]; [|done]. destruct rp; [apply occurs_empty|done].
Qed.

Lemma search_membership (fs : FS.state) (no rp : string) (e : found) :
  e ∈ found_of (get_quotation_files fs no rp) ↔
  ∃ d f, e = {| file := f; url := Path.join3 "quotations" d f |} ∧
         d ∈ FS.listdir fs QUOTATIONS_DIR ∧
         FS.isdir fs (Path.join QUOTATIONS_DIR d) = true ∧
         occurs_ignoring_case rp d ∧
         f ∈ FS.listdir fs (Path.join QUOTATIONS_DIR d) ∧
         (∃ stem, f = stem +:+ ".pdf") ∧
         occurs_ignoring_case no f.
Proof.
  rewrite get_quotation_files_found, list_elem_of_In, in_flat_map. split.
  - intros (d & Hd & He). unfold matching_dirs in Hd. unfold matching_files in He.
    apply filter_In in Hd as [Hd [Hdir Hrep]%andb_true_iff].
    apply in_map_iff in He as (f & <- & Hf).
    apply filter_In in Hf as [Hf [Hpdf Hno]%andb_true_iff].
    exists d, f. rewrite !list_elem_of_In.
    apply rep_filter_spec in Hrep. apply endswith_spec in Hpdf.
    apply contains_lower_spec in Hno. done.
  - intros (d & f & -> & Hd & Hdir & Hrep & Hf & Hpdf & Hno).
    rewrite list_elem_of_In in Hd, Hf. exists d. split.
    + apply filter_In. split; [done|]. apply andb_true_iff. split; [done|].
      by apply rep_filter_spec.
    + unfold matching_files. apply in_map_iff. exists f. split; [done|].
      apply filter_In. split; [done|]. apply andb_true_iff.
      by rewrite endswith_spec, contains_lower_spec.
Qed.

End Search.


(** C7 (where the code departs from the specification). A directory
    named [archive.pdf] inside a representative's directory is returned
    by the search beside the quotation stored there, as if it were a PDF
    file: the entries are chosen by their name, and nothing looks at
    what they are, although one level up the representative directories
    are told from files. *)
Theorem C7_directory_is_returned :
  FS.lookup Sample.archive_disk "/srv/app/quotations/Bob/Q-101_Alice.pdf" = Some Sample.a_pdf ∧
  FS.isdir Sample.archive_disk "/srv/app/quotations/Bob/archive.pdf" = true ∧
  FS.read_pdf Sample.archive_disk "/srv/app/quotations/Bob/archive.pdf"
  = inl (FS.IsADirectoryError "/srv/app/quotations/Bob/archive.pdf") ∧
  get_quotation_files (rt := Sample.runtime) Sample.archive_disk "" ""
  = results [ {| file := "Q-101_Alice.pdf"; url := "quotations/Bob/Q-101_Alice.pdf" |};
              {| file := "archive.pdf"; url := "quotations/Bob/archive.pdf" |} ].
Proof. by vm_compute. Qed.

(** ** Composition *)

Section Composer.
Context {rt : Runtime}.

Lemma map_nth_seq {A} (l : list A) (d : A) :
  map (λ i, nth i l d) (seq 0 (length l)) = l.
Proof.
  induction l as [|x l IH]; [done|].
  simpl. f_equal. rewrite <- seq_shift, map_map. exact IH.
Qed.

(** With a one-page overlay the merge touches the first page only. *)
Lemma merge_single (template_pdf : Pdf.document) (drawn : Pdf.page) :
  merge template_pdf [drawn]
  = match template_pdf with
    | [] => []
    | first :: later => Pdf.merge_page first drawn :: later
    end.
Proof.
  destruct template_pdf as [|first later]; [done|].
  unfold merge. simpl. f_equal.
  rewrite <- seq_shift, map_map. simpl. apply map_nth_seq.
Qed.

Lemma merge_length (template_pdf overlay_pdf : Pdf.document) :
  length (merge template_pdf overlay_pdf) = length template_pdf.
Proof. unfold merge. by rewrite length_map, length_seq. Qed.

Lemma draw_items_shown (items : list item) (c : Pdf.canvas) (y : float) :
  Pdf.shown (draw_items c y items) = Pdf.shown c.
Proof.
  revert c y. induction items as [|it items IH]; intros c y; simpl; [done|].
  by rewrite IH.
Qed.

(** The canvas is shown once: the overlay has exactly one page. *)
Lemma overlay_single (q : quotation) : ∃ drawn, overlay q = [drawn].
Proof.
  unfold overlay, Pdf.save, Pdf.showPage. simpl.
  rewrite draw_items_shown. simpl. by eexists.
Qed.

End Composer.

(** C9. Whenever composition succeeds, the document read back from the
    output path has exactly as many pages as the template; its first
    page is the template's first page with the single overlay page drawn
    on it, and every later page is the template's page, unchanged. *)
Theorem C9_compose_keeps_pages (rt : Runtime) (fs fs' : FS.state)
    (output_file template_path : string) (q : quotation) :
  create_quotation_pdf fs output_file q template_path = (fs', Done) →
  ∃ template_pdf drawn output_pdf,
    FS.read_pdf fs template_path = inr template_pdf ∧
    overlay q = [drawn] ∧
    FS.read_pdf fs' output_file = inr output_pdf ∧
    length output_pdf = length template_pdf ∧
    output_pdf = match template_pdf with
                 | [] => []
                 | first :: later => Pdf.merge_page first drawn :: later
                 end.
Proof.
  unfold create_quotation_pdf.
  destruct (FS.read_pdf fs template_path) as [e|template_pdf] eqn:Hr; [done|].
  destruct (FS.write_file _ _ _) as [e|fs2] eqn:Hw; [done|].
  intros [= <-]. destruct (overlay_single q) as [drawn Hd].
  exists template_pdf, drawn, (merge template_pdf (overlay q)).
  split; [done|]. split; [done|]. split; [exact (write_file_read_pdf _ _ _ _ Hw)|].
  split; [apply merge_length|]. rewrite Hd. apply merge_single.
Qed.

(** ** Download *)

(** C2 (where the code departs from the specification). The first
    statement of [download_file] reads the global [request], and
    [downlod.py] binds no such name: it imports [send_file] and [abort]
    from flask, [os], and [app]. Every call therefore ends in
    [NameError] before the [file] parameter is looked at; no request is
    answered with 400 or with 404, and none with a file. *)
Theorem C2_download_raises_name_error (rt : Runtime) (fs : FS.state)
    (query : list (string * string)) :
  resolves "request" = false ∧
  download_file fs query = raises (NameError "request") ∧
  download_file fs query ≠ abort 400 "No file specified" ∧
  download_file fs query ≠ abort 404 "File not found" ∧
  ∀ path, download_file fs query ≠ send_file path true.
Proof.
  assert (H : download_file fs query = raises (NameError "request")) by done.
  rewrite H. by repeat split.
Qed.

(** ** Item rows *)

Section Rows.
Context {rt : Runtime}.
Variables (quantities rates amounts vats : list string).

Notation outcome := (row_outcome quantities rates amounts vats).
Notation accepted_rows := (accepted quantities rates amounts vats).
Notation rejected_rows := (rejected quantities rates amounts vats).

Lemma process_row_outcome (q : quotation) (e : list string) (i : nat) :
  process_row quantities rates amounts vats (q, e) i
  = match outcome i with
    | Some it => (add_item q it, e)
    | None => (q, e ++ [row_error i])
    end.
Proof.
  unfold process_row, row_outcome, nonzero_row.
  destruct (parse_row _ _ _ _ i) as [it|]; [|done].
  by destruct (float_truthy (quantity it) && float_truthy (rate it) && float_truthy (amount it)).
Qed.

Lemma fold_process_rows (rows : list nat) (q : quotation) (e : list string) :
  fold_left (process_row quantities rates amounts vats) rows (q, e)
  = (fold_left add_item (accepted_rows rows) q, e ++ rejected_rows rows).
Proof.
  revert q e. induction rows as [|i rows IH]; intros q e.
  - simpl. by rewrite app_nil_r.
  - cbn [fold_left]. rewrite process_row_outcome.
    unfold accepted, rejected in *. cbn [omap list_omap List.filter fmap list_fmap].
    destruct (outcome i) as [it|]; rewrite IH; cbn [fold_left fmap list_fmap]; [done|].
    by rewrite <- app_assoc.
Qed.

Lemma process_items_spec (q : quotation) (e : list string) :
  process_items quantities rates amounts vats (q, e)
  = if negb (same_lengths quantities rates amounts vats) then
      (q, e ++ ["Invalid item data submitted."])
    else if Z.of_nat (length quantities) >? 60 then
      (q, e ++ ["Too many items. Maximum 60 items allowed."])
    else
      (fold_left add_item (accepted_rows (seq 0 (length quantities))) q,
       e ++ rejected_rows (seq 0 (length quantities))).
Proof.
  unfold process_items. destruct (negb _); [done|]. simpl.
  destruct (_ >? _); [done|]. apply fold_process_rows.
Qed.

Lemma accepted_spec (rows : list nat) (it : item) :
  it ∈ accepted_rows rows ↔ ∃ i, i ∈ rows ∧ outcome i = Some it.
Proof. unfold accepted. apply list_elem_of_omap. Qed.

Lemma rejected_spec (rows : list nat) (i : nat) :
  i ∈ rows → outcome i = None → row_error i ∈ rejected_rows rows.
Proof.
  intros Hi Ho. unfold rejected. apply list_elem_of_fmap. exists i. split; [done|].
  apply list_elem_of_In, filter_In. split; [by apply list_elem_of_In|by rewrite Ho].
Qed.

Lemma row_outcome_Some (i : nat) (it : item) :
  outcome i = Some it ↔
  parse_row quantities rates amounts vats i = Some it ∧ nonzero_row it = true.
Proof.
  unfold row_outcome. destruct (parse_row _ _ _ _ i) as [it'|].
  - destruct (nonzero_row it') eqn:E; split.
    + by intros [= <-].
    + by intros [[= <-] _].
    + done.
    + intros [[= <-] H]. congruence.
  - split; [done|by intros [? _]].
Qed.

Lemma void_row (i : nat) :
  void_field (nth i quantities "") ∨ void_field (nth i rates "") ∨
  void_field (nth i amounts "") →
  outcome i = None.
Proof.
  unfold row_outcome, parse_row, nonzero_row, void_field.
  intros H.
  destruct (float_of_str (nth i quantities "")) as [x|] eqn:Eq; [|done].
  destruct (float_of_str (nth i rates "")) as [r|] eqn:Er; [|done].
  destruct (float_of_str (nth i amounts "")) as [a|] eqn:Ea; [|done].
  destruct (if Py.truthy (nth i vats "") then _ else _) as [v|]; [|done]. simpl.
  destruct H as [[?|(z & [= <-] & ->)]|[[?|(z & [= <-] & ->)]|[?|(z & [= <-] & ->)]]];
    try done; by rewrite ?andb_false_r.
Qed.

End Rows.

Section Totals.

Lemma fsum_snoc (l : list float) (x : float) : fsum (l ++ [x]) = (fsum l + x)%float.
Proof. unfold fsum. by rewrite fold_left_app. Qed.

Lemma add_item_sums (q : quotation) (it : item) :
  subtotal q = fsum (amount <$> quote_items q) →
  tax q = fsum ((λ it, amount it * (vat it / 100))%float <$> quote_items q) →
  subtotal (add_item q it) = fsum (amount <$> quote_items (add_item q it)) ∧
  tax (add_item q it)
  = fsum ((λ it, amount it * (vat it / 100))%float <$> quote_items (add_item q it)).
Proof.
  intros Hs Ht. simpl. rewrite !fmap_app. simpl. rewrite !fsum_snoc. by rewrite Hs, Ht.
Qed.

Lemma add_items_sums (its : list item) (q : quotation) :
  subtotal q = fsum (amount <$> quote_items q) →
  tax q = fsum ((λ it, amount it * (vat it / 100))%float <$> quote_items q) →
  let q' := fold_left add_item its q in
  subtotal q' = fsum (amount <$> quote_items q') ∧
  tax q' = fsum ((λ it, amount it * (vat it / 100))%float <$> quote_items q').
Proof.
  revert q. induction its as [|it its IH]; intros q Hs Ht; simpl; [done|].
  destruct (add_item_sums q it Hs Ht). by apply IH.
Qed.

Lemma add_items_fields (its : list item) (q : quotation) :
  let q' := fold_left add_item its q in
  quote_items q' = quote_items q ++ its ∧ quotation_no q' = quotation_no q ∧
  client_name q' = client_name q ∧ rep q' = rep q ∧ date q' = date q.
Proof.
  revert q. induction its as [|it its IH]; intros q; simpl.
  - by rewrite app_nil_r.
  - destruct (IH (add_item q it)) as (-> & -> & -> & -> & ->). simpl.
    by rewrite <- app_assoc.
Qed.

End Totals.

(** ** The handler *)

Section Handler.
Context {rt : Runtime}.
Variables (fs : FS.state) (entropy : nat -> Z) (req : request).

Notation quantities := (getlist (form req) "quantity[]").
Notation rates := (getlist (form req) "rate[]").
Notation amounts := (getlist (form req) "amount[]").
Notation vats := (getlist (form req) "vat[]").
Notation rep_name := (field_or_empty (form req) "rep").
Notation client := (field_or_empty (form req) "client_name").

Lemma zero_plus_zero : (0 + 0)%float = 0%float.
Proof. by vm_compute. Qed.

Lemma validated_spec (dir_errors : list string) :
  let v := validated fs entropy req dir_errors in
  quotation_no v.1 = generate_quotation_number fs (output_dir_of rep_name) entropy ∧
  client_name v.1 = client ∧ rep v.1 = rep_name ∧ date v.1 = today ∧
  quote_items v.1 = accepted_items req ∧
  derived_from_items v.1 ∧
  v.2 = dir_errors ++ item_errors req ++ required_errors v.1.
Proof.
  unfold validated, item_errors, accepted_items, derived_from_items.
  rewrite process_items_spec.
  set (q0 := {| quotation_no := _ |}).
  destruct (negb _); [|destruct (_ >? _)]; cbn [fst snd with_total quotation_no client_name
    rep date quote_items subtotal tax total q0]; rewrite <- ?app_assoc.
  - by repeat split.
  - by repeat split.
  - set (its := accepted _ _ _ _ _).
    destruct (add_items_fields its q0) as (Hi & Hn & Hc & Hr & Hd).
    destruct (add_items_sums its q0) as (Hs & Ht); [done|done|].
    by repeat split.
Qed.

Lemma create_failed (fs1 fs2 : FS.state) (o t : string) (q : quotation) (m : string) :
  create_quotation_pdf fs1 o q t = (fs2, Failed m) → fs2 = fs1.
Proof.
  unfold create_quotation_pdf. destruct (FS.read_pdf fs1 t); [by intros [= <-]|].
  destruct (FS.write_file _ _ _); by intros [= <-].
Qed.

Lemma index_no_submission :
  is_submission req = false →
  ∃ sn sr ls, index fs entropy req = (fs, page sn sr ls blank_quotation []).
Proof.
  unfold is_submission, index. destruct (meth req).
  - intros _. by eexists _, _, _.
  - intros ->. by eexists _, _, _.
Qed.

(** A submission ends in one of two ways: the page is rendered with a
    non-empty error list and nothing was written after the directory
    step, or validation left no error, the document was composed and the
    answer is the redirect. *)
Lemma index_submission :
  is_submission req = true →
  let out := output_dir_of rep_name in
  let d := ensure_dir fs out in
  let v := validated d.1 entropy req d.2 in
  (∃ sn sr ls errs,
     index fs entropy req = (d.1, page sn sr ls v.1 errs) ∧ errs ≠ [] ∧
     (v.2 ≠ [] → errs = v.2)) ∨
  (v.2 = [] ∧
   create_quotation_pdf d.1
     (Path.join out (quotation_no v.1 +:+ "_" +:+ Py.sub_unsafe client +:+ ".pdf"))
     v.1 (Path.join TEMPLATE_DIR "QUOTATION.pdf")
   = ((index fs entropy req).1, Done) ∧
   ∃ msg, (index fs entropy req).2 = redirect "index" msg).
Proof.
  unfold is_submission, index. destruct (meth req); [done|]. intros ->.
  simpl. destruct (ensure_dir fs _) as [fs1 dir_errors]. simpl.
  destruct (validated fs1 entropy req dir_errors) as [q errs]. simpl.
  destruct errs as [|e errs].
  - destruct (negb (FS.path_exists fs1 _)).
    { left. eexists _, _, _, _. by split. }
    destruct (negb (FS.access_w fs1 _)).
    { left. eexists _, _, _, _. by split. }
    destruct (create_quotation_pdf _ _ _ _) as [fs2 [|m]] eqn:E.
    + right. split; [done|]. split; [done|]. by eexists.
    + apply create_failed in E as ->. left. eexists _, _, _, _. by split.
  - left. eexists _, _, _, _. by split.
Qed.

End Handler.

Section HandlerFacts.
Context {rt : Runtime}.

Lemma blank_derived : derived_from_items blank_quotation.
Proof. unfold derived_from_items. simpl. by repeat split. Qed.

Lemma page_inv (sn sr : string) (ls : list string * list found) (q : quotation)
    (errs : list string) (ctx : context) :
  page sn sr ls q errs = render_template "index.html" ctx →
  quotation_data ctx = q ∧ errors ctx = errs.
Proof. by intros [= <-]. Qed.

Lemma ensure_dir_cases (fs : FS.state) (out : string) :
  (FS.path_exists fs out = true ∧ ensure_dir fs out = (fs, [])) ∨
  (FS.path_exists fs out = false ∧ ∃ fs1, FS.makedirs fs out = inr fs1 ∧
     ensure_dir fs out = (fs1, [])) ∨
  (FS.path_exists fs out = false ∧ ∃ e fs1, FS.makedirs fs out = inl (e, fs1) ∧
     ensure_dir fs out = (fs1, ["Failed to create directory: " +:+ out])).
Proof.
  unfold ensure_dir. destruct (FS.path_exists fs out); simpl; [by left|].
  right. destruct (FS.makedirs fs out) as [[e fs1]|fs1]; [right|left]; eauto.
Qed.

(** The directory step writes no file. *)
Lemma ensure_dir_files (fs : FS.state) (out : string) (p : list string) (x : FS.content) :
  FS.get (FS.root (ensure_dir fs out).1) p = Some (FS.File x) →
  FS.get (FS.root fs) p = Some (FS.File x).
Proof.
  destruct (ensure_dir_cases fs out)
    as [[_ ->]|[(_ & fs1 & Hm & ->)|(_ & e & fs1 & Hm & ->)]]; [done| |]; simpl.
  - apply makedirs_spec in Hm as (_ & _ & Hfiles). apply Hfiles.
  - apply makedirs_left in Hm as (_ & _ & Hfiles). apply Hfiles.
Qed.

Lemma row_error_shape (i : nat) : ∃ s, row_error i = String "I" (String "n" (String "c" s)).
Proof. unfold row_error. rewrite !app_cons. by eexists. Qed.

Lemma row_error_not_required (i : nat) (q : quotation) : row_error i ∉ required_errors q.
Proof.
  destruct (row_error_shape i) as [s ->]. unfold required_errors.
  destruct (Py.truthy (client_name q)), (Py.truthy (rep q)), (quote_items q);
    simpl; rewrite ?elem_of_cons, ?elem_of_nil; intros H; repeat destruct H as [H|H];
    done.
Qed.

Lemma row_error_not_dir_error (i : nat) (fs : FS.state) (out : string) :
  row_error i ∉ (ensure_dir fs out).2.
Proof.
  destruct (row_error_shape i) as [s ->].
  destruct (ensure_dir_cases fs out)
    as [[_ ->]|[(_ & fs1 & _ & ->)|(_ & e & fs1 & _ & ->)]]; simpl;
    rewrite ?elem_of_cons, ?elem_of_nil; [tauto|tauto|].
  rewrite app_cons. intros [H|H]; done.
Qed.

Lemma safe_char_not_sep (c : ascii) :
  Ascii.eqb (if Py.safe_char c then c else "_"%char) Path.sep = false.
Proof. by destruct c as [[] [] [] [] [] [] [] []]. Qed.

Lemma safe_char_not_dot (c : ascii) :
  Ascii.eqb (if Py.safe_char c then c else "_"%char) "." = false.
Proof. by destruct c as [[] [] [] [] [] [] [] []]. Qed.

(** A sanitized name is one path component. *)
Lemma sub_unsafe_is_name (s : string) :
  Py.truthy s = true → Path.is_name (Py.sub_unsafe s) = true.
Proof.
  intros Hs. unfold Path.is_name.
  assert (Hsep : ∀ s, Path.has_sep (Py.sub_unsafe s) = false).
  { clear. induction s as [|c s IH]; [done|]. simpl. by rewrite safe_char_not_sep, IH. }
  rewrite Hsep. destruct s as [|c s]; [done|]. simpl.
  pose proof (safe_char_not_dot c) as Hd.
  destruct (if Py.safe_char c then c else "_"%char) as [b0 b1 b2 b3 b4 b5 b6 b7] eqn:E.
  destruct (Py.sub_unsafe s) as [|c' s'].
  - destruct b0, b1, b2, b3, b4, b5, b6, b7; done.
  - destruct b0, b1, b2, b3, b4, b5, b6, b7; done.
Qed.

(** Within the limits of the item arrays, a row without outcome leaves
    its row-level error in the error list. *)
Lemma rejected_row_reported (fs : FS.state) (entropy : nat -> Z) (req : request)
    (dir_errors : list string) (i : nat) :
  same_lengths (getlist (form req) "quantity[]") (getlist (form req) "rate[]")
               (getlist (form req) "amount[]") (getlist (form req) "vat[]") = true →
  (length (getlist (form req) "quantity[]") <= 60)%nat →
  (i < length (getlist (form req) "quantity[]"))%nat →
  row_outcome (getlist (form req) "quantity[]") (getlist (form req) "rate[]")
              (getlist (form req) "amount[]") (getlist (form req) "vat[]") i = None →
  row_error i ∈ (validated fs entropy req dir_errors).2.
Proof.
  intros Hlen Hmax Hlt Ho.
  destruct (validated_spec fs entropy req dir_errors) as (_ & _ & _ & _ & _ & _ & He).
  rewrite He. unfold item_errors. rewrite Hlen. simpl.
  destruct (_ >? _) eqn:Hgt; [lia|].
  apply elem_of_app. right. apply elem_of_app. left.
  apply rejected_spec; [|done]. apply elem_of_seq. lia.
Qed.

End HandlerFacts.

(** C3. On every request the quotation holds exactly the accepted item
    rows of the request, in row order (none when the request is no
    submission), and its totals are derived from them: [subtotal] is the
    sum of their amounts, [tax] the sum of their [amount * (vat / 100)],
    both accumulated from zero in row order in the interpreter's float
    arithmetic, and [total] is [subtotal + tax]. This holds for the
    quotation that validation builds, for the one handed to the page,
    and for the one a document is composed from; the handler starts each
    request from zero and keeps no total of its own. (In particular it
    holds for the submissions whose accepted rows are positive with a
    VAT of at least zero.) *)
Theorem C3_totals_are_derived_from_items (rt : Runtime) (fs : FS.state)
    (entropy : nat -> Z) (req : request) :
  (∀ dir_errors,
     quote_items (validated fs entropy req dir_errors).1 = accepted_items req ∧
     totals_from (accepted_items req) (validated fs entropy req dir_errors).1) ∧
  (∀ ctx, (index fs entropy req).2 = render_template "index.html" ctx →
          quote_items (quotation_data ctx) = rows_of req ∧
          totals_from (rows_of req) (quotation_data ctx)) ∧
  (∀ msg, (index fs entropy req).2 = redirect "index" msg →
          ∃ fs1 output_file template_path q,
            quote_items q = rows_of req ∧ totals_from (rows_of req) q ∧
            create_quotation_pdf fs1 output_file q template_path
            = ((index fs entropy req).1, Done)).
Proof.
  assert (Hv : ∀ fs0 dir_errors,
            quote_items (validated fs0 entropy req dir_errors).1 = accepted_items req ∧
            totals_from (accepted_items req) (validated fs0 entropy req dir_errors).1).
  { intros fs0 dir_errors.
    destruct (validated_spec fs0 entropy req dir_errors)
      as (_ & _ & _ & _ & Hi & (Hs & Ht & Htot) & _).
    split; [done|]. unfold totals_from. rewrite <- Hi, <- Hs, <- Ht. done. }
  split; [apply Hv|]. unfold rows_of. split.
  - intros ctx Hctx. destruct (is_submission req) eqn:Hs.
    + destruct (index_submission fs entropy req Hs)
        as [(sn & sr & ls & errs & Hi & _)|(_ & _ & msg & Hr)].
      * rewrite Hi in Hctx. apply page_inv in Hctx as [-> _]. apply Hv.
      * congruence.
    + destruct (index_no_submission fs entropy req Hs) as (sn & sr & ls & Hi).
      rewrite Hi in Hctx. apply page_inv in Hctx as [-> _].
      split; [done|]. unfold totals_from, fsum. cbn [fmap list_fmap fold_left blank_quotation
        subtotal tax total]. by rewrite zero_plus_zero.
  - intros msg Hmsg. destruct (is_submission req) eqn:Hs.
    + destruct (index_submission fs entropy req Hs)
        as [(sn & sr & ls & errs & Hi & _)|(_ & Hc & _)].
      * rewrite Hi in Hmsg. done.
      * eexists _, _, _, _. split; [|split; [|exact Hc]]; apply Hv.
    + destruct (index_no_submission fs entropy req Hs) as (sn & sr & ls & Hi).
      rewrite Hi in Hmsg. done.
Qed.

(** C4 (as amended). A row reaches [quote_items] only if its quantity,
    rate and amount all converted and are non-zero ([bool(x)], which a
    negative number passes); so every entry of [quote_items] has non-zero
    quantity, rate and amount. When the arrays have equal lengths and at
    most 60 rows, a row in which one of the three fields does not
    convert (a blank one does not) or converts to zero is rejected with
    its row-level error and contributes no item. *)
Theorem C4_rows_accepted_when_nonzero (rt : Runtime) (fs : FS.state)
    (entropy : nat -> Z) (req : request) (dir_errors : list string) :
  (∀ it, it ∈ quote_items (validated fs entropy req dir_errors).1 →
     nonzero_row it = true ∧
     ∃ i, (i < length (getlist (form req) "quantity[]"))%nat ∧
          parse_row (getlist (form req) "quantity[]") (getlist (form req) "rate[]")
                    (getlist (form req) "amount[]") (getlist (form req) "vat[]") i = Some it) ∧
  (same_lengths (getlist (form req) "quantity[]") (getlist (form req) "rate[]")
                (getlist (form req) "amount[]") (getlist (form req) "vat[]") = true →
   (length (getlist (form req) "quantity[]") <= 60)%nat →
   ∀ i, (i < length (getlist (form req) "quantity[]"))%nat →
     void_field (nth i (getlist (form req) "quantity[]") "") ∨
     void_field (nth i (getlist (form req) "rate[]") "") ∨
     void_field (nth i (getlist (form req) "amount[]") "") →
     row_error i ∈ (validated fs entropy req dir_errors).2 ∧
     row_outcome (getlist (form req) "quantity[]") (getlist (form req) "rate[]")
                 (getlist (form req) "amount[]") (getlist (form req) "vat[]") i = None).
Proof.
  destruct (validated_spec fs entropy req dir_errors) as (_ & _ & _ & _ & Hi & _ & He).
  split.
  - intros it. rewrite Hi. unfold accepted_items.
    destruct (negb _); [by intros ?%elem_of_nil|].
    destruct (_ >? _); [by intros ?%elem_of_nil|].
    intros (i & Hin & Ho)%accepted_spec. apply row_outcome_Some in Ho as [Hp Hn].
    split; [done|]. exists i. apply elem_of_seq in Hin. split; [lia|done].
  - intros Hlen Hmax i Hlt Hvoid.
    apply (void_row _ _ _ (getlist (form req) "vat[]")) in Hvoid. split; [|done].
    by apply rejected_row_reported.
Qed.

(** A row with quantity [-1] and amount [-5] converts, is non-zero and
    is accepted: the quotation is composed and stored although neither
    value is strictly positive. *)
Lemma C4_negative_row_is_accepted :
  quote_items
    (validated (rt := Sample.runtime) (Sample.disk []) (Sample.always 123)
       (Sample.submission "Alice" "Bob" [("-1", "5", "-5", "")]) []).1
  = [ {| quantity := (-1)%float; rate := 5%float; amount := (-5)%float; vat := 0%float |} ] ∧
  (0 <? -1)%float = false ∧ (0 <? -5)%float = false ∧
  (index (rt := Sample.runtime) (Sample.disk []) (Sample.always 123)
     (Sample.submission "Alice" "Bob" [("-1", "5", "-5", "")])).2
  = redirect "index" "Quotation generated successfully: Q-123_Alice.pdf".
Proof. by vm_compute. Qed.

(** C5 (as amended). In a submission with equal-length arrays of at most
    60 rows, a row whose quantity converts to zero is rejected with its
    row-level error, and every other row whose quantity, rate and amount
    convert and are non-zero and whose VAT is blank or converts is still
    accepted: [quote_items] holds exactly the accepted rows in row
    order, each with non-zero quantity, rate and amount, and [subtotal],
    [tax] and [total] are summed over them. The row error is in the one
    error list that gates composition: the page is rendered with it, no
    document is composed, and the filesystem is the one the directory
    step left. *)
Theorem C5_zero_row_rejected_others_kept (rt : Runtime) (fs : FS.state)
    (entropy : nat -> Z) (req : request) (i : nat) (z : float) :
  is_submission req = true →
  same_lengths (getlist (form req) "quantity[]") (getlist (form req) "rate[]")
               (getlist (form req) "amount[]") (getlist (form req) "vat[]") = true →
  (length (getlist (form req) "quantity[]") <= 60)%nat →
  (i < length (getlist (form req) "quantity[]"))%nat →
  float_of_str (nth i (getlist (form req) "quantity[]") "") = Some z →
  float_truthy z = false →
  ∃ sn sr ls q errs,
    index fs entropy req
    = ((ensure_dir fs (output_dir_of (field_or_empty (form req) "rep"))).1,
       page sn sr ls q errs) ∧
    row_error i ∈ errs ∧
    quote_items q = accepted_items req ∧
    totals_from (quote_items q) q ∧
    (∀ it, it ∈ quote_items q → nonzero_row it = true) ∧
    (∀ j it, (j < length (getlist (form req) "quantity[]"))%nat →
      row_outcome (getlist (form req) "quantity[]") (getlist (form req) "rate[]")
                  (getlist (form req) "amount[]") (getlist (form req) "vat[]") j = Some it →
      it ∈ quote_items q) ∧
    ∀ j qj rj aj vj, (j < length (getlist (form req) "quantity[]"))%nat →
      float_of_str (nth j (getlist (form req) "quantity[]") "") = Some qj →
      float_of_str (nth j (getlist (form req) "rate[]") "") = Some rj →
      float_of_str (nth j (getlist (form req) "amount[]") "") = Some aj →
      (if Py.truthy (nth j (getlist (form req) "vat[]") "")
       then float_of_str (nth j (getlist (form req) "vat[]") "") else Some 0%float) = Some vj →
      float_truthy qj = true → float_truthy rj = true → float_truthy aj = true →
      {| quantity := qj; rate := rj; amount := aj; vat := vj |} ∈ quote_items q.
Proof.
  intros Hs Hlen Hmax Hi Hz Hzero.
  set (d := ensure_dir fs (output_dir_of (field_or_empty (form req) "rep"))).
  destruct (validated_spec d.1 entropy req d.2) as (_ & _ & _ & _ & Hitems & Hder & He).
  assert (Herr : row_error i ∈ (validated d.1 entropy req d.2).2).
  { apply rejected_row_reported; try done. apply void_row. left. right. by exists z. }
  assert (Hacc : ∀ j it, (j < length (getlist (form req) "quantity[]"))%nat →
            row_outcome (getlist (form req) "quantity[]") (getlist (form req) "rate[]")
              (getlist (form req) "amount[]") (getlist (form req) "vat[]") j = Some it →
            it ∈ accepted_items req).
  { intros j it Hj Ho. unfold accepted_items. rewrite Hlen. simpl.
    destruct (_ >? _) eqn:Hgt; [lia|].
    apply accepted_spec. exists j. split; [|done]. apply elem_of_seq. lia. }
  destruct (index_submission fs entropy req Hs)
    as [(sn & sr & ls & errs & Hidx & _ & Herrs)|(Hnil & _)].
  - exists sn, sr, ls, (validated d.1 entropy req d.2).1, errs.
    split; [exact Hidx|]. split.
    { rewrite Herrs; [exact Herr|]. intros Hnil. fold d in Hnil.
      rewrite Hnil in Herr. by apply elem_of_nil in Herr. }
    split; [done|]. split.
    { destruct Hder as (H1 & H2 & H3). unfold totals_from. by rewrite <- H1, <- H2. }
    rewrite Hitems. split; [|split; [exact Hacc|]].
    + intros it Hit. unfold accepted_items in Hit. rewrite Hlen in Hit. simpl in Hit.
      destruct (_ >? _); [by apply elem_of_nil in Hit|].
      apply accepted_spec in Hit as (j & _ & Ho). by apply row_outcome_Some in Ho as [_ ?].
    + intros j qj rj aj vj Hj Hq Hr Ha Hv Tq Tr Ta. apply (Hacc j _ Hj).
      apply row_outcome_Some. unfold parse_row, nonzero_row. rewrite Hq, Hr, Ha, Hv.
      simpl. by rewrite Tq, Tr, Ta.
  - fold d in Hnil. rewrite Hnil in Herr. by apply elem_of_nil in Herr.
Qed.

(** The theorem at work: the submission of [zero_then_one_row]. *)
Lemma C5_witness :
  ∃ sn sr ls q errs,
    index (rt := Sample.runtime) (Sample.disk []) (Sample.always 123)
      (Sample.submission "Alice" "Bob" Sample.zero_then_one_row)
    = ((ensure_dir (Sample.disk [])
          (output_dir_of (rt := Sample.runtime)
             (field_or_empty (form (Sample.submission "Alice" "Bob" Sample.zero_then_one_row))
                "rep"))).1,
       page sn sr ls q errs) ∧
    row_error 0 ∈ errs ∧
    quote_items q
    = accepted_items (rt := Sample.runtime)
        (Sample.submission "Alice" "Bob" Sample.zero_then_one_row) ∧
    totals_from (quote_items q) q ∧
    (∀ it, it ∈ quote_items q → nonzero_row it = true) ∧
    (∀ j it,
      (j < length (getlist (form (Sample.submission "Alice" "Bob" Sample.zero_then_one_row))
                     "quantity[]"))%nat →
      row_outcome (rt := Sample.runtime)
        (getlist (form (Sample.submission "Alice" "Bob" Sample.zero_then_one_row)) "quantity[]")
        (getlist (form (Sample.submission "Alice" "Bob" Sample.zero_then_one_row)) "rate[]")
        (getlist (form (Sample.submission "Alice" "Bob" Sample.zero_then_one_row)) "amount[]")
        (getlist (form (Sample.submission "Alice" "Bob" Sample.zero_then_one_row)) "vat[]") j
      = Some it →
      it ∈ quote_items q) ∧
    ∀ j qj rj aj vj,
      (j < length (getlist (form (Sample.submission "Alice" "Bob" Sample.zero_then_one_row))
                     "quantity[]"))%nat →
      Sample.read_float
        (nth j (getlist (form (Sample.submission "Alice" "Bob" Sample.zero_then_one_row))
                  "quantity[]") "") = Some qj →
      Sample.read_float
        (nth j (getlist (form (Sample.submission "Alice" "Bob" Sample.zero_then_one_row))
                  "rate[]") "") = Some rj →
      Sample.read_float
        (nth j (getlist (form (Sample.submission "Alice" "Bob" Sample.zero_then_one_row))
                  "amount[]") "") = Some aj →
      (if Py.truthy (nth j (getlist (form (Sample.submission "Alice" "Bob"
                                             Sample.zero_then_one_row)) "vat[]") "")
       then Sample.read_float
              (nth j (getlist (form (Sample.submission "Alice" "Bob" Sample.zero_then_one_row))
                        "vat[]") "")
       else Some 0%float) = Some vj →
      float_truthy qj = true → float_truthy rj = true → float_truthy aj = true →
      {| quantity := qj; rate := rj; amount := aj; vat := vj |} ∈ quote_items q.
Proof.
  apply (C5_zero_row_rejected_others_kept Sample.runtime (Sample.disk []) (Sample.always 123)
           (Sample.submission "Alice" "Bob" Sample.zero_then_one_row) 0%nat 0%float).
  - reflexivity.
  - reflexivity.
  - simpl. lia.
  - simpl. lia.
  - vm_compute. reflexivity.
  - vm_compute. reflexivity.
Defined.

(** The submission of a row with quantity 0 and a valid row is answered
    with the page and the row error; the representative's directory
    exists and holds no file, so no quotation was persisted. *)
Lemma C5_zero_row_leaves_nothing_stored :
  (index (rt := Sample.runtime) (Sample.disk []) (Sample.always 123)
     (Sample.submission "Alice" "Bob" Sample.zero_then_one_row)).2
  = render_template "index.html"
      {| quotation_data :=
           {| quotation_no := "Q-123"; date := "2025-01-15";
              client_name := "Alice"; rep := "Bob";
              quote_items := [ {| quantity := 2; rate := 5; amount := 10; vat := 16 |} ];
              subtotal := 10; tax := (10 * (16 / 100))%float;
              total := (10 + 10 * (16 / 100))%float |};
         quotation_files := [];
         errors := ["Incomplete item data at row 1. Quantity, rate, amount, and VAT are required."];
         success := false; success_message := "";
         search_errors := ["No representative directories found"];
         search_quotation_no := ""; search_rep := "" |} ∧
  FS.isdir (index (rt := Sample.runtime) (Sample.disk []) (Sample.always 123)
              (Sample.submission "Alice" "Bob" Sample.zero_then_one_row)).1
     "/srv/app/quotations/Bob" = true ∧
  FS.listdir (index (rt := Sample.runtime) (Sample.disk []) (Sample.always 123)
                (Sample.submission "Alice" "Bob" Sample.zero_then_one_row)).1
     "/srv/app/quotations/Bob" = [] ∧
  FS.listdir Sample.after_alice "/srv/app/quotations/Bob" = ["Q-123_Alice.pdf"].
Proof. by vm_compute. Qed.

(** C6. When the four item arrays of a submission do not all have the
    same length, the validation of the items records the single error
    [Invalid item data submitted.], no row is processed (no row-level
    error is recorded and [quote_items] stays empty), and no document is
    composed: the filesystem is the one the directory step left. The
    error list is then, in order: the error of the directory step if it
    failed, the mismatch error, the missing-name errors if any, and the
    [At least one complete item is required.] of the required-field
    check. *)
Theorem C6_length_mismatch_single_error (rt : Runtime) (fs : FS.state)
    (entropy : nat -> Z) (req : request) :
  is_submission req = true →
  same_lengths (getlist (form req) "quantity[]") (getlist (form req) "rate[]")
               (getlist (form req) "amount[]") (getlist (form req) "vat[]") = false →
  ∃ sn sr ls q errs,
    index fs entropy req
    = ((ensure_dir fs (output_dir_of (field_or_empty (form req) "rep"))).1,
       page sn sr ls q errs) ∧
    quote_items q = [] ∧
    item_errors req = ["Invalid item data submitted."] ∧
    errs = (ensure_dir fs (output_dir_of (field_or_empty (form req) "rep"))).2 ++
           ["Invalid item data submitted."] ++
           (if Py.truthy (field_or_empty (form req) "client_name") then []
            else ["Client name is required."]) ++
           (if Py.truthy (field_or_empty (form req) "rep") then []
            else ["Representative name is required."]) ++
           ["At least one complete item is required."] ∧
    ("Invalid item data submitted."
       ∉ (ensure_dir fs (output_dir_of (field_or_empty (form req) "rep"))).2) ∧
    ∀ i, row_error i ∉ errs.
Proof.
  intros Hs Hlen.
  set (d := ensure_dir fs (output_dir_of (field_or_empty (form req) "rep"))).
  destruct (validated_spec d.1 entropy req d.2) as (_ & Hc & Hr & _ & Hitems & _ & He).
  unfold accepted_items, item_errors in *. rewrite Hlen in *. simpl in Hitems, He.
  assert (Hne : (validated d.1 entropy req d.2).2 ≠ []).
  { rewrite He. by destruct d.2. }
  destruct (index_submission fs entropy req Hs)
    as [(sn & sr & ls & errs & Hidx & _ & Herrs)|(Hnil & _)]; [|done].
  exists sn, sr, ls, (validated d.1 entropy req d.2).1, errs.
  split; [exact Hidx|]. split; [exact Hitems|].
  split; [done|].
  assert (errs = (validated d.1 entropy req d.2).2) as -> by apply Herrs, Hne.
  rewrite He. split; [|split].
  - unfold required_errors. by rewrite Hc, Hr, Hitems.
  - destruct (ensure_dir_cases fs (output_dir_of (field_or_empty (form req) "rep")))
      as [[_ E]|[(_ & fs1 & _ & E)|(_ & e & fs1 & _ & E)]]; unfold d; rewrite E; simpl;
      rewrite ?elem_of_cons, ?elem_of_nil; [tauto|tauto|].
    rewrite app_cons. intros [H|H]; done.
  - intros i. rewrite elem_of_app, elem_of_cons. intros [H|[H|H]].
    + by apply row_error_not_dir_error in H.
    + destruct (row_error_shape i) as [s Hshape]. by rewrite Hshape in H.
    + by apply row_error_not_required in H.
Qed.

(** The theorem at work: three quantities against two rates. *)
Lemma C6_witness :
  ∃ sn sr ls q errs,
    index (rt := Sample.runtime) (Sample.disk []) (Sample.always 123) Sample.mismatched
    = ((ensure_dir (Sample.disk [])
          (output_dir_of (rt := Sample.runtime) (field_or_empty (form Sample.mismatched) "rep"))).1,
       page sn sr ls q errs) ∧
    quote_items q = [] ∧
    item_errors (rt := Sample.runtime) Sample.mismatched = ["Invalid item data submitted."] ∧
    errs = (ensure_dir (Sample.disk [])
              (output_dir_of (rt := Sample.runtime) (field_or_empty (form Sample.mismatched) "rep"))).2 ++
           ["Invalid item data submitted."] ++
           (if Py.truthy (field_or_empty (form Sample.mismatched) "client_name") then []
            else ["Client name is required."]) ++
           (if Py.truthy (field_or_empty (form Sample.mismatched) "rep") then []
            else ["Representative name is required."]) ++
           ["At least one complete item is required."] ∧
    ("Invalid item data submitted."
       ∉ (ensure_dir (Sample.disk [])
            (output_dir_of (rt := Sample.runtime)
               (field_or_empty (form Sample.mismatched) "rep"))).2) ∧
    ∀ i, row_error i ∉ errs.
Proof.
  apply (C6_length_mismatch_single_error Sample.runtime (Sample.disk []) (Sample.always 123)
           Sample.mismatched).
  - reflexivity.
  - reflexivity.
Defined.

(** C10. A submission with a representative name has the name sanitized
    into one path component, the directory [<root>/<sanitized rep>]
    created if it was absent, and its quotation number drawn against
    that directory, all before the items are validated. Whenever the
    handler then answers with the page instead of the redirect (as it
    does for every submission that validation rejects), the filesystem
    is exactly the one the directory step left: the new directory is
    there, listed in the storage root, and every file of the filesystem
    was there before the request, so no PDF was written. *)
Theorem C10_directory_outlives_rejection (rt : Runtime) (fs fs' : FS.state)
    (entropy : nat -> Z) (req : request) (ctx : context) :
  is_submission req = true →
  Py.truthy (field_or_empty (form req) "rep") = true →
  index fs entropy req = (fs', render_template "index.html" ctx) →
  output_dir_of (field_or_empty (form req) "rep")
  = Path.join QUOTATIONS_DIR (Py.sub_unsafe (field_or_empty (form req) "rep")) ∧
  Path.is_name (Py.sub_unsafe (field_or_empty (form req) "rep")) = true ∧
  fs' = (ensure_dir fs (output_dir_of (field_or_empty (form req) "rep"))).1 ∧
  quotation_no (quotation_data ctx)
  = generate_quotation_number fs' (output_dir_of (field_or_empty (form req) "rep")) entropy ∧
  (∀ p x, FS.get (FS.root fs') p = Some (FS.File x) →
          FS.get (FS.root fs) p = Some (FS.File x)) ∧
  (FS.path_exists fs (output_dir_of (field_or_empty (form req) "rep")) = false →
   (∀ fs1, FS.makedirs fs (output_dir_of (field_or_empty (form req) "rep")) = inr fs1 →
      fs' = fs1 ∧
      FS.isdir fs' (output_dir_of (field_or_empty (form req) "rep")) = true ∧
      Py.sub_unsafe (field_or_empty (form req) "rep")
        ∈ FS.listdir fs' (probed_dir QUOTATIONS_DIR)) ∧
   (∀ e fs1,
      FS.makedirs fs (output_dir_of (field_or_empty (form req) "rep")) = inl (e, fs1) →
      fs' = fs1 ∧
      (FS.isdir fs (probed_dir QUOTATIONS_DIR) = true → fs' = fs) ∧
      ("Failed to create directory: " +:+ output_dir_of (field_or_empty (form req) "rep"))
        ∈ errors ctx)).
Proof.
  intros Hs Hrep Hidx.
  set (out := output_dir_of (field_or_empty (form req) "rep")) in *.
  pose proof (sub_unsafe_is_name _ Hrep) as Hname.
  destruct (index_submission fs entropy req Hs)
    as [(sn & sr & ls & errs & Hi & _ & Herrs)|(_ & _ & msg & Hr)];
    [|rewrite Hidx in Hr; done].
  fold out in Hi, Herrs. rewrite Hidx in Hi. injection Hi as Hfs Hp.
  assert (Hctx : quotation_data ctx
                 = (validated (ensure_dir fs out).1 entropy req (ensure_dir fs out).2).1)
    by (by rewrite Hp).
  assert (Herr : errors ctx = errs) by (by rewrite Hp).
  destruct (validated_spec (ensure_dir fs out).1 entropy req (ensure_dir fs out).2)
    as (Hno & _ & _ & _ & _ & _ & He).
  split; [done|]. split; [done|]. split; [done|]. split; [by rewrite Hctx, Hfs|].
  split; [rewrite Hfs; apply ensure_dir_files|].
  intros Hex. destruct (ensure_dir_cases fs out)
    as [[E _]|[(_ & fs1 & Hm & E)|(_ & e & fs1 & Hm & E)]]; [congruence| |]; split.
  - intros fs2 Hm2. rewrite Hm in Hm2. injection Hm2 as <-.
    rewrite E in Hfs. simpl in Hfs. subst fs'.
    apply makedirs_spec in Hm as (Hdir & _). do 2 (split; [done|]).
    apply child_listdir. unfold out, output_dir_of in Hdir. unfold FS.isdir in Hdir.
    rewrite lookup_join in Hdir by done.
    destruct (child fs1 _ _); [by eexists|done].
  - intros e fs2 Hm2. congruence.
  - intros fs2 Hm2. congruence.
  - intros e' fs2 Hm2. rewrite Hm in Hm2. injection Hm2 as <- <-.
    rewrite E in Hfs, He, Herrs. simpl in *. split; [done|]. split.
    + intros Hroot. subst fs'.
      pose proof (makedirs_in_directory fs QUOTATIONS_DIR _ Hname Hroot Hex) as Hin.
      fold (output_dir_of (field_or_empty (form req) "rep")) in Hin. fold out in Hin.
      destruct (FS.fits _); [destruct Hin as [fs3 Hin]|]; congruence.
    + rewrite Herr, Herrs; [|by rewrite He]. rewrite He. apply elem_of_cons. by left.
Qed.

(** The theorem at work: a submission without rows, for a representative
    whose directory does not exist yet. *)
Lemma C10_witness :
  output_dir_of (rt := Sample.runtime) (field_or_empty (form Sample.no_rows) "rep")
  = Path.join "/srv/app/quotations" (Py.sub_unsafe (field_or_empty (form Sample.no_rows) "rep")) ∧
  Path.is_name (Py.sub_unsafe (field_or_empty (form Sample.no_rows) "rep")) = true ∧
  (index (rt := Sample.runtime) (Sample.disk []) (Sample.always 123) Sample.no_rows).1
  = (ensure_dir (Sample.disk [])
       (output_dir_of (rt := Sample.runtime) (field_or_empty (form Sample.no_rows) "rep"))).1 ∧
  quotation_no (quotation_data Sample.no_rows_context)
  = generate_quotation_number
      (index (rt := Sample.runtime) (Sample.disk []) (Sample.always 123) Sample.no_rows).1
      (output_dir_of (rt := Sample.runtime) (field_or_empty (form Sample.no_rows) "rep"))
      (Sample.always 123) ∧
  (∀ p x,
     FS.get (FS.root (index (rt := Sample.runtime) (Sample.disk []) (Sample.always 123)
                        Sample.no_rows).1) p = Some (FS.File x) →
     FS.get (FS.root (Sample.disk [])) p = Some (FS.File x)) ∧
  (FS.path_exists (Sample.disk [])
     (output_dir_of (rt := Sample.runtime) (field_or_empty (form Sample.no_rows) "rep")) = false →
   (∀ fs1,
      FS.makedirs (Sample.disk [])
        (output_dir_of (rt := Sample.runtime) (field_or_empty (form Sample.no_rows) "rep"))
      = inr fs1 →
      (index (rt := Sample.runtime) (Sample.disk []) (Sample.always 123) Sample.no_rows).1 = fs1 ∧
      FS.isdir (index (rt := Sample.runtime) (Sample.disk []) (Sample.always 123) Sample.no_rows).1
        (output_dir_of (rt := Sample.runtime) (field_or_empty (form Sample.no_rows) "rep")) = true ∧
      Py.sub_unsafe (field_or_empty (form Sample.no_rows) "rep")
        ∈ FS.listdir
            (index (rt := Sample.runtime) (Sample.disk []) (Sample.always 123) Sample.no_rows).1
            (probed_dir "/srv/app/quotations")) ∧
   (∀ e fs1,
      FS.makedirs (Sample.disk [])
        (output_dir_of (rt := Sample.runtime) (field_or_empty (form Sample.no_rows) "rep"))
      = inl (e, fs1) →
      (index (rt := Sample.runtime) (Sample.disk []) (Sample.always 123) Sample.no_rows).1 = fs1 ∧
      (FS.isdir (Sample.disk []) (probed_dir "/srv/app/quotations") = true →
       (index (rt := Sample.runtime) (Sample.disk []) (Sample.always 123) Sample.no_rows).1
       = Sample.disk []) ∧
      ("Failed to create directory: " +:+
       output_dir_of (rt := Sample.runtime) (field_or_empty (form Sample.no_rows) "rep"))
        ∈ errors Sample.no_rows_context)).
Proof.
  apply (C10_directory_outlives_rejection Sample.runtime (Sample.disk [])
           (index (rt := Sample.runtime) (Sample.disk []) (Sample.always 123) Sample.no_rows).1
           (Sample.always 123) Sample.no_rows Sample.no_rows_context).
  - reflexivity.
  - reflexivity.
  - vm_compute. reflexivity.
Defined.

(** C1 (where the code departs from the specification). With [Q-123_Alice.pdf] stored in
    the representative's directory and the draw 123 again, the generator
    probes [Q-123.pdf], which does not exist, and returns [Q-123] once
    more: a second quotation is stored under the number of the first. *)
Theorem C1_quotation_number_reused :
  FS.listdir Sample.after_alice "/srv/app/quotations/Bob" = ["Q-123_Alice.pdf"] ∧
  FS.path_exists Sample.after_alice "/srv/app/quotations/Bob/Q-123.pdf" = false ∧
  generate_quotation_number Sample.after_alice "/srv/app/quotations/Bob" (Sample.always 123)
  = "Q-123" ∧
  (index (rt := Sample.runtime) Sample.after_alice (Sample.always 123)
     (Sample.submission "Carol" "Bob" Sample.one_row)).2
  = redirect "index" "Quotation generated successfully: Q-123_Carol.pdf" ∧
  FS.listdir
    (index (rt := Sample.runtime) Sample.after_alice (Sample.always 123)
       (Sample.submission "Carol" "Bob" Sample.one_row)).1
    "/srv/app/quotations/Bob"
  = ["Q-123_Carol.pdf"; "Q-123_Alice.pdf"].
Proof. by vm_compute. Qed.

(** The theorem at work: a quotation composed onto a template of two pages. *)
Lemma C9_witness :
  ∃ template_pdf drawn output_pdf,
    FS.read_pdf Sample.two_page_disk "/srv/app/files/QUOTATION.pdf" = inr template_pdf ∧
    overlay (rt := Sample.runtime) Sample.sample_quotation = [drawn] ∧
    FS.read_pdf
      (create_quotation_pdf (rt := Sample.runtime) Sample.two_page_disk
         "/srv/app/quotations/Bob/Q-123_Alice.pdf" Sample.sample_quotation
         "/srv/app/files/QUOTATION.pdf").1
      "/srv/app/quotations/Bob/Q-123_Alice.pdf" = inr output_pdf ∧
    length output_pdf = length template_pdf ∧
    output_pdf = match template_pdf with
                 | [] => []
                 | first :: later => Pdf.merge_page first drawn :: later
                 end.
Proof.
  apply (C9_compose_keeps_pages Sample.runtime Sample.two_page_disk
           (create_quotation_pdf (rt := Sample.runtime) Sample.two_page_disk
              "/srv/app/quotations/Bob/Q-123_Alice.pdf" Sample.sample_quotation
              "/srv/app/files/QUOTATION.pdf").1
           "/srv/app/quotations/Bob/Q-123_Alice.pdf" "/srv/app/files/QUOTATION.pdf"
           Sample.sample_quotation).
  vm_compute. reflexivity.
Defined.

(** * Further properties of the code *)

(** ** Sanitized names *)

Section Sanitize.
Context {rt : Runtime}.

Lemma sub_unsafe_length (s : string) : String.length (Py.sub_unsafe s) = String.length s.
Proof. induction s as [|c s IH]; simpl; [done|by rewrite IH]. Qed.

Lemma sub_unsafe_char_clean (c : ascii) :
  clean_char (if Py.safe_char c then c else "_"%char) = true.
Proof. by destruct c as [[] [] [] [] [] [] [] []]. Qed.

Lemma sub_unsafe_char_fixed (c : ascii) :
  (let c' := if Py.safe_char c then c else "_"%char in
   if Py.safe_char c' then c' else "_"%char)
  = (if Py.safe_char c then c else "_"%char).
Proof. by destruct c as [[] [] [] [] [] [] [] []]. Qed.

Lemma sub_unsafe_clean (s : string) : all_clean (Py.sub_unsafe s) = true.
Proof. induction s as [|c s IH]; simpl; [done|]. by rewrite sub_unsafe_char_clean, IH. Qed.

Lemma sub_unsafe_idempotent (s : string) : Py.sub_unsafe (Py.sub_unsafe s) = Py.sub_unsafe s.
Proof.
  induction s as [|c s IH]; simpl; [done|].
  pose proof (sub_unsafe_char_fixed c) as H. simpl in H. by rewrite H, IH.
Qed.

Lemma sub_unsafe_no_sep (s : string) : Path.has_sep (Py.sub_unsafe s) = false.
Proof. induction s as [|c s IH]; [done|]. simpl. by rewrite safe_char_not_sep, IH. Qed.

End Sanitize.

(** X1. Whatever a non-empty representative name contains, its
    sanitized form has the same length, holds only characters of
    [[A-Za-z0-9-]] and [_], is left unchanged by a second sanitization,
    and is one path component (no separator, neither [.] nor [..]): the
    output directory of a submission is always the entry of that name in
    the storage root, never a path that leaves it. *)
Theorem X1_representative_directory_stays_in_root (rt : Runtime) (rep_name : string) :
  Py.truthy rep_name = true →
  String.length (Py.sub_unsafe rep_name) = String.length rep_name ∧
  all_clean (Py.sub_unsafe rep_name) = true ∧
  Py.sub_unsafe (Py.sub_unsafe rep_name) = Py.sub_unsafe rep_name ∧
  Path.is_name (Py.sub_unsafe rep_name) = true ∧
  ∀ fs, FS.lookup fs (output_dir_of rep_name)
        = child fs (probed_dir QUOTATIONS_DIR) (Py.sub_unsafe rep_name).
Proof.
  intros Hrep. split; [apply sub_unsafe_length|]. split; [apply sub_unsafe_clean|].
  split; [apply sub_unsafe_idempotent|].
  pose proof (sub_unsafe_is_name _ Hrep) as Hname. split; [done|].
  intros fs. unfold output_dir_of. by apply lookup_join.
Qed.

(** The theorem at work: a representative name made of dots and slashes. *)
Lemma X1_witness :
  String.length (Py.sub_unsafe "../../etc") = String.length "../../etc" ∧
  all_clean (Py.sub_unsafe "../../etc") = true ∧
  Py.sub_unsafe (Py.sub_unsafe "../../etc") = Py.sub_unsafe "../../etc" ∧
  Path.is_name (Py.sub_unsafe "../../etc") = true ∧
  ∀ fs, FS.lookup fs (output_dir_of (rt := Sample.runtime) "../../etc")
        = child fs (probed_dir "/srv/app/quotations") (Py.sub_unsafe "../../etc").
Proof. apply (X1_representative_directory_stays_in_root Sample.runtime "../../etc"). reflexivity. Defined.

(** ** The shape of a quotation number *)

Section NumberShape.

Lemma length_zeros (k : nat) : String.length (Py.zeros k) = k.
Proof. induction k as [|k IH]; simpl; [done|by rewrite IH]. Qed.

Lemma zfill_str_length (w : nat) (n : Z) :
  0 <= n → (w <= String.length (Py.zfill w (Py.str n)))%nat.
Proof.
  intros Hn. rewrite str_nonneg by done.
  rewrite zfill_digits by apply digits_of_uint.
  rewrite length_app, length_zeros. lia.
Qed.

(** While every candidate so far is taken the loop keeps redrawing. *)
Lemma redraw_short (fs : FS.state) (output_dir : string) (entropy : nat -> Z) (fuel k : nat) :
  (∀ i, (i <= fuel)%nat → taken fs output_dir entropy (k + i) = true) →
  redraw fuel fs output_dir entropy (S k) (candidate entropy k) = None.
Proof.
  revert k. induction fuel as [|fuel IH]; intros k Hhit.
  - pose proof (Hhit 0%nat ltac:(lia)) as H0. rewrite Nat.add_0_r in H0.
    unfold taken in H0. simpl. by rewrite H0.
  - pose proof (Hhit 0%nat ltac:(lia)) as H0. rewrite Nat.add_0_r in H0.
    unfold taken in H0. simpl. rewrite H0.
    change (redraw fuel fs output_dir entropy (S (S k)) (candidate entropy (S k)) = None).
    apply IH. intros i Hi. replace (S k + i)%nat with (k + S i)%nat by lia. apply Hhit. lia.
Qed.

Lemma generate_within_short (fs : FS.state) (output_dir : string) (entropy : nat -> Z)
    (fuel j : nat) :
  (∀ i, (i < j)%nat → taken fs output_dir entropy i = true) → (fuel < j)%nat →
  generate_within fuel fs output_dir entropy = None.
Proof.
  intros Hhit Hfuel. unfold generate_within.
  replace (Py.zfill 3 (Py.str (randint entropy 0 1 9999)))
    with (Py.zfill 3 (Py.str (randint entropy 0 1 9999 + Z.of_nat 0 * 10000)))
    by (by rewrite Z.add_0_r).
  apply (redraw_short fs output_dir entropy fuel 0). intros i Hi. apply Hhit. lia.
Qed.

End NumberShape.

(** X2. The loop of [generate_quotation_number] returns after a definite
    number [j] of redraws, at most the number of entries of the probed
    directory: allowed fewer it has not returned, allowed [j] or more it
    returns the same number. That number is [Q-] followed by the decimal
    numeral of [n], draw number [j] plus [j * 10000], padded with zeros
    to at least three digits and never truncated (the digits read back
    as [n]). So [n] lies in block [j] of ten thousand, and [j] is 0, the
    number being the first draw itself, between 1 and 9999, exactly when
    the file probed for the first draw does not exist. *)
Theorem X2_quotation_number_format (fs : FS.state) (output_dir : string) (entropy : nat -> Z) :
  ∃ j : nat,
    (j <= length (FS.listdir fs (probed_dir output_dir)))%nat ∧
    let n := randint entropy j 1 9999 + Z.of_nat j * 10000 in
    let d := Py.zfill 3 (Py.str n) in
    (∀ fuel, generate_within fuel fs output_dir entropy
             = if (j <=? fuel)%nat then Some ("Q-" +:+ d) else None) ∧
    generate_quotation_number fs output_dir entropy = "Q-" +:+ d ∧
    digits d = true ∧
    (3 <= String.length d)%nat ∧
    number_of d = Some (Z.to_N n) ∧
    1 <= randint entropy j 1 9999 <= 9999 ∧
    Z.of_nat j * 10000 < n <= Z.of_nat j * 10000 + 9999 ∧
    (j = 0%nat ↔
     FS.path_exists fs
       (Path.join output_dir
          (("Q-" +:+ Py.zfill 3 (Py.str (randint entropy 0 1 9999))) +:+ ".pdf")) = false).
Proof.
  destruct (redraws_suffice fs output_dir entropy) as (j & Hj & Hfree & Htaken & Hgen).
  pose proof (candidate_block entropy j) as Hblock.
  pose proof (randint_range entropy j 1 9999 ltac:(lia)) as Hdraw.
  exists j. split; [done|]. cbn zeta.
  split.
  { intros fuel. destruct (j <=? fuel)%nat eqn:E.
    - apply Nat.leb_le in E. by apply Hgen.
    - apply Nat.leb_gt in E. by apply (generate_within_short fs output_dir entropy fuel j). }
  split. { unfold generate_quotation_number. by rewrite (Hgen _ Hj). }
  split; [apply zfill_str_digits; lia|].
  split; [apply zfill_str_length; lia|].
  split; [apply number_of_zfill_str; lia|]. split; [done|]. split; [lia|].
  assert (H0 : taken fs output_dir entropy 0
               = FS.path_exists fs
                   (Path.join output_dir
                      (("Q-" +:+ Py.zfill 3 (Py.str (randint entropy 0 1 9999))) +:+ ".pdf"))).
  { unfold taken, candidate. by rewrite Z.add_0_r. }
  rewrite <- H0. split.
  - by intros ->.
  - intros Hf. destruct j as [|j]; [done|]. rewrite Htaken in Hf by lia. done.
Qed.

(** ** The failures of a search *)

Section SearchFailures.
Context {rt : Runtime}.

Lemma filter_nil_iff {A} (P : A → bool) (l : list A) :
  List.filter P l = [] ↔ ∀ x, x ∈ l → P x = false.
Proof.
  induction l as [|a l IH]; simpl.
  - split; [by intros _ x ?%elem_of_nil|done].
  - destruct (P a) eqn:E; split.
    + done.
    + intros H. specialize (H a (list_elem_of_here _ _)). congruence.
    + intros H x [->|Hx]%elem_of_cons; [done|]. by apply IH.
    + intros H. apply IH. intros x Hx. apply H. by right.
Qed.





End SearchFailures.


Section SearchOutcomes.
Context {rt : Runtime}.



Lemma entry_needs_directory (fs : FS.state) (no rp : string) :
  some_entry_matches fs no rp → some_directory_matches fs rp.
Proof. intros (d & f & Hd & Hdir & Hocc & _). by exists d. Qed.

End SearchOutcomes.


(** ** Filters *)

Section Filters.
Context {rt : Runtime}.

Lemma truthy_lower (s : string) : Py.truthy (Py.lower s) = Py.truthy s.
Proof. by destruct s. Qed.

Lemma found_depends_on_folded_filters (fs : FS.state) (no no' rp rp' : string) :
  Py.lower no = Py.lower no' → Py.lower rp = Py.lower rp' →
  found_of (get_quotation_files fs no rp) = found_of (get_quotation_files fs no' rp').
Proof.
  intros Hno Hrp. rewrite !get_quotation_files_found.
  unfold matching_dirs, matching_files.
  rewrite <- (truthy_lower rp), <- (truthy_lower rp'), Hno, Hrp. done.
Qed.

Lemma found_in_full_listing (fs : FS.state) (no rp : string) (e : found) :
  e ∈ found_of (get_quotation_files fs no rp) → e ∈ found_of (get_quotation_files fs "" "").
Proof.
  rewrite !search_membership.
  intros (d & f & He & Hd & Hdir & _ & Hf & Hpdf & _).
  exists d, f. repeat split; try done; apply occurs_empty.
Qed.

End Filters.

(** X4. Letter case in the filters does not matter: two pairs of
    filters that agree once folded to lower case give the same search
    results. Filtering only narrows: every result of a filtered search
    is a result of the search without filters. *)
Theorem X4_filters_ignore_case_and_narrow (rt : Runtime) (fs : FS.state)
    (no no' rp rp' : string) :
  Py.lower no = Py.lower no' → Py.lower rp = Py.lower rp' →
  found_of (get_quotation_files fs no rp) = found_of (get_quotation_files fs no' rp') ∧
  ∀ e, e ∈ found_of (get_quotation_files fs no rp) →
       e ∈ found_of (get_quotation_files fs "" "").
Proof.
  intros Hno Hrp. split; [by apply found_depends_on_folded_filters|].
  intros e. apply found_in_full_listing.
Qed.

(** The theorem at work: [q-101] with [ACME] against [Q-101] with [acme]. *)
Lemma X4_witness :
  found_of (get_quotation_files (rt := Sample.runtime) Sample.acme_disk "q-101" "ACME")
  = found_of (get_quotation_files (rt := Sample.runtime) Sample.acme_disk "Q-101" "acme") ∧
  ∀ e, e ∈ found_of (get_quotation_files (rt := Sample.runtime) Sample.acme_disk "q-101" "ACME") →
       e ∈ found_of (get_quotation_files (rt := Sample.runtime) Sample.acme_disk "" "").
Proof.
  apply (X4_filters_ignore_case_and_narrow Sample.runtime Sample.acme_disk
           "q-101" "Q-101" "ACME" "acme"); reflexivity.
Defined.

(** ** Rows, counted *)

Section RowCount.
Context {rt : Runtime}.

Lemma omap_filter_length {A B} (f : A → option B) (l : list A) :
  (length (omap f l)
   + length (List.filter (λ i, match f i with None => true | Some _ => false end) l)
   = length l)%nat.
Proof.
  induction l as [|a l IH]; [done|]. cbn [omap list_omap List.filter].
  destruct (f a); simpl; lia.
Qed.

Lemma omap_all_some {A B} (f : A → option B) (l : list A) :
  (∀ x, x ∈ l → is_Some (f x)) →
  length (omap f l) = length l ∧
  ∀ i x, l !! i = Some x → f x = omap f l !! i.
Proof.
  induction l as [|a l IH]; intros Hall; [by split|].
  destruct (Hall a (list_elem_of_here _ _)) as [b Hb].
  destruct IH as [IHlen IHnth]. { intros x Hx. apply Hall. by right. }
  cbn [omap list_omap]. rewrite Hb. split; [simpl; by rewrite IHlen|].
  intros [|i] x; simpl; [by intros [= <-]|]. apply IHnth.
Qed.

Lemma str_inj (n m : Z) : 0 <= n → 0 <= m → Py.str n = Py.str m → n = m.
Proof. intros Hn Hm H. apply (zfill_str_inj 0); [done|done|by rewrite H]. Qed.

Lemma row_error_inj (i j : nat) : row_error i = row_error j → i = j.
Proof.
  unfold row_error. intros H. apply (inj (String.app _)) in H.
  apply app_inj_r, str_inj in H; lia.
Qed.

End RowCount.

(** X6. A submission whose arrays have equal length but more than 60
    rows is rejected as a whole: the validation of the items records the
    single error [Too many items. Maximum 60 items allowed.], no row is
    processed (no row-level error, no accepted item), the page is
    rendered and nothing is written after the directory step. *)
Theorem X6_too_many_items_rejected_wholesale (rt : Runtime) (fs : FS.state)
    (entropy : nat -> Z) (req : request) :
  is_submission req = true →
  same_lengths (getlist (form req) "quantity[]") (getlist (form req) "rate[]")
               (getlist (form req) "amount[]") (getlist (form req) "vat[]") = true →
  (60 < length (getlist (form req) "quantity[]"))%nat →
  ∃ sn sr ls q errs,
    index fs entropy req
    = ((ensure_dir fs (output_dir_of (field_or_empty (form req) "rep"))).1,
       page sn sr ls q errs) ∧
    quote_items q = [] ∧
    item_errors req = ["Too many items. Maximum 60 items allowed."] ∧
    "Too many items. Maximum 60 items allowed." ∈ errs ∧
    ∀ i, row_error i ∉ errs.
Proof.
  intros Hs Hlen Hmany.
  set (d := ensure_dir fs (output_dir_of (field_or_empty (form req) "rep"))).
  destruct (validated_spec d.1 entropy req d.2) as (_ & _ & _ & _ & Hitems & _ & He).
  unfold accepted_items, item_errors in *. rewrite Hlen in *. simpl in Hitems, He.
  destruct (_ >? _) eqn:Hgt; [|lia].
  assert (Hne : (validated d.1 entropy req d.2).2 ≠ []).
  { rewrite He. by destruct d.2. }
  destruct (index_submission fs entropy req Hs)
    as [(sn & sr & ls & errs & Hidx & _ & Herrs)|(Hnil & _)]; [|done].
  exists sn, sr, ls, (validated d.1 entropy req d.2).1, errs.
  split; [exact Hidx|]. split; [exact Hitems|]. split; [done|].
  assert (errs = (validated d.1 entropy req d.2).2) as -> by apply Herrs, Hne.
  rewrite He. split.
  - apply elem_of_app. right. by left.
  - intros i. rewrite elem_of_app. simpl. rewrite elem_of_cons. intros [H|[H|H]].
    + by apply row_error_not_dir_error in H.
    + destruct (row_error_shape i) as [s Hshape]. by rewrite Hshape in H.
    + by apply row_error_not_required in H.
Qed.

(** The theorem at work: sixty-one valid rows. *)
Lemma X6_witness :
  ∃ sn sr ls q errs,
    index (rt := Sample.runtime) (Sample.disk []) (Sample.always 123) Sample.too_many
    = ((ensure_dir (Sample.disk [])
          (output_dir_of (rt := Sample.runtime)
             (field_or_empty (form Sample.too_many) "rep"))).1,
       page sn sr ls q errs) ∧
    quote_items q = [] ∧
    item_errors (rt := Sample.runtime) Sample.too_many
    = ["Too many items. Maximum 60 items allowed."] ∧
    "Too many items. Maximum 60 items allowed." ∈ errs ∧
    ∀ i, row_error i ∉ errs.
Proof.
  apply (X6_too_many_items_rejected_wholesale Sample.runtime (Sample.disk [])
           (Sample.always 123) Sample.too_many).
  - reflexivity.
  - vm_compute. reflexivity.
  - vm_compute. lia.
Defined.

(** ** What a stored quotation holds *)

Section Stored.
Context {rt : Runtime}.

Lemma required_errors_nil (q : quotation) :
  required_errors q = [] →
  Py.truthy (client_name q) = true ∧ Py.truthy (rep q) = true ∧ quote_items q ≠ [].
Proof.
  unfold required_errors.
  destruct (Py.truthy (client_name q)), (Py.truthy (rep q)), (quote_items q); simpl; try done.
Qed.

Lemma ensure_dir_no_error (fs : FS.state) (out : string) :
  (ensure_dir fs out).2 = [] → FS.path_exists (ensure_dir fs out).1 out = true.
Proof.
  destruct (ensure_dir_cases fs out)
    as [[Hex ->]|[(_ & fs1 & Hm & ->)|(_ & e & fs1 & _ & ->)]]; simpl; [done| |done].
  intros _. apply makedirs_spec in Hm as (Hdir & _).
  unfold FS.isdir in Hdir. unfold FS.path_exists. by destruct (FS.lookup fs1 out).
Qed.

End Stored.

(** X7. The redirect is only ever the answer to a submission that
    passed every check: the directory step reported nothing, the arrays
    have equal length, there are between 1 and 60 rows, client and
    representative are not blank, and every single row converted with
    non-zero quantity, rate and amount. The quotation composed into the
    stored document then holds all the rows, one item per row, in the
    order submitted. *)
Theorem X7_redirect_means_every_row_stored (rt : Runtime) (fs fs' : FS.state)
    (entropy : nat -> Z) (req : request) (msg : string) :
  index fs entropy req = (fs', redirect "index" msg) →
  is_submission req = true ∧
  (ensure_dir fs (output_dir_of (field_or_empty (form req) "rep"))).2 = [] ∧
  same_lengths (getlist (form req) "quantity[]") (getlist (form req) "rate[]")
               (getlist (form req) "amount[]") (getlist (form req) "vat[]") = true ∧
  (1 <= length (getlist (form req) "quantity[]") <= 60)%nat ∧
  Py.truthy (field_or_empty (form req) "client_name") = true ∧
  Py.truthy (field_or_empty (form req) "rep") = true ∧
  ∃ q output_file template_path,
    create_quotation_pdf (ensure_dir fs (output_dir_of (field_or_empty (form req) "rep"))).1
      output_file q template_path = (fs', Done) ∧
    length (quote_items q) = length (getlist (form req) "quantity[]") ∧
    ∀ i, (i < length (getlist (form req) "quantity[]"))%nat →
      ∃ it, quote_items q !! i = Some it ∧ nonzero_row it = true ∧
            parse_row (getlist (form req) "quantity[]") (getlist (form req) "rate[]")
                      (getlist (form req) "amount[]") (getlist (form req) "vat[]") i = Some it.
Proof.
  intros Hidx.
  assert (Hs : is_submission req = true).
  { destruct (is_submission req) eqn:E; [done|].
    destruct (index_no_submission fs entropy req E) as (sn & sr & ls & Hp).
    rewrite Hp in Hidx. done. }
  split; [done|].
  set (d := ensure_dir fs (output_dir_of (field_or_empty (form req) "rep"))) in *.
  destruct (index_submission fs entropy req Hs)
    as [(sn & sr & ls & errs & Hp & _)|(Hnil & Hc & _)].
  { rewrite Hp in Hidx. done. }
  fold d in Hnil, Hc. rewrite Hidx in Hc. simpl in Hc.
  destruct (validated_spec d.1 entropy req d.2) as (_ & Hcl & Hrp & _ & Hitems & _ & He).
  rewrite Hnil in He. symmetry in He.
  apply app_eq_nil in He as [Hd He]. apply app_eq_nil in He as [Hie Hre].
  apply required_errors_nil in Hre as (Hc1 & Hc2 & Hne). rewrite Hcl in Hc1. rewrite Hrp in Hc2.
  unfold item_errors, accepted_items in *.
  destruct (same_lengths _ _ _ _) eqn:Hlen; [|done]. simpl in Hie, Hitems.
  destruct (_ >? _) eqn:Hgt; [done|].
  unfold rejected in Hie. apply fmap_nil_inv in Hie.
  assert (Hall : ∀ i, i ∈ seq 0 (length (getlist (form req) "quantity[]")) →
            is_Some (row_outcome (getlist (form req) "quantity[]")
                       (getlist (form req) "rate[]") (getlist (form req) "amount[]")
                       (getlist (form req) "vat[]") i)).
  { intros i Hi. rewrite filter_nil_iff in Hie. specialize (Hie i Hi).
    by destruct (row_outcome _ _ _ _ i). }
  destruct (omap_all_some _ _ Hall) as [Hlength Hnth]. rewrite length_seq in Hlength.
  unfold accepted in Hitems.
  split; [done|]. split; [done|]. split.
  { split; [|lia]. rewrite <- Hlength, <- Hitems.
    destruct (quote_items _); [done|simpl; lia]. }
  split; [done|]. split; [done|].
  eexists _, _, _. split; [exact Hc|]. rewrite Hitems. split; [done|].
  intros i Hi. destruct (Hall i) as [it Hit]; [apply elem_of_seq; lia|].
  exists it. rewrite <- (Hnth i i) by (by apply lookup_seq_lt).
  split; [done|]. by apply row_outcome_Some in Hit as [? ?].
Qed.

(** The theorem at work: one valid row, stored. *)
Lemma X7_witness :
  is_submission (Sample.submission "Alice" "Bob" Sample.one_row) = true ∧
  (ensure_dir (Sample.disk [])
     (output_dir_of (rt := Sample.runtime)
        (field_or_empty (form (Sample.submission "Alice" "Bob" Sample.one_row)) "rep"))).2 = [] ∧
  same_lengths (getlist (form (Sample.submission "Alice" "Bob" Sample.one_row)) "quantity[]")
               (getlist (form (Sample.submission "Alice" "Bob" Sample.one_row)) "rate[]")
               (getlist (form (Sample.submission "Alice" "Bob" Sample.one_row)) "amount[]")
               (getlist (form (Sample.submission "Alice" "Bob" Sample.one_row)) "vat[]") = true ∧
  (1 <= length (getlist (form (Sample.submission "Alice" "Bob" Sample.one_row)) "quantity[]")
   <= 60)%nat ∧
  Py.truthy (field_or_empty (form (Sample.submission "Alice" "Bob" Sample.one_row))
               "client_name") = true ∧
  Py.truthy (field_or_empty (form (Sample.submission "Alice" "Bob" Sample.one_row)) "rep")
  = true ∧
  ∃ q output_file template_path,
    create_quotation_pdf (rt := Sample.runtime)
      (ensure_dir (Sample.disk [])
         (output_dir_of (rt := Sample.runtime)
            (field_or_empty (form (Sample.submission "Alice" "Bob" Sample.one_row)) "rep"))).1
      output_file q template_path = (Sample.after_alice, Done) ∧
    length (quote_items q)
    = length (getlist (form (Sample.submission "Alice" "Bob" Sample.one_row)) "quantity[]") ∧
    ∀ i, (i < length (getlist (form (Sample.submission "Alice" "Bob" Sample.one_row))
                     "quantity[]"))%nat →
      ∃ it, quote_items q !! i = Some it ∧ nonzero_row it = true ∧
            parse_row (rt := Sample.runtime)
              (getlist (form (Sample.submission "Alice" "Bob" Sample.one_row)) "quantity[]")
              (getlist (form (Sample.submission "Alice" "Bob" Sample.one_row)) "rate[]")
              (getlist (form (Sample.submission "Alice" "Bob" Sample.one_row)) "amount[]")
              (getlist (form (Sample.submission "Alice" "Bob" Sample.one_row)) "vat[]") i
            = Some it.
Proof.
  apply (X7_redirect_means_every_row_stored Sample.runtime (Sample.disk []) Sample.after_alice
           (Sample.always 123) (Sample.submission "Alice" "Bob" Sample.one_row)
           "Quotation generated successfully: Q-123_Alice.pdf").
  vm_compute. reflexivity.
Defined.

(** ** Requests that only search *)

Section Searches.
Context {rt : Runtime}.

Lemma not_truthy (s : string) : Py.truthy s = false → s = "".
Proof. by destruct s. Qed.

Lemma truthy_field (d : list (string * string)) (k : string) :
  Py.truthy_opt (field d k) = Py.truthy (field_or_empty d k).
Proof. unfold field_or_empty. by destruct (field d k). Qed.

(** The two branches that compute the listing agree: without a search
    string the strings searched for are empty anyway. *)
Lemma listing_of_search (fs : FS.state) (no rp : string) :
  (if Py.truthy no || Py.truthy rp
   then listing (get_quotation_files fs no rp)
   else listing (get_quotation_files fs "" ""))
  = listing (get_quotation_files fs no rp).
Proof.
  destruct (Py.truthy no) eqn:Hn; [done|]. destruct (Py.truthy rp) eqn:Hr; [done|].
  by rewrite (not_truthy _ Hn), (not_truthy _ Hr).
Qed.

Lemma page_of_search (fs : FS.state) (no rp : string) :
  page no rp (listing (get_quotation_files fs no rp)) blank_quotation []
  = search_page fs no rp.
Proof. unfold page, search_page. by destruct (get_quotation_files fs no rp). Qed.

Lemma index_search (fs : FS.state) (entropy : nat -> Z) (req : request) :
  is_submission req = false →
  index fs entropy req = (fs, search_page fs (search_strings req).1 (search_strings req).2).
Proof.
  unfold is_submission, index, search_strings. destruct (meth req); simpl.
  - intros _. by rewrite listing_of_search, page_of_search.
  - intros H. rewrite H. by rewrite listing_of_search, page_of_search.
Qed.

End Searches.

(** X8. A request that is not a submission (any GET, and a POST with
    one of the two search fields filled) never touches the filesystem and
    is answered by the page of the search for its two search strings: a
    blank quotation, no errors, the strings echoed back, and either the
    entries found or the one message of the search. A GET and a POST that
    carry the same search strings are answered alike, whatever else they
    carry and whatever the draws. *)
Theorem X8_searches_only_read (rt : Runtime) (fs : FS.state) (entropy : nat -> Z)
    (req : request) :
  is_submission req = false →
  index fs entropy req = (fs, search_page fs (search_strings req).1 (search_strings req).2) ∧
  ∀ entropy' req', is_submission req' = false → search_strings req' = search_strings req →
    index fs entropy' req' = index fs entropy req.
Proof.
  intros Hs. split; [by apply index_search|].
  intros entropy' req' Hs' Heq. by rewrite !index_search, Heq.
Qed.

(** The theorem at work: a search by number in the query string, and the
    same search posted with item rows that are then ignored. *)
Lemma X8_witness :
  let get := {| meth := GET; args := [("search", "q-101")]; form := [] |} in
  let post := {| meth := POST; args := [];
                 form := ("search_quotation_no", "q-101") ::
                         form (Sample.submission "Alice" "Bob" Sample.one_row) |} in
  (index (rt := Sample.runtime) Sample.acme_disk (Sample.always 1) get
   = (Sample.acme_disk, search_page (rt := Sample.runtime) Sample.acme_disk "q-101" "") ∧
   ∀ entropy' req', is_submission req' = false → search_strings req' = search_strings get →
     index (rt := Sample.runtime) Sample.acme_disk entropy' req'
     = index (rt := Sample.runtime) Sample.acme_disk (Sample.always 1) get) ∧
  is_submission post = false ∧ search_strings post = search_strings get ∧
  found_of (get_quotation_files (rt := Sample.runtime) Sample.acme_disk "q-101" "")
  = [ {| file := "Q-101_Alice.pdf"; url := "quotations/Acme Corp/Q-101_Alice.pdf" |} ].
Proof.
  intros get post. split.
  - apply (X8_searches_only_read Sample.runtime Sample.acme_disk (Sample.always 1) get).
    reflexivity.
  - vm_compute. repeat split.
Defined.

(** ** What the overlay holds *)

Section Overlay.
Context {rt : Runtime}.





End Overlay.


(** ** From a stored quotation to the listing *)

Section PathsOfNames.

Lemma ends_with_sep_app (a b : string) :
  Py.truthy b = true → Path.ends_with_sep (a +:+ b) = Path.ends_with_sep b.
Proof.
  intros Hb. induction a as [|c a IH]; [done|].
  rewrite app_cons. change (Path.ends_with_sep (String c (a +:+ b)))
    with (match a +:+ b with "" => Ascii.eqb c Path.sep | _ => Path.ends_with_sep (a +:+ b) end).
  rewrite <- IH. pose proof (truthy_app_r a b Hb). by destruct (a +:+ b).
Qed.

Lemma name_no_final_sep (s : string) : Path.has_sep s = false → Path.ends_with_sep s = false.
Proof.
  induction s as [|c s IH]; [done|]. simpl. intros [Hc Hs]%orb_false_iff.
  destruct s; [done|]. by apply IH.
Qed.

(** Joining a name to a non-empty path gives a non-empty path that does
    not end with a separator. *)
Lemma join_name_shape (a n : string) :
  Path.is_name n = true →
  Py.truthy (Path.join a n) = true ∧ Path.ends_with_sep (Path.join a n) = false ∧
  Path.is_abs (Path.join a n) = Path.is_abs a.
Proof.
  intros (Hn & _ & _ & Hs)%is_name_facts. unfold Path.join.
  rewrite (name_not_abs _ Hs).
  destruct (Py.truthy a) eqn:Ha; simpl.
  - destruct (Path.ends_with_sep a).
    + rewrite truthy_app_l, ends_with_sep_app, is_abs_app by done.
      by rewrite name_no_final_sep.
    + rewrite truthy_app_l, is_abs_app by done.
      rewrite (ends_with_sep_app a (String Path.sep n)) by done.
      split; [done|]. split; [|done].
      change (String Path.sep n) with ("/" +:+ n). rewrite ends_with_sep_app by done.
      by apply name_no_final_sep.
  - destruct a; [|done]. rewrite app_nil. split; [done|]. split; [|by apply name_not_abs].
    by apply name_no_final_sep.
Qed.

Lemma basename_join (a n : string) :
  Path.is_name n = true → Path.basename (Path.join a n) = n.
Proof.
  intros (Hn & _ & _ & Hs)%is_name_facts. unfold Path.basename, Path.join.
  rewrite (name_not_abs _ Hs).
  destruct (Py.truthy a) eqn:Ha; simpl.
  - destruct (Path.ends_with_sep a) eqn:He.
    + destruct (ends_with_sep_split _ He) as [a' ->].
      rewrite app_assoc', app_cons, app_nil, components_app_sep, (components_name _ Hs).
      apply last_last.
    + rewrite components_app_sep, (components_name _ Hs). apply last_last.
  - destruct a; [|done]. by rewrite app_nil, (components_name _ Hs).
Qed.

End PathsOfNames.

Section Storing.
Context {rt : Runtime}.

Lemma stored_name_is_name (entropy : nat -> Z) (k : nat) (client : string) :
  Path.is_name (stored_name (candidate entropy k) client) = true.
Proof.
  unfold Path.is_name, stored_name, candidate.
  set (z := Py.zfill 3 _).
  assert (Hz : Path.has_sep z = false).
  { apply digits_no_sep, zfill_str_digits. pose proof (candidate_block entropy k). lia. }
  rewrite !has_sep_app, Hz, sub_unsafe_no_sep. by rewrite !app_cons.
Qed.

Lemma stored_name_pdf (quotation_no client : string) :
  ∃ stem, stored_name quotation_no client = stem +:+ ".pdf".
Proof.
  exists (quotation_no +:+ "_" +:+ Py.sub_unsafe client).
  unfold stored_name. by rewrite !app_assoc'.
Qed.

Lemma occurs_prefix (a b : string) : occurs_ignoring_case a (a +:+ b).
Proof. exists "", a, b. by rewrite app_nil. Qed.

Lemma occurs_self (a : string) : occurs_ignoring_case a a.
Proof. exists "", a, "". by rewrite app_nil, app_empty_r. Qed.

Lemma create_done (fs fs' : FS.state) (o t : string) (q : quotation) :
  create_quotation_pdf fs o q t = (fs', Done) →
  ∃ tpl, FS.read_pdf fs t = inr tpl ∧
         FS.write_file fs o (FS.PdfFile (merge tpl (overlay q))) = inr fs'.
Proof.
  unfold create_quotation_pdf. destruct (FS.read_pdf fs t) as [e|tpl]; [done|].
  destruct (FS.write_file _ _ _) as [e|fs2] eqn:E; [done|].
  intros [= <-]. by exists tpl.
Qed.

(** What stands behind a redirect. *)
Lemma index_redirect (fs fs' : FS.state) (entropy : nat -> Z) (req : request) (msg : string) :
  index fs entropy req = (fs', redirect "index" msg) →
  let out := output_dir_of (field_or_empty (form req) "rep") in
  let d := ensure_dir fs out in
  let v := validated d.1 entropy req d.2 in
  let output_file :=
    Path.join out (stored_name (quotation_no v.1) (field_or_empty (form req) "client_name")) in
  is_submission req = true ∧ v.2 = [] ∧
  create_quotation_pdf d.1 output_file v.1 (Path.join TEMPLATE_DIR "QUOTATION.pdf")
  = (fs', Done) ∧
  msg = "Quotation generated successfully: " +:+ Path.basename output_file.
Proof.
  unfold is_submission, index, stored_name. destruct (meth req); [done|].
  destruct (negb _); [|done]. simpl.
  destruct (ensure_dir fs _) as [fs1 dir_errors]. simpl.
  destruct (validated fs1 entropy req dir_errors) as [q errs]. simpl.
  destruct errs as [|e errs]; [|done].
  destruct (negb (FS.path_exists fs1 _)); [done|].
  destruct (negb (FS.access_w fs1 _)); [done|].
  destruct (create_quotation_pdf _ _ _ _) as [fs2 [|m]] eqn:E; [|done].
  by intros [= <- <-].
Qed.

Lemma listdir_child (fs : FS.state) (a name : string) :
  name ∈ FS.listdir fs a → is_Some (child fs a name).
Proof.
  unfold child, FS.listdir. destruct (FS.lookup fs a) as [[?|es]|]; try by intros ?%elem_of_nil.
  intros ((k & n) & -> & Hn%elem_of_map_to_list)%list_elem_of_fmap. by exists n.
Qed.

Lemma child_parent (fs : FS.state) (a name : string) (n : FS.node) :
  child fs a name = Some n → FS.isdir fs a = true.
Proof. unfold child, FS.isdir. by destruct (FS.lookup fs a) as [[?|?]|]. Qed.

Lemma probed_dir_truthy (a : string) : Py.truthy a = true → probed_dir a = a.
Proof. unfold probed_dir. by intros ->. Qed.

(** A file found under [base/d/f], [d] and [f] names, is an entry of the
    directory [base/d], itself an entry of [base]. *)
Lemma stored_is_listed (fs : FS.state) (base d f : string) (n : FS.node) :
  Py.truthy base = true → Path.is_name d = true → Path.is_name f = true →
  FS.lookup fs (Path.join (Path.join base d) f) = Some n →
  d ∈ FS.listdir fs base ∧ FS.isdir fs (Path.join base d) = true ∧
  f ∈ FS.listdir fs (Path.join base d).
Proof.
  intros Hb Hd Hf Hl. destruct (join_name_shape base d Hd) as (Ht & _ & _).
  rewrite lookup_join, (probed_dir_truthy _ Ht) in Hl by done.
  pose proof (child_parent _ _ _ _ Hl) as Hdir.
  split; [|split; [done|]].
  - apply child_listdir. rewrite <- (probed_dir_truthy _ Hb), <- lookup_join by done.
    unfold FS.isdir in Hdir. by destruct (FS.lookup fs (Path.join base d)).
  - apply child_listdir. by rewrite Hl.
Qed.

End Storing.

(** X10. What [index] stores is what the search finds. After a
    redirect, with a storage root that is configured (not the empty
    path), the flashed message names the stored file,
    [<number>_<sanitized client>.pdf]; that file is a readable document
    in the representative's directory, an entry of that directory, which
    is an entry of the storage root; the unfiltered search lists it, and
    so does the search for its quotation number among the directories
    matching the sanitized representative name. *)
Theorem X10_stored_quotation_is_found (rt : Runtime) (fs fs' : FS.state) (entropy : nat -> Z)
    (req : request) (msg : string) :
  Py.truthy QUOTATIONS_DIR = true →
  index fs entropy req = (fs', redirect "index" msg) →
  let rp := Py.sub_unsafe (field_or_empty (form req) "rep") in
  let qno := generate_quotation_number
               (ensure_dir fs (output_dir_of (field_or_empty (form req) "rep"))).1
               (output_dir_of (field_or_empty (form req) "rep")) entropy in
  let name := stored_name qno (field_or_empty (form req) "client_name") in
  let entry := {| file := name; url := Path.join3 "quotations" rp name |} in
  msg = "Quotation generated successfully: " +:+ name ∧
  (∃ doc, FS.read_pdf fs' (Path.join (Path.join QUOTATIONS_DIR rp) name) = inr doc) ∧
  rp ∈ FS.listdir fs' QUOTATIONS_DIR ∧
  name ∈ FS.listdir fs' (Path.join QUOTATIONS_DIR rp) ∧
  entry ∈ found_of (get_quotation_files fs' "" "") ∧
  entry ∈ found_of (get_quotation_files fs' qno rp).
Proof.
  intros Hroot Hidx rp qno name entry.
  apply index_redirect in Hidx as (Hs & Hnil & Hc & ->).
  set (out := output_dir_of (field_or_empty (form req) "rep")) in *.
  set (d := ensure_dir fs out) in *.
  destruct (validated_spec d.1 entropy req d.2) as (Hq & Hcl & Hrp & _ & _ & _ & He).
  rewrite Hnil in He. symmetry in He.
  apply app_eq_nil in He as [_ He]. apply app_eq_nil in He as [_ Hre].
  apply required_errors_nil in Hre as (_ & Hrep & _). rewrite Hrp in Hrep.
  rewrite Hq in Hc |- *. fold qno in Hc |- *. fold name in Hc |- *.
  destruct (generate_quotation_number_spec d.1 out entropy) as (j & _ & Hj & _).
  assert (Hname : Path.is_name name = true).
  { unfold name, qno. rewrite Hj. apply stored_name_is_name. }
  assert (Hdir : Path.is_name rp = true) by (by apply sub_unsafe_is_name).
  apply create_done in Hc as (tpl & _ & Hw).
  pose proof (write_file_lookup _ _ _ _ Hw) as Hl.
  change (FS.lookup fs' (Path.join (Path.join QUOTATIONS_DIR rp) name)
          = Some (FS.File (FS.PdfFile (merge tpl (overlay (validated d.1 entropy req d.2).1)))))
    in Hl.
  destruct (stored_is_listed fs' QUOTATIONS_DIR rp name _ Hroot Hdir Hname Hl)
    as (Hd & Hisdir & Hf).
  split; [by rewrite basename_join|].
  split. { eexists. unfold FS.read_pdf. by rewrite Hl. }
  split; [done|]. split; [done|]. split.
  - apply search_membership. exists rp, name.
    repeat split; try done; try apply occurs_empty. apply stored_name_pdf.
  - apply search_membership. exists rp, name.
    repeat split; try done; [apply occurs_self|apply stored_name_pdf|apply occurs_prefix].
Qed.

(** The theorem at work: Alice's quotation, stored for Bob under the draw 123. *)
Lemma X10_witness :
  let req := Sample.submission "Alice" "Bob" Sample.one_row in
  let entry := {| file := "Q-123_Alice.pdf"; url := "quotations/Bob/Q-123_Alice.pdf" |} in
  "Quotation generated successfully: Q-123_Alice.pdf"
  = "Quotation generated successfully: " +:+ "Q-123_Alice.pdf" ∧
  (∃ doc, FS.read_pdf Sample.after_alice "/srv/app/quotations/Bob/Q-123_Alice.pdf" = inr doc) ∧
  "Bob" ∈ FS.listdir Sample.after_alice "/srv/app/quotations" ∧
  "Q-123_Alice.pdf" ∈ FS.listdir Sample.after_alice "/srv/app/quotations/Bob" ∧
  entry ∈ found_of (get_quotation_files (rt := Sample.runtime) Sample.after_alice "" "") ∧
  entry ∈ found_of (get_quotation_files (rt := Sample.runtime) Sample.after_alice "Q-123" "Bob").
Proof.
  intros req entry.
  apply (X10_stored_quotation_is_found Sample.runtime (Sample.disk []) Sample.after_alice
           (Sample.always 123) req "Quotation generated successfully: Q-123_Alice.pdf").
  - reflexivity.
  - vm_compute. reflexivity.
Defined.

(** ** What a request leaves in place *)

Section Frame.
Context {rt : Runtime}.

(** Away from the path stored at, the files are those that were there. *)
Lemma get_put_other (t : FS.node) (dir : list string) (name : string) (n : FS.node)
    (q : list string) (x : FS.content) :
  FS.is_dir_at t dir = true →
  FS.is_dir_at t (dir ++ [name]) = false →
  q ≠ dir ++ [name] →
  FS.get t q = Some (FS.File x) →
  FS.get (FS.put t (dir ++ [name]) n) q = Some (FS.File x).
Proof.
  revert t q. induction dir as [|d dir IH]; intros t q Hd Hn Hq Hg.
  - apply is_dir_at_nil in Hd as [es ->]. destruct q as [|y q]; [done|].
    simpl in *. destruct (decide (name = y)) as [->|Hne].
    + unfold FS.is_dir_at in Hn. simpl in Hn.
      destruct (es !! y) as [[c|?]|]; [|done|done].
      rewrite get_file in Hg. by destruct q.
    + by rewrite lookup_insert_ne.
  - apply is_dir_at_cons in Hd as (es & ch & -> & Hch & Hd).
    rewrite <- app_comm_cons in *. rewrite put_cons, Hch. simpl.
    destruct q as [|y q]; [done|].
    unfold FS.is_dir_at in Hn. rewrite get_cons, Hch in Hn.
    rewrite get_cons in Hg |- *.
    destruct (decide (d = y)) as [->|Hne].
    + rewrite lookup_insert_eq. rewrite Hch in Hg. apply IH; [done|done| |done].
      intros ->. done.
    + by rewrite lookup_insert_ne.
Qed.

Lemma get_put_back (t : FS.node) (dir : list string) (name : string) (c : FS.content)
    (q : list string) (x : FS.content) :
  FS.is_dir_at t dir = true →
  q ≠ dir ++ [name] →
  FS.get (FS.put t (dir ++ [name]) (FS.File c)) q = Some (FS.File x) →
  FS.get t q = Some (FS.File x).
Proof.
  revert t q. induction dir as [|d dir IH]; intros t q Hd Hq Hg.
  - apply is_dir_at_nil in Hd as [es ->]. destruct q as [|y q]; [done|].
    simpl in *. destruct (decide (name = y)) as [->|Hne].
    + rewrite lookup_insert_eq, get_file in Hg. by destruct q.
    + by rewrite lookup_insert_ne in Hg.
  - apply is_dir_at_cons in Hd as (es & ch & -> & Hch & Hd).
    rewrite <- app_comm_cons in *. rewrite put_cons, Hch in Hg. simpl in Hg.
    destruct q as [|y q]; [done|].
    rewrite get_cons in Hg |- *.
    destruct (decide (d = y)) as [->|Hne].
    + rewrite lookup_insert_eq in Hg. rewrite Hch. apply (IH ch q); [done| |done].
      intros ->. done.
    + by rewrite lookup_insert_ne in Hg.
Qed.

Lemma mk_step_keeps (p : string) (t t' : FS.node) (cur cur' : list string) (c : string) :
  FS.mk_step p (t, cur) c = inr (t', cur') →
  ∀ q x, FS.get t q = Some (FS.File x) → FS.get t' q = Some (FS.File x).
Proof.
  unfold FS.mk_step.
  destruct (FS.get t cur) as [[?|es]|] eqn:E; try done.
  assert (Hd : FS.is_dir_at t cur = true) by (unfold FS.is_dir_at; by rewrite E).
  destruct (FS.is_dot c); [by intros [= <- <-]|].
  destruct (String.eqb c ".."); [by intros [= <- <-]|].
  destruct (es !! c) as [ch|] eqn:Ec; [by intros [= <- <-]|].
  destruct (FS.fits c); [|done].
  intros [= <- <-] q x Hg.
  assert (Hn : FS.get t (cur ++ [c]) = None) by (by rewrite get_app, E).
  apply get_put_other; [done| | |done].
  - unfold FS.is_dir_at. by rewrite Hn.
  - intros ->. by rewrite Hn in Hg.
Qed.

Lemma mk_walk_keeps (p : string) (comps : list string) (t : FS.node) (cur : list string) :
  ∀ q x, FS.get t q = Some (FS.File x) →
    match FS.mk_walk p (t, cur) comps with
    | inr (t', _) | inl (_, t') => FS.get t' q = Some (FS.File x)
    end.
Proof.
  revert t cur. induction comps as [|c comps IH]; intros t cur q x Hg; cbn [FS.mk_walk].
  - done.
  - destruct (FS.mk_step p (t, cur) c) as [e|[t1 cur1]] eqn:E; [done|].
    apply IH. by eapply mk_step_keeps.
Qed.

(** The directory step: the working directory, the directories and the
    files are kept, and no file is added. *)
Lemma ensure_dir_frame (fs : FS.state) (out : string) :
  FS.cwd (ensure_dir fs out).1 = FS.cwd fs ∧
  (∀ q, FS.is_dir_at (FS.root fs) q = true →
        FS.is_dir_at (FS.root (ensure_dir fs out).1) q = true) ∧
  (∀ q x, FS.get (FS.root fs) q = Some (FS.File x) ↔
          FS.get (FS.root (ensure_dir fs out).1) q = Some (FS.File x)).
Proof.
  assert (Hkeep : ∀ q x, FS.get (FS.root fs) q = Some (FS.File x) →
            match FS.makedirs fs out with
            | inr fs1 | inl (_, fs1) => FS.get (FS.root fs1) q = Some (FS.File x)
            end).
  { intros q x Hg. unfold FS.makedirs.
    destruct (FS.path_exists fs out); [done|]. destruct (negb (Py.truthy out)); [done|].
    pose proof (mk_walk_keeps out (Path.components out) (FS.root fs) (FS.start fs out) q x Hg)
      as Hk.
    destruct (FS.mk_walk _ _ _) as [[e t]|[t cur]]; [done|].
    by destruct (FS.is_dir_at t cur). }
  destruct (ensure_dir_cases fs out)
    as [[_ ->]|[(_ & fs1 & Hm & ->)|(_ & e & fs1 & Hm & ->)]]; [done| |]; simpl.
  - pose proof (makedirs_spec _ _ _ Hm) as (_ & Hdirs & Hfiles).
    split.
    { unfold FS.makedirs in Hm.
      destruct (FS.path_exists fs out); [done|]. destruct (negb (Py.truthy out)); [done|].
      destruct (FS.mk_walk _ _ _) as [[e t]|[t cur]]; [done|].
      destruct (FS.is_dir_at t cur); [|done]. by injection Hm as <-. }
    split; [done|]. intros q x. split; [|apply Hfiles].
    intros Hg. specialize (Hkeep q x Hg). by rewrite Hm in Hkeep.
  - pose proof (makedirs_left _ _ _ _ Hm) as (Hcwd & Hdirs & Hfiles).
    split; [done|]. split; [done|]. intros q x. split; [|apply Hfiles].
    intros Hg. specialize (Hkeep q x Hg). by rewrite Hm in Hkeep.
Qed.

(** The write: one canonical path is stored at, the one the file is
    then found under; everything else is as it was. *)
Lemma write_file_frame (fs fs' : FS.state) (p : string) (c : FS.content) :
  FS.write_file fs p c = inr fs' →
  ∃ target, FS.resolve fs' p = Some target ∧
    FS.cwd fs' = FS.cwd fs ∧
    (∀ q, FS.is_dir_at (FS.root fs') q = FS.is_dir_at (FS.root fs) q) ∧
    (∀ q x, q ≠ target →
       FS.get (FS.root fs) q = Some (FS.File x) ↔ FS.get (FS.root fs') q = Some (FS.File x)).
Proof.
  intros (Hp & dir & Hw & Hd & Hn & Hfree & ->)%write_file_inv.
  set (name := List.last (Path.components p) "") in *.
  exists (dir ++ [name]). simpl.
  assert (Hdirs : ∀ q, FS.is_dir_at (FS.put (FS.root fs) (dir ++ [name]) (FS.File c)) q
                       = FS.is_dir_at (FS.root fs) q).
  { intros q. by apply is_dir_at_put_file. }
  split.
  { unfold FS.resolve, FS.start in *. simpl. rewrite Hp.
    rewrite (app_removelast_last "" (components_nonempty p)). fold name.
    rewrite walk_app, (walk_ext (FS.root fs)) by done.
    rewrite Hw. simpl. rewrite step_name by done. rewrite Hdirs, Hd.
    by rewrite get_put_same. }
  split; [done|]. split; [done|].
  intros q x Hq. split.
  - by apply get_put_other.
  - by apply get_put_back.
Qed.

End Frame.

(** X11. Whatever the request, [index] removes nothing and moves
    nothing: the working directory is kept, every directory stays a
    directory, and every file keeps its content, except the one at the
    place the new quotation is stored at; and the only file that can
    appear or change is that one, and only when the answer is the
    redirect. The place is the output file,
    [<root>/<sanitized representative>/<number>_<sanitized client>.pdf],
    as resolved after the request. *)
Theorem X11_index_changes_one_file_at_most (rt : Runtime) (fs : FS.state) (entropy : nat -> Z)
    (req : request) :
  let out := output_dir_of (field_or_empty (form req) "rep") in
  let qno := generate_quotation_number (ensure_dir fs out).1 out entropy in
  let output_file :=
    Path.join out (stored_name qno (field_or_empty (form req) "client_name")) in
  let fs' := (index fs entropy req).1 in
  FS.cwd fs' = FS.cwd fs ∧
  (∀ q, FS.is_dir_at (FS.root fs) q = true → FS.is_dir_at (FS.root fs') q = true) ∧
  ∀ q x,
    (FS.get (FS.root fs) q = Some (FS.File x) ↔ FS.get (FS.root fs') q = Some (FS.File x)) ∨
    (FS.resolve fs' output_file = Some q ∧
     ∃ msg, (index fs entropy req).2 = redirect "index" msg).
Proof.
  intros out qno output_file fs'.
  destruct (is_submission req) eqn:Hs.
  - destruct (ensure_dir_frame fs out) as (Hcwd & Hdirs & Hfiles).
    destruct (index_submission fs entropy req Hs)
      as [(sn & sr & ls & errs & Hidx & _)|(_ & Hc & Hmsg)].
    + unfold fs'. rewrite Hidx. simpl. split; [done|]. split; [done|].
      intros q x. left. apply Hfiles.
    + destruct (validated_spec (ensure_dir fs out).1 entropy req (ensure_dir fs out).2)
        as (Hq & _).
      fold out in Hc. rewrite Hq in Hc.
      apply create_done in Hc as (tpl & _ & Hw).
      apply write_file_frame in Hw as (target & Hres & Hcwd' & Hdirs' & Hfiles').
      fold fs' in Hres, Hcwd', Hdirs', Hfiles'.
      split; [congruence|]. split.
      { intros q Hq'. rewrite Hdirs'. by apply Hdirs. }
      intros q x. destruct (decide (q = target)) as [->|Hne].
      * right. by split.
      * left. rewrite Hfiles. by apply Hfiles'.
  - destruct (index_no_submission fs entropy req Hs) as (sn & sr & ls & Hidx).
    unfold fs'. rewrite Hidx. simpl. split; [done|]. split; [done|]. intros q x. by left.
Qed.

(** ** How a valid submission ends *)

Section Outcomes.
Context {rt : Runtime}.

(** Opening [out/name] for writing succeeds exactly when [out] is a
    directory, [out/name] is not one, and the name fits or the file is
    there already. *)
Lemma write_file_outcome (fs : FS.state) (out name : string) (c : FS.content) :
  Path.is_name name = true → Py.truthy out = true → Path.ends_with_sep out = false →
  if FS.isdir fs out && negb (FS.isdir fs (Path.join out name)) &&
     (FS.fits name || FS.path_exists fs (Path.join out name))
  then ∃ fs', FS.write_file fs (Path.join out name) c = inr fs'
  else ∃ e, FS.write_file fs (Path.join out name) c = inl e.
Proof.
  intros Hname Hout Hsep. pose proof Hname as (Hn & _ & _ & Hs)%is_name_facts.
  unfold FS.isdir at 2. unfold FS.path_exists.
  rewrite lookup_join, (probed_dir_truthy _ Hout) by done.
  unfold child, FS.isdir. rewrite (lookup_walk fs out Hout).
  unfold FS.write_file, Path.join, FS.start.
  rewrite (name_not_abs _ Hs), Hout, Hsep. simpl.
  rewrite truthy_app_l, is_abs_app by done.
  rewrite components_app_sep, (components_name _ Hs).
  rewrite removelast_last, last_last.
  destruct (FS.walk_to _ _ _ _) as [e|dir] eqn:Hw.
  - assert (Hno : match FS.walk (FS.root fs) (if Path.is_abs out then [] else FS.cwd fs)
                          (Path.components out) with
                  | Some c0 => FS.get (FS.root fs) c0
                  | None => None
                  end = None ∨
                  ∃ x, match FS.walk (FS.root fs) (if Path.is_abs out then [] else FS.cwd fs)
                          (Path.components out) with
                  | Some c0 => FS.get (FS.root fs) c0
                  | None => None
                  end = Some (FS.File x)).
    { destruct (FS.walk _ _ _) as [c0|] eqn:Hw0; [|by left].
      destruct (FS.get (FS.root fs) c0) as [[x|es]|] eqn:Hg; [right; by eexists| |by left].
      rewrite (walk_walk_to _ _ _ _ c0) in Hw by (done || by rewrite Hg). done. }
    destruct Hno as [->|[x ->]]; simpl; by eexists.
  - rewrite (walk_to_walk _ _ _ _ _ Hw). rewrite Hname.
    destruct (FS.get (FS.root fs) dir) as [[?|es]|]; simpl; try by eexists.
    destruct (es !! name) as [[?|?]|]; simpl; rewrite ?orb_true_r, ?orb_false_r;
      try by eexists.
    destruct (FS.fits name); by eexists.
Qed.

Lemma validated_no_dir_error (fs : FS.state) (entropy : nat -> Z) (req : request)
    (dir_errors : list string) :
  (validated fs entropy req dir_errors).2 = [] →
  dir_errors = [] ∧ Py.truthy (field_or_empty (form req) "rep") = true.
Proof.
  destruct (validated_spec fs entropy req dir_errors) as (_ & _ & Hrp & _ & _ & _ & He).
  intros Hnil. rewrite Hnil in He. symmetry in He.
  apply app_eq_nil in He as [Hd He]. apply app_eq_nil in He as [_ Hre].
  apply required_errors_nil in Hre as (_ & Hrep & _). by rewrite Hrp in Hrep.
Qed.

(** A submission that passed validation: the two branches left. *)
Lemma index_valid (fs : FS.state) (entropy : nat -> Z) (req : request) :
  let out := output_dir_of (field_or_empty (form req) "rep") in
  let d := ensure_dir fs out in
  let v := validated d.1 entropy req d.2 in
  let template_path := Path.join TEMPLATE_DIR "QUOTATION.pdf" in
  let output_file :=
    Path.join out (stored_name (quotation_no v.1) (field_or_empty (form req) "client_name")) in
  let ls := listing (get_quotation_files fs "" "") in
  is_submission req = true → v.2 = [] →
  index fs entropy req
  = if negb (FS.path_exists d.1 template_path)
    then (d.1, page "" "" ls v.1 ["Quotation template not found: " +:+ template_path])
    else match create_quotation_pdf d.1 output_file v.1 template_path with
         | (fs2, Done) =>
             (fs2, redirect "index"
                     ("Quotation generated successfully: " +:+ Path.basename output_file))
         | (fs2, Failed result) =>
             (fs2, page "" "" ls v.1 ["PDF generation failed: " +:+ result])
         end.
Proof.
  intros out d v template_path output_file ls Hs Hnil.
  pose proof (validated_no_dir_error _ _ _ _ Hnil) as [Hd _].
  pose proof (ensure_dir_no_error fs out Hd) as Hex.
  unfold is_submission in Hs. unfold index. destruct (meth req); [done|].
  rewrite Hs. apply negb_true_iff, orb_false_iff in Hs as [Hno Hrp].
  rewrite truthy_field in Hno, Hrp.
  rewrite (not_truthy _ Hno), (not_truthy _ Hrp). simpl.
  fold out. unfold stored_name in *. subst v output_file ls template_path d.
  destruct (ensure_dir fs out) as [fs1 de]. simpl in *.
  destruct (validated fs1 entropy req de) as [q errs]. simpl in *. subst errs.
  unfold FS.access_w. rewrite Hex. simpl. reflexivity.
Qed.

End Outcomes.

(** X13. A submission that passed validation ends in one of three
    ways, decided by the disk as the directory step left it (permission
    bits are not modelled, so the directory that exists is writable).
    Without a template file the page carries
    [Quotation template not found: <path>] and nothing is written. With
    a template that is a PDF, an output directory that is a directory,
    an output path that is no directory and a file name
    [<number>_<sanitized client>.pdf] of at most 255 bytes (or one that
    is there already), the document is written (the template pages with
    the overlay merged in, read back from the output file) and the
    answer is the redirect. In every other case (the template is a
    directory or no PDF, or the output file cannot be opened, as when a
    long client name makes its name too long) the page carries
    [PDF generation failed: ] followed by the text of the exception, and
    nothing is written. Each page shows the unfiltered listing as it was
    before the request. *)
Theorem X13_valid_submission_outcomes (rt : Runtime) (fs : FS.state) (entropy : nat -> Z)
    (req : request) :
  let out := output_dir_of (field_or_empty (form req) "rep") in
  let d := ensure_dir fs out in
  let v := validated d.1 entropy req d.2 in
  let template_path := Path.join TEMPLATE_DIR "QUOTATION.pdf" in
  let name := stored_name (quotation_no v.1) (field_or_empty (form req) "client_name") in
  let rendered := page "" "" (listing (get_quotation_files fs "" "")) v.1 in
  is_submission req = true → v.2 = [] →
  match FS.lookup d.1 template_path with
  | None =>
      index fs entropy req
      = (d.1, rendered ["Quotation template not found: " +:+ template_path])
  | Some (FS.File (FS.PdfFile template_pdf)) =>
      if FS.isdir d.1 out && negb (FS.isdir d.1 (Path.join out name)) &&
         (FS.fits name || FS.path_exists d.1 (Path.join out name)) then
        ∃ fs', index fs entropy req
               = (fs', redirect "index" ("Quotation generated successfully: " +:+ name)) ∧
               FS.read_pdf fs' (Path.join out name) = inr (merge template_pdf (overlay v.1))
      else
        ∃ e, index fs entropy req
             = (d.1, rendered ["PDF generation failed: " +:+ str_of_exn e])
  | Some _ =>
      ∃ e, index fs entropy req = (d.1, rendered ["PDF generation failed: " +:+ str_of_exn e])
  end.
Proof.
  intros out d v template_path name rendered Hs Hnil.
  pose proof (index_valid fs entropy req Hs Hnil) as Hidx.
  fold out d v template_path name in Hidx. fold rendered in Hidx.
  pose proof (validated_no_dir_error _ _ _ _ Hnil) as [_ Hrep].
  pose proof (sub_unsafe_is_name _ Hrep) as Hdir.
  destruct (join_name_shape QUOTATIONS_DIR _ Hdir) as (Hout & Hsep & _).
  fold (output_dir_of (field_or_empty (form req) "rep")) in Hout, Hsep. fold out in Hout, Hsep.
  assert (Hname : Path.is_name name = true).
  { destruct (validated_spec d.1 entropy req d.2) as (Hq & _).
    destruct (generate_quotation_number_spec d.1 out entropy) as (j & _ & Hj & _).
    unfold name, v. rewrite Hq. fold out. rewrite Hj. apply stored_name_is_name. }
  unfold FS.path_exists, create_quotation_pdf, FS.read_pdf in Hidx.
  destruct (FS.lookup d.1 template_path) as [[[raw|template_pdf]|es]|]; simpl in Hidx.
  - by eexists.
  - pose proof (write_file_outcome d.1 out name
                  (FS.PdfFile (merge template_pdf (overlay v.1))) Hname Hout Hsep) as Hw.
    destruct (FS.isdir d.1 out && negb (FS.isdir d.1 (Path.join out name)) &&
              (FS.fits name || FS.path_exists d.1 (Path.join out name))).
    + destruct Hw as [fs' Hw]. rewrite Hw in Hidx. exists fs'.
      rewrite basename_join in Hidx by done. split; [done|].
      apply (write_file_read_pdf _ _ _ _ Hw).
    + destruct Hw as [e Hw]. rewrite Hw in Hidx. by exists e.
  - by eexists.
  - done.
Qed.

(** The theorem at work: Alice's quotation on a disk that holds the
    one-page template. *)
Lemma X13_witness :
  let req := Sample.submission "Alice" "Bob" Sample.one_row in
  let out := output_dir_of (rt := Sample.runtime) (field_or_empty (form req) "rep") in
  let d := ensure_dir (Sample.disk []) out in
  let v := validated (rt := Sample.runtime) d.1 (Sample.always 123) req d.2 in
  let template_path := Path.join "/srv/app/files" "QUOTATION.pdf" in
  let name := stored_name (quotation_no v.1) (field_or_empty (form req) "client_name") in
  let rendered :=
    page "" "" (listing (get_quotation_files (rt := Sample.runtime) (Sample.disk []) "" "")) v.1 in
  match FS.lookup d.1 template_path with
  | None =>
      index (rt := Sample.runtime) (Sample.disk []) (Sample.always 123) req
      = (d.1, rendered ["Quotation template not found: " +:+ template_path])
  | Some (FS.File (FS.PdfFile template_pdf)) =>
      if FS.isdir d.1 out && negb (FS.isdir d.1 (Path.join out name)) &&
         (FS.fits name || FS.path_exists d.1 (Path.join out name)) then
        ∃ fs', index (rt := Sample.runtime) (Sample.disk []) (Sample.always 123) req
               = (fs', redirect "index" ("Quotation generated successfully: " +:+ name)) ∧
               FS.read_pdf fs' (Path.join out name)
               = inr (merge template_pdf (overlay (rt := Sample.runtime) v.1))
      else
        ∃ e, index (rt := Sample.runtime) (Sample.disk []) (Sample.always 123) req
             = (d.1, rendered ["PDF generation failed: " +:+ Sample.print_exn e])
  | Some _ =>
      ∃ e, index (rt := Sample.runtime) (Sample.disk []) (Sample.always 123) req
           = (d.1, rendered ["PDF generation failed: " +:+ Sample.print_exn e])
  end.
Proof.
  apply (X13_valid_submission_outcomes Sample.runtime (Sample.disk []) (Sample.always 123)
           (Sample.submission "Alice" "Bob" Sample.one_row)).
  - reflexivity.
  - vm_compute. reflexivity.
Defined.

(** ** The required fields *)

Section Required.
Context {rt : Runtime}.

Lemma required_errors_spec (q : quotation) :
  ("Client name is required." ∈ required_errors q ↔ Py.truthy (client_name q) = false) ∧
  ("Representative name is required." ∈ required_errors q ↔ Py.truthy (rep q) = false) ∧
  ("At least one complete item is required." ∈ required_errors q ↔ quote_items q = []).
Proof.
  unfold required_errors.
  destruct (Py.truthy (client_name q)), (Py.truthy (rep q)), (quote_items q); simpl;
    rewrite ?elem_of_cons, ?elem_of_nil; repeat split; intros; try done;
    repeat match goal with H : _ ∨ _ |- _ => destruct H end; try done; auto.
Qed.

(** The errors of the directory step and of the item arrays begin with
    [F], [I] or [T]. *)
Lemma earlier_errors_shape (fs : FS.state) (req : request) (out e : string) :
  e ∈ (ensure_dir fs out).2 ++ item_errors req →
  ∃ s, e = String "F" s ∨ e = String "I" s ∨ e = String "T" s.
Proof.
  intros [He|He]%elem_of_app.
  - destruct (ensure_dir_cases fs out)
      as [[_ Hd]|[(_ & fs1 & _ & Hd)|(_ & e' & fs1 & _ & Hd)]];
      rewrite Hd in He; simpl in He; try by apply elem_of_nil in He.
    apply list_elem_of_singleton in He as ->. rewrite app_cons. eexists. by left.
  - unfold item_errors in He. destruct (negb _).
    { apply list_elem_of_singleton in He as ->. eexists. right. by left. }
    destruct (_ >? _).
    { apply list_elem_of_singleton in He as ->. eexists. right. by right. }
    unfold rejected in He. apply list_elem_of_fmap in He as (i & -> & _).
    destruct (row_error_shape i) as [s ->]. eexists. right. by left.
Qed.

(** The error list of the page that answers a submission: the one of
    the validation, or, when that is empty, one error of the composition. *)
Lemma rendered_errors (fs fs' : FS.state) (entropy : nat -> Z) (req : request) (ctx : context) :
  is_submission req = true →
  index fs entropy req = (fs', render_template "index.html" ctx) →
  let d := ensure_dir fs (output_dir_of (field_or_empty (form req) "rep")) in
  let v := validated d.1 entropy req d.2 in
  quotation_data ctx = v.1 ∧
  ((v.2 ≠ [] ∧ errors ctx = v.2) ∨
   (v.2 = [] ∧ ∃ s, errors ctx = [String "Q" s] ∨ errors ctx = [String "P" s])).
Proof.
  intros Hs Hidx d v.
  destruct (decide (v.2 = [])) as [Hnil|Hne].
  - pose proof (index_valid fs entropy req Hs Hnil) as Hv. fold d v in Hv.
    rewrite Hidx in Hv.
    destruct (negb _).
    { injection Hv as _ ->. simpl. split; [done|]. right. split; [done|].
      rewrite app_cons. eexists. by left. }
    destruct (create_quotation_pdf _ _ _ _) as [fs2 [|m]]; [done|].
    injection Hv as _ ->. simpl. split; [done|]. right. split; [done|].
    rewrite app_cons. eexists. by right.
  - destruct (index_submission fs entropy req Hs)
      as [(sn & sr & ls & errs & Hidx' & _ & Herrs)|(Hnil & _)]; [|done].
    rewrite Hidx in Hidx'. injection Hidx' as _ ->. simpl. split; [done|].
    left. split; [done|]. by apply Herrs.
Qed.

End Required.

(** X14. On the page that answers a submission, each of the three
    required-field errors is shown exactly when its field is missing:
    [Client name is required.] when the client name is blank,
    [Representative name is required.] when the representative is blank,
    [At least one complete item is required.] when no row was accepted
    (no row at all, only void rows, or item arrays that were rejected as
    a whole). No other check produces one of these texts. *)
Theorem X14_required_errors_match_fields (rt : Runtime) (fs fs' : FS.state)
    (entropy : nat -> Z) (req : request) (ctx : context) :
  is_submission req = true →
  index fs entropy req = (fs', render_template "index.html" ctx) →
  ("Client name is required." ∈ errors ctx
   ↔ Py.truthy (field_or_empty (form req) "client_name") = false) ∧
  ("Representative name is required." ∈ errors ctx
   ↔ Py.truthy (field_or_empty (form req) "rep") = false) ∧
  ("At least one complete item is required." ∈ errors ctx ↔ accepted_items req = []).
Proof.
  intros Hs Hidx.
  destruct (rendered_errors fs fs' entropy req ctx Hs Hidx) as [_ Hcases].
  set (d := ensure_dir fs (output_dir_of (field_or_empty (form req) "rep"))) in *.
  destruct (validated_spec d.1 entropy req d.2) as (_ & Hcl & Hrp & _ & Hitems & _ & He).
  destruct (required_errors_spec (validated d.1 entropy req d.2).1) as (H1 & H2 & H3).
  rewrite Hcl in H1. rewrite Hrp in H2. rewrite Hitems in H3.
  assert (Hsplit : ∀ m, (∀ s, m ≠ String "F" s ∧ m ≠ String "I" s ∧ m ≠ String "T" s ∧
                              m ≠ String "Q" s ∧ m ≠ String "P" s) →
            (m ∈ errors ctx ↔ m ∈ required_errors (validated d.1 entropy req d.2).1)).
  { intros m Hm. destruct Hcases as [[_ ->]|[Hnil [s Hs']]].
    - rewrite He, app_assoc, elem_of_app. split; [|by right].
      intros [Hin|Hin]; [|done].
      apply earlier_errors_shape in Hin as [s Hin]. destruct (Hm s) as (? & ? & ? & _).
      by destruct Hin as [?|[?|?]].
    - rewrite Hnil in He. symmetry in He.
      apply app_eq_nil in He as [_ He]. apply app_eq_nil in He as [_ ->].
      destruct (Hm s) as (_ & _ & _ & ? & ?).
      split; [|by intros ?%elem_of_nil].
      destruct Hs' as [->| ->]; by intros ->%list_elem_of_singleton. }
  rewrite <- H1, <- H2, <- H3. repeat split; apply Hsplit; by intros s.
Qed.

(** The theorem at work: a submission without rows. *)
Lemma X14_witness :
  ("Client name is required." ∈ errors Sample.no_rows_context
   ↔ Py.truthy (field_or_empty (form Sample.no_rows) "client_name") = false) ∧
  ("Representative name is required." ∈ errors Sample.no_rows_context
   ↔ Py.truthy (field_or_empty (form Sample.no_rows) "rep") = false) ∧
  ("At least one complete item is required." ∈ errors Sample.no_rows_context
   ↔ accepted_items (rt := Sample.runtime) Sample.no_rows = []).
Proof.
  apply (X14_required_errors_match_fields Sample.runtime (Sample.disk [])
           (index (rt := Sample.runtime) (Sample.disk []) (Sample.always 123) Sample.no_rows).1
           (Sample.always 123) Sample.no_rows Sample.no_rows_context).
  - reflexivity.
  - vm_compute. reflexivity.
Defined.

(** ** Rows, counted *)

Section Reported.
Context {rt : Runtime}.

Lemma rejected_rows_spec (req : request) (i : nat) :
  i ∈ rejected_rows req ↔
  (i < length (getlist (form req) "quantity[]"))%nat ∧
  row_outcome (getlist (form req) "quantity[]") (getlist (form req) "rate[]")
              (getlist (form req) "amount[]") (getlist (form req) "vat[]") i = None.
Proof.
  unfold rejected_rows. rewrite list_elem_of_In, filter_In, <- list_elem_of_In, elem_of_seq.
  destruct (row_outcome _ _ _ _ i); split; intros [? ?]; split; (done || lia).
Qed.

Lemma item_errors_rows (req : request) :
  same_lengths (getlist (form req) "quantity[]") (getlist (form req) "rate[]")
               (getlist (form req) "amount[]") (getlist (form req) "vat[]") = true →
  (length (getlist (form req) "quantity[]") <= 60)%nat →
  item_errors req = row_error <$> rejected_rows req ∧
  (length (accepted_items req) + length (rejected_rows req)
   = length (getlist (form req) "quantity[]"))%nat.
Proof.
  intros Hlen Hmax. unfold item_errors, accepted_items. rewrite Hlen. simpl.
  destruct (_ >? _) eqn:Hgt; [lia|]. split; [done|].
  unfold accepted, rejected_rows. rewrite omap_filter_length. apply length_seq.
Qed.

(** When a row is accepted, in terms of its four fields. *)
Lemma row_outcome_fields (quantities rates amounts vats : list string) (i : nat) (it : item) :
  row_outcome quantities rates amounts vats i = Some it ↔
  float_of_str (nth i quantities "") = Some (quantity it) ∧
  float_of_str (nth i rates "") = Some (rate it) ∧
  float_of_str (nth i amounts "") = Some (amount it) ∧
  (if Py.truthy (nth i vats "") then float_of_str (nth i vats "") else Some 0%float)
  = Some (vat it) ∧
  float_truthy (quantity it) = true ∧ float_truthy (rate it) = true ∧
  float_truthy (amount it) = true.
Proof.
  rewrite row_outcome_Some. unfold parse_row, nonzero_row. split.
  - intros [Hp Hn].
    destruct (float_of_str (nth i quantities "")) as [q|]; [|done].
    destruct (float_of_str (nth i rates "")) as [r|]; [|done].
    destruct (float_of_str (nth i amounts "")) as [a|]; [|done].
    destruct (if Py.truthy (nth i vats "") then _ else _) as [v|]; [|done].
    injection Hp as <-. simpl in *.
    apply andb_true_iff in Hn as [[Tq Tr]%andb_true_iff Ta]. done.
  - intros (Hq & Hr & Ha & Hv & Tq & Tr & Ta). rewrite Hq, Hr, Ha, Hv, Tq, Tr, Ta.
    by destruct it.
Qed.

End Reported.

(** X5. On the page that answers a submission whose item arrays have
    equal length and at most 60 rows, every row is either accepted or
    reported, never both and never neither. [quote_items] holds the
    accepted rows in row order; the error list shows the row-level error
    of a row exactly when the row was not accepted; accepted and
    rejected rows together are as many as the rows. When a row is
    rejected the error list is, in order, the error of the directory
    step if it failed, one row error per rejected row in row order, and
    the required-field errors. The errors name their rows (numbered from
    1), distinct rows giving distinct messages. A row is accepted, as
    the item of its four numbers, exactly when quantity, rate and amount
    convert and are non-zero and the VAT is blank (then 0) or converts. *)
Theorem X5_every_row_accepted_or_reported (rt : Runtime) (fs fs' : FS.state)
    (entropy : nat -> Z) (req : request) (ctx : context) :
  is_submission req = true →
  same_lengths (getlist (form req) "quantity[]") (getlist (form req) "rate[]")
               (getlist (form req) "amount[]") (getlist (form req) "vat[]") = true →
  (length (getlist (form req) "quantity[]") <= 60)%nat →
  index fs entropy req = (fs', render_template "index.html" ctx) →
  quote_items (quotation_data ctx) = accepted_items req ∧
  (length (quote_items (quotation_data ctx)) + length (rejected_rows req)
   = length (getlist (form req) "quantity[]"))%nat ∧
  (∀ i, (i < length (getlist (form req) "quantity[]"))%nat →
        (row_error i ∈ errors ctx ↔
         row_outcome (getlist (form req) "quantity[]") (getlist (form req) "rate[]")
           (getlist (form req) "amount[]") (getlist (form req) "vat[]") i = None)) ∧
  (∀ i, row_error i ∈ errors ctx → i ∈ rejected_rows req) ∧
  (rejected_rows req ≠ [] →
   errors ctx
   = (ensure_dir fs (output_dir_of (field_or_empty (form req) "rep"))).2 ++
     (row_error <$> rejected_rows req) ++ required_errors (quotation_data ctx)) ∧
  NoDup (rejected_rows req) ∧
  (∀ i j, row_error i = row_error j → i = j) ∧
  (∀ i it,
     row_outcome (getlist (form req) "quantity[]") (getlist (form req) "rate[]")
       (getlist (form req) "amount[]") (getlist (form req) "vat[]") i = Some it ↔
     float_of_str (nth i (getlist (form req) "quantity[]") "") = Some (quantity it) ∧
     float_of_str (nth i (getlist (form req) "rate[]") "") = Some (rate it) ∧
     float_of_str (nth i (getlist (form req) "amount[]") "") = Some (amount it) ∧
     (if Py.truthy (nth i (getlist (form req) "vat[]") "")
      then float_of_str (nth i (getlist (form req) "vat[]") "") else Some 0%float)
     = Some (vat it) ∧
     float_truthy (quantity it) = true ∧ float_truthy (rate it) = true ∧
     float_truthy (amount it) = true).
Proof.
  intros Hs Hlen Hmax Hidx.
  destruct (rendered_errors fs fs' entropy req ctx Hs Hidx) as [Hq Hcases].
  set (d := ensure_dir fs (output_dir_of (field_or_empty (form req) "rep"))) in *.
  destruct (validated_spec d.1 entropy req d.2) as (_ & _ & _ & _ & Hitems & _ & He).
  destruct (item_errors_rows req Hlen Hmax) as [Hie Hcount].
  rewrite Hie in He. rewrite <- Hq in He, Hitems.
  assert (Hin : ∀ i, row_error i ∈ errors ctx ↔ i ∈ rejected_rows req).
  { intros i. destruct Hcases as [[_ ->]|[Hnil [s Hs']]].
    - rewrite He, !elem_of_app. split.
      + intros [H|[H|H]].
        * by apply row_error_not_dir_error in H.
        * apply list_elem_of_fmap in H as (j & Hj & Hin). by apply row_error_inj in Hj as ->.
        * by apply row_error_not_required in H.
      + intros H. right. left. apply list_elem_of_fmap. by exists i.
    - rewrite Hnil in He. symmetry in He.
      apply app_eq_nil in He as [_ He]. apply app_eq_nil in He as [He _].
      apply fmap_nil_inv in He. rewrite He.
      destruct (row_error_shape i) as [s' Hi]. rewrite Hi.
      split; [|by intros ?%elem_of_nil].
      destruct Hs' as [->| ->]; by intros ?%list_elem_of_singleton. }
  split; [done|]. split; [by rewrite Hitems|]. split.
  { intros i Hi. rewrite Hin, rejected_rows_spec. split; [by intros [_ ?]|done]. }
  split; [intros i; apply Hin|]. split.
  { intros Hne. destruct Hcases as [[_ ->]|[Hnil _]]; [done|].
    rewrite Hnil in He. symmetry in He.
    apply app_eq_nil in He as [_ He]. apply app_eq_nil in He as [He _].
    by apply fmap_nil_inv in He. }
  split; [|split; [apply row_error_inj|intros; apply row_outcome_fields]].
  unfold rejected_rows. apply NoDup_ListNoDup, List.NoDup_filter, List.seq_NoDup.
Qed.

(** The theorem at work: a zero row followed by a valid row. *)
Lemma X5_witness :
  quote_items
    {| quotation_no := "Q-123"; date := "2025-01-15"; client_name := "Alice"; rep := "Bob";
       quote_items := [ {| quantity := 2; rate := 5; amount := 10; vat := 16 |} ];
       subtotal := 10; tax := (10 * (16 / 100))%float; total := (10 + 10 * (16 / 100))%float |}
  = accepted_items (rt := Sample.runtime)
      (Sample.submission "Alice" "Bob" Sample.zero_then_one_row) ∧
  (length [ {| quantity := 2%float; rate := 5%float; amount := 10%float; vat := 16%float |} ]
   + length (rejected_rows (rt := Sample.runtime)
               (Sample.submission "Alice" "Bob" Sample.zero_then_one_row))
   = length (getlist (form (Sample.submission "Alice" "Bob" Sample.zero_then_one_row))
               "quantity[]"))%nat ∧
  (∀ i, (i < length (getlist (form (Sample.submission "Alice" "Bob" Sample.zero_then_one_row))
                       "quantity[]"))%nat →
        (row_error i
           ∈ ["Incomplete item data at row 1. Quantity, rate, amount, and VAT are required."]
         ↔ row_outcome (rt := Sample.runtime)
             (getlist (form (Sample.submission "Alice" "Bob" Sample.zero_then_one_row))
                "quantity[]")
             (getlist (form (Sample.submission "Alice" "Bob" Sample.zero_then_one_row)) "rate[]")
             (getlist (form (Sample.submission "Alice" "Bob" Sample.zero_then_one_row))
                "amount[]")
             (getlist (form (Sample.submission "Alice" "Bob" Sample.zero_then_one_row)) "vat[]")
             i = None)) ∧
  (∀ i, row_error i
          ∈ ["Incomplete item data at row 1. Quantity, rate, amount, and VAT are required."] →
        i ∈ rejected_rows (rt := Sample.runtime)
              (Sample.submission "Alice" "Bob" Sample.zero_then_one_row)) ∧
  (rejected_rows (rt := Sample.runtime)
     (Sample.submission "Alice" "Bob" Sample.zero_then_one_row) ≠ [] →
   ["Incomplete item data at row 1. Quantity, rate, amount, and VAT are required."]
   = (ensure_dir (Sample.disk [])
        (output_dir_of (rt := Sample.runtime)
           (field_or_empty (form (Sample.submission "Alice" "Bob" Sample.zero_then_one_row))
              "rep"))).2 ++
     (row_error <$> rejected_rows (rt := Sample.runtime)
                      (Sample.submission "Alice" "Bob" Sample.zero_then_one_row)) ++
     required_errors
       {| quotation_no := "Q-123"; date := "2025-01-15"; client_name := "Alice"; rep := "Bob";
          quote_items := [ {| quantity := 2; rate := 5; amount := 10; vat := 16 |} ];
          subtotal := 10; tax := (10 * (16 / 100))%float;
          total := (10 + 10 * (16 / 100))%float |}) ∧
  NoDup (rejected_rows (rt := Sample.runtime)
           (Sample.submission "Alice" "Bob" Sample.zero_then_one_row)) ∧
  (∀ i j, row_error i = row_error j → i = j) ∧
  (∀ i it,
     row_outcome (rt := Sample.runtime)
       (getlist (form (Sample.submission "Alice" "Bob" Sample.zero_then_one_row)) "quantity[]")
       (getlist (form (Sample.submission "Alice" "Bob" Sample.zero_then_one_row)) "rate[]")
       (getlist (form (Sample.submission "Alice" "Bob" Sample.zero_then_one_row)) "amount[]")
       (getlist (form (Sample.submission "Alice" "Bob" Sample.zero_then_one_row)) "vat[]") i
     = Some it ↔
     Sample.read_float
       (nth i (getlist (form (Sample.submission "Alice" "Bob" Sample.zero_then_one_row))
                 "quantity[]") "") = Some (quantity it) ∧
     Sample.read_float
       (nth i (getlist (form (Sample.submission "Alice" "Bob" Sample.zero_then_one_row))
                 "rate[]") "") = Some (rate it) ∧
     Sample.read_float
       (nth i (getlist (form (Sample.submission "Alice" "Bob" Sample.zero_then_one_row))
                 "amount[]") "") = Some (amount it) ∧
     (if Py.truthy (nth i (getlist (form (Sample.submission "Alice" "Bob"
                                            Sample.zero_then_one_row)) "vat[]") "")
      then Sample.read_float
             (nth i (getlist (form (Sample.submission "Alice" "Bob" Sample.zero_then_one_row))
                       "vat[]") "")
      else Some 0%float) = Some (vat it) ∧
     float_truthy (quantity it) = true ∧ float_truthy (rate it) = true ∧
     float_truthy (amount it) = true).
Proof.
  apply (X5_every_row_accepted_or_reported Sample.runtime (Sample.disk [])
           (index (rt := Sample.runtime) (Sample.disk []) (Sample.always 123)
              (Sample.submission "Alice" "Bob" Sample.zero_then_one_row)).1
           (Sample.always 123) (Sample.submission "Alice" "Bob" Sample.zero_then_one_row)
           {| quotation_data :=
                {| quotation_no := "Q-123"; date := "2025-01-15";
                   client_name := "Alice"; rep := "Bob";
                   quote_items := [ {| quantity := 2; rate := 5; amount := 10; vat := 16 |} ];
                   subtotal := 10; tax := (10 * (16 / 100))%float;
                   total := (10 + 10 * (16 / 100))%float |};
              quotation_files := [];
              errors := ["Incomplete item data at row 1. Quantity, rate, amount, and VAT are required."];
              success := false; success_message := "";
              search_errors := ["No representative directories found"];
              search_quotation_no := ""; search_rep := "" |}).
  - reflexivity.
  - reflexivity.
  - simpl. lia.
  - vm_compute. reflexivity.
Defined.

(** ** Names that do not fit *)

Section LongNames.
Context {rt : Runtime}.

Lemma sub_unsafe_char_ascii (c : ascii) :
  (nat_of_ascii (if Py.safe_char c then c else "_"%char) <? 128)%nat = true.
Proof. by destruct c as [[] [] [] [] [] [] [] []]. Qed.

(** A sanitized name takes one byte per character. *)
Lemma sub_unsafe_encoded_length (s : string) :
  FS.encoded_length (Py.sub_unsafe s) = String.length s.
Proof.
  induction s as [|c s IH]; [done|].
  cbn [Py.sub_unsafe FS.encoded_length String.length].
  by rewrite sub_unsafe_char_ascii, IH.
Qed.

End LongNames.

(** X15. A representative name of more than 255 characters cannot
    become a directory: its sanitized form is as long and takes one byte
    per character. With the storage root in place and no such entry in
    it, [os.makedirs] raises, the submission is answered by the page
    with [Failed to create directory: <path>] among its errors, and the
    disk is as it was. *)
Theorem X15_long_representative_is_refused (rt : Runtime) (fs : FS.state)
    (entropy : nat -> Z) (req : request) :
  is_submission req = true →
  (255 < String.length (field_or_empty (form req) "rep"))%nat →
  FS.isdir fs (probed_dir QUOTATIONS_DIR) = true →
  FS.path_exists fs (output_dir_of (field_or_empty (form req) "rep")) = false →
  FS.fits (Py.sub_unsafe (field_or_empty (form req) "rep")) = false ∧
  FS.makedirs fs (output_dir_of (field_or_empty (form req) "rep"))
  = inl (FS.FileNameTooLong (output_dir_of (field_or_empty (form req) "rep")), fs) ∧
  ∃ sn sr ls q errs,
    index fs entropy req = (fs, page sn sr ls q errs) ∧
    ("Failed to create directory: " +:+ output_dir_of (field_or_empty (form req) "rep"))
      ∈ errs.
Proof.
  intros Hs Hlong Hroot Hex.
  set (rep_name := field_or_empty (form req) "rep") in *.
  assert (Hrep : Py.truthy rep_name = true) by (destruct rep_name; [simpl in Hlong; lia|done]).
  pose proof (sub_unsafe_is_name _ Hrep) as Hname.
  assert (Hfits : FS.fits (Py.sub_unsafe rep_name) = false).
  { unfold FS.fits, FS.NAME_MAX. rewrite sub_unsafe_encoded_length. apply Nat.leb_gt. lia. }
  pose proof (makedirs_in_directory fs QUOTATIONS_DIR _ Hname Hroot Hex) as Hm.
  rewrite Hfits in Hm. fold (output_dir_of rep_name) in Hm.
  split; [done|]. split; [done|].
  assert (Hd : ensure_dir fs (output_dir_of rep_name)
               = (fs, ["Failed to create directory: " +:+ output_dir_of rep_name])).
  { unfold ensure_dir. by rewrite Hex, Hm. }
  destruct (validated_spec fs entropy req
              ["Failed to create directory: " +:+ output_dir_of rep_name])
    as (_ & _ & _ & _ & _ & _ & He).
  destruct (index_submission fs entropy req Hs)
    as [(sn & sr & ls & errs & Hidx & _ & Herrs)|(Hnil & _)].
  - fold rep_name in Hidx, Herrs. rewrite Hd in Hidx, Herrs. simpl in Hidx, Herrs.
    eexists sn, sr, ls, _, errs. split; [exact Hidx|].
    rewrite Herrs by (by rewrite He). rewrite He. apply elem_of_cons. by left.
  - fold rep_name in Hnil. rewrite Hd in Hnil. simpl in Hnil. by rewrite He in Hnil.
Qed.

(** The theorem at work: a representative name of 256 characters. *)
Lemma X15_witness :
  FS.fits (Py.sub_unsafe
             (field_or_empty (form (Sample.submission "Alice" Sample.long_name Sample.one_row))
                "rep")) = false ∧
  FS.makedirs (Sample.disk [])
    (output_dir_of (rt := Sample.runtime)
       (field_or_empty (form (Sample.submission "Alice" Sample.long_name Sample.one_row)) "rep"))
  = inl (FS.FileNameTooLong
           (output_dir_of (rt := Sample.runtime)
              (field_or_empty (form (Sample.submission "Alice" Sample.long_name Sample.one_row))
                 "rep")),
         Sample.disk []) ∧
  ∃ sn sr ls q errs,
    index (rt := Sample.runtime) (Sample.disk []) (Sample.always 123)
      (Sample.submission "Alice" Sample.long_name Sample.one_row)
    = (Sample.disk [], page sn sr ls q errs) ∧
    ("Failed to create directory: " +:+
     output_dir_of (rt := Sample.runtime)
       (field_or_empty (form (Sample.submission "Alice" Sample.long_name Sample.one_row)) "rep"))
      ∈ errs.
Proof.
  apply (X15_long_representative_is_refused Sample.runtime (Sample.disk []) (Sample.always 123)
           (Sample.submission "Alice" Sample.long_name Sample.one_row)).
  - reflexivity.
  - vm_compute. lia.
  - reflexivity.
  - vm_compute. reflexivity.
Defined.
